(* ===== verification/_CoqProject ===== *)
-Q . S2P
Prelude.v
PyStr.v
Json.v
Vnu.v
Organize.v
FileSystem.v
Rendezvous.v
Session.v
Validator.v
Fetch.v
Ports.v
