(* ===== verification/Prelude.v ===== *)
(** * A verification library for pytest-html-validator

    The repository is a pytest plugin (three files under
    [src/pytest_html_validator/]) that validates HTML with the Nu HTML
    checker ("vnu").  Its parts and how they interact:

    - [pytest_plugin.py], fixture [a_vnu_server_url] (lines 49-112): the
      session fixture run once by every pytest-xdist worker.  The workers
      share no memory; they elect the one that starts the vnu server by
      racing on [lock_dir.mkdir()], publish the server's port as a
      directory [lock_dir/port-<p>], register each worker's use with a
      directory [lock_dir/test-<uuid>], and the owner tears the server
      down only after it sees no [test-*] entry left.
    - [utils.py], [_start_vnu_server], [wait_for_vnu_to_start],
      [get_vnu_args], [get_an_unused_port] (lines 122-193): the launcher
      the owner calls at lines 68 and 83 of the fixture, and the port
      allocator it calls first.
    - [utils.py], [get_vnu_path], [validate_url], [validate_path] (lines
      77-94), and the fixtures [validate_html_url], [validate_html_path],
      [validate_html_file] of [pytest_plugin.py] (lines 16-46): what a
      test calls to fetch the validator's JSON for a URL or a file.
    - [utils.py], [Base.dict], [Base.dump] (lines 43-47): a model printed
      as JSON with [json.dumps].
    - [utils.py], [organize_validator_results] and [raise_if_errors]
      (lines 98-119): the classifier that turns the validator's JSON
      messages into one [ExceptionGroup] per distinct error message.
    - [validator.py] and the [Collector]/[Results] classes of [utils.py]:
      [Validator.run] fetches the JSON, [ValidatorResults.exception] and
      [raises] report it as an [ExceptionGroup] of [ValidatorViolation]s,
      [ValidatorViolation.cast] classifies one message, memoised in the
      class attribute [map].

    Layout of the library (the order of [_CoqProject]):
    - [Prelude.v] (this file): Python strings as lists of code points
      ([pystr]), JSON values ([jval]), Python exceptions ([pyexc]) and
      results ([pyres]) with their bind notation in [pyv_scope], the hint
      database [pyv], the tactics and the generic list lemmas.
    - [PyStr.v]: the [str] operations the code calls ([strip],
      [startswith], slicing, [partition], [split], [str(int)], [int(str)],
      [str] of an exception), with the round trip [int(str(n)) = n].
    - [Json.v]: [json.dumps] with its defaults ([ensure_ascii], the
      separators [", "] and [": "]) and a reference decoder for it.
    - [Vnu.v], Module [Vnu]: the launcher.  The process environment is the
      record [launch_env], the OS (the port of [get_an_unused_port()],
      [Popen], [urlopen]) the oracle record [launch_io]; the global names [utils.py] reads are
      parameters, [utils_ENV_JAVA_PATH] being the binding the shipped
      module has (none).  The retry loop [wait_loop] counts its probes and
      its sleeps; [_start_vnu_server] returns the pids it spawned.
    - [Organize.v], Module [Organize]: [defaultdict]s as insertion-ordered
      association lists, [itertools.groupby], the classifier and the
      [EXCLUDE] pattern.
    - [FileSystem.v]: [mkdir], [exists], [glob], [rmtree] as a typeclass
      [FileSystem] with its POSIX laws [FileSystemLaws], and the
      executable instance on [gset path].
    - [Rendezvous.v], Module [Rendezvous]: one worker's run of the fixture
      as a program counter ([phase]) and its local variables ([worker]),
      one atomic step per filesystem call ([step_worker]), and the session
      as any interleaving of the workers' steps ([sys_step], [reachable]).
      A worker's call to [_start_vnu_server] is abstracted as its outcome
      [w_start].
    - [Session.v], Module [Session]: the composition: [w_start] is the
      outcome of a launch of [Vnu.v] ([launch_result]), and the serial
      schedule ([serial_schedule]) under which every worker is served.
    - [Validator.v], Module [Validator]: JSON access with Python's
      errors, the dataclass constructor, [from_violations],
      [results_exception], [raises], [Validator.run], the [CSS_START]
      pattern and [cast] with its memo table threaded through the calls.
    - [Fetch.v], Module [Fetch]: [get_vnu_path], [validate_url],
      [validate_path] over the oracle record [fetch_io] (subprocess,
      [read_bytes], [requests.post], the JSON parser), the fixtures'
      [Validator] instances with a [str] or [Path] url ([pyarg]),
      [Validator.run], [dataclasses.asdict], [Base.dict], [Base.dump]
      (through [Json.v]) and [Collector.configure].
    - [Ports.v], Module [Ports]: [get_an_unused_port] as operations on a
      socket state; the kernel's choice of a port is the typeclass
      [EphemeralPorts] with its laws, instantiated by Linux's default
      range; [port_io] feeds the port to the launcher of [Vnu.v], and
      [launch_world] follows the port through the allocator, another
      process that may bind it, and the [vnu] child's own [bind].

    What the theorems show (claims C1-C33, in [PROJECT.json]):
    - Rendezvous: mutual exclusion (in every reachable state one worker
      holds the lock iff [lock_dir] exists); one server per session (at
      most one vnu server runs, the current lock holder's); publication
      (a [port-*] entry names the holder's started server; every port a
      worker holds is a started server's); the teardown barrier (the
      owner passes it iff no token exists); the follower's poll loop
      (exactly [retries] polls, then [RuntimeError]; no [break]); the
      port round trip; and two counterexamples: a late worker is left
      using a terminated server, and with [NBA11Y_VNU_SERVER_URL] set the
      generator fixture never yields.  All hold for every interleaving
      and against the laws of any [FileSystem].
    - Launcher: the shipped [utils.py] raises [NameError] on every launch
      ([ENV_JAVA_PATH] is not defined there); the wait probes exactly
      [retries] times, terminates for [retries >= 0] and never returns
      for a negative [retries]; the command line puts the java path as
      the jar, and without java raises the [TypeError] of [Path(None)];
      a child is leaked when the wait fails; the command line does not
      depend on [NBA11Y_VNU_JAR_PATH] (the plugin's [ENV_VNU_JAR_PATH] is
      never read).
    - Composition: with the shipped [utils.py] no reachable state runs a
      server or gives a worker a port; when the owner's launch returns
      [(port, url, proc)], a session of any number of workers run one
      after the other reaches the state where every worker is at its
      [yield] with that port and url (liveness).
    - Classifier: the two-level dict holds exactly each (type, text)
      group in order; [raise_if_errors] equals its specification, and
      raises [KeyError] for a missing extract.
    - Validator: [raises] reports one violation per message or nothing,
      and the [TypeError] of the first message with an unknown key; the
      [KeyError] of [cast] without an extract; the ids and bases [cast]
      computes for a CSS message; the memo table's invariant.
    - Fetching: with a server no url lets both [run()] and [dump()]
      succeed ([AttributeError] on a [str], [TypeError] on a [Path]);
      the dump of a URL run decodes to its fields (through the
      round-trip lemma of [Json.v]).
    - Ports: the allocated port is in the ephemeral range and was free,
      and the call leaves the bound ports unchanged (the port is not
      reserved: two calls may return the same port); when another
      process binds the port first the child's [bind] fails, yet the
      readiness probe is answered and [_start_vnu_server] reports a
      running server.

    Bounds and fuel: [digits_of_N] recurses on a fuel [S (N.to_nat n)],
    more than the number of digits.  [wait_loop] runs on a fuel: [None]
    means the call has not returned; [retries + 1] iterations are enough
    for [retries >= 0] (with the default 10, eleven), and no fuel is
    enough for a negative [retries] against a server that never answers.
    The JSON decoder runs on a fuel of one more than the length of its
    input, which bounds the nesting.  The Linux allocator scans the
    28232 ports of 32768-60999.  The session runs on finite schedules;
    theorems about reachable states quantify over all schedules.  The
    serial schedule gives the owner 5 steps (election, token, start,
    publish) and each follower 15 (three to its token, its ten polls,
    the port check and the [yield]), exactly what they need.  Time ([time.sleep]) is counted but does
    not order the workers: every interleaving is allowed.

    Not modelled: pytest's fixture machinery (the fixture's [yield] is a
    program point; a fixture is the function it returns), the subprocess
    of [validate_url], the HTTP request of [validate_path] and
    [json.loads] (oracles of [fetch_io]), the kernel's policy for
    ephemeral ports beyond the laws of [EphemeralPorts], printing, the
    evaluation of annotations at import time (on Pythons that evaluate
    them eagerly, 3.13 and earlier, importing [utils.py] raises
    [NameError] for [TVnuResults] before any code here runs; the
    development models the module as if the import succeeded), the normalisation [str(Path(s))] applies to a path (a
    path is its string), and [ValidatorViolation[x]] of nbconvert_a11y,
    modelled as the class named [str(x)].  The source lines no
    definition translates are imports, decorators and class headers;
    the second [EXCLUDE] of [validator.py], which nothing reads (the
    classifier's [EXCLUDE] of [utils.py] is modelled); and
    [Base.__init_subclass__], whose effect (each subclass a dataclass)
    is the records' constructors with the fields in declaration order.
    The read of [NBA11Y_VNU_SERVER_URL] is the fixture's [s_env_url]. *)

From Stdlib Require Export ZArith String Ascii.
From stdpp Require Export base list gmap sets.

(** ** Python strings *)

(** A Python [str] is a sequence of Unicode code points. *)
Abbreviation pystr := (list Z).

Definition pystr_of_string (s : string) : pystr :=
  map (fun c => Z.of_N (N_of_ascii c)) (list_ascii_of_string s).

Declare Scope pyv_scope.
Delimit Scope pyv_scope with pyv.
(** [«"abc"»] is the ASCII literal ["abc"] as a Python string. *)
Notation "« s »" := (pystr_of_string s%string) (format "« s »") : pyv_scope.
Open Scope pyv_scope.

(** The two curly quotes of the validator's messages. *)
Definition LQUOTE : Z := 8220.
Definition RQUOTE : Z := 8221.

(** A filesystem path below pytest's base temporary directory, as its
    list of components. *)
Abbreviation path := (list pystr).

(** ** JSON values *)

(** A value of the validator's JSON output as [json.loads] returns it. *)
#[warnings="-register-all"]
Inductive jval :=
| JNull
| JBool (b : bool)
| JInt (z : Z)
| JStr (s : pystr)
| JList (l : list jval)
| JObj (kvs : list (pystr * jval)).

(** ** Python exceptions and results *)

#[warnings="-register-all"]
Inductive pyexc :=
| Exception (msg : pystr)
| ExceptionGroup (msg : pystr) (excs : list pyexc)
| RuntimeError (msg : pystr)
| KeyError (key : pystr)
| ValueError (msg : pystr)
| TypeError (msg : pystr)
| AttributeError (msg : pystr)
| NameError (name : pystr)
| OSError (msg : pystr)
| ViolationExc (fields : list (pystr * jval))
| FileExistsError (p : path)
| FileNotFoundError (p : path)
| StopIteration.

(** A Python call either returns a value or raises. *)
Inductive pyres (A : Type) :=
| Ok (a : A)
| Raise (e : pyexc).
Arguments Ok {A} a.
Arguments Raise {A} e.

Definition pyres_bind {A B} (r : pyres A) (k : A -> pyres B) : pyres B :=
  match r with
  | Ok a => k a
  | Raise e => Raise e
  end.

Notation "x <- r ;; k" := (pyres_bind r (fun x => k))
  (at level 100, r at next level, right associativity) : pyv_scope.

Definition is_ok {A} (r : pyres A) : bool :=
  match r with Ok _ => true | Raise _ => false end.

(** ** Automation *)

Create HintDb pyv.

(** [invc H]: invert [H] and substitute its equations. *)
Ltac invc H := inversion H; subst; clear H.

(** Destruct the first [if] or [match] on a [bool_decide] or [decide]
    in the goal, keeping the equation. *)
Ltac case_dec :=
  match goal with
  | |- context [bool_decide ?P] => destruct (bool_decide_reflect P)
  | |- context [decide ?P] => destruct (decide P)
  end.

(** ** Lists *)

Section ListFacts.
Context {A : Type}.

(** Counting the elements that satisfy [P] after an in-place update. *)
Lemma length_filter_insert (P : A -> Prop) `{!forall x, Decision (P x)}
    (l : list A) (i : nat) (x y : A) :
  l !! i = Some x ->
  length (filter P (<[i:=y]> l)) + length (filter P [x])
  = length (filter P l) + length (filter P [y]).
Proof.
  revert i. induction l as [|z l IH]; intros [|i] Hi; simplify_eq/=.
  - rewrite !filter_cons, !filter_nil. repeat case_decide; simpl; lia.
  - specialize (IH i Hi).
    rewrite (filter_cons P z (<[i:=y]> l)), (filter_cons P z l).
    case_decide; simpl; lia.
Qed.

Lemma filter_nil_forall (P : A -> Prop) `{!forall x, Decision (P x)} (l : list A) :
  (forall x, x ∈ l -> ~ P x) -> filter P l = [].
Proof.
  induction l as [|y l IH]; intros Hl; [done|].
  rewrite filter_cons_False by (apply Hl; set_solver). apply IH. set_solver.
Qed.

Lemma length_filter_lookup (P : A -> Prop) `{!forall x, Decision (P x)} (l : list A) i x :
  l !! i = Some x -> P x -> 0 < length (filter P l).
Proof.
  intros Hi Hx. apply list_elem_of_lookup_2 in Hi.
  destruct (filter P l) eqn:E; [|simpl; lia]. exfalso.
  exact (filter_nil_not_elem_of P l x E Hx Hi).
Qed.

Lemma length_filter_singleton (P : A -> Prop) `{!forall x, Decision (P x)} x :
  length (filter P [x]) = if decide (P x) then 1 else 0.
Proof. rewrite filter_cons, filter_nil. by case_decide. Qed.

(** An element of [l] whose index is not [i] survives the update. *)
Lemma list_lookup_insert_other (l : list A) (i j : nat) (y : A) :
  i <> j -> <[i:=y]> l !! j = l !! j.
Proof. apply list_lookup_insert_ne. Qed.

(** Two elements satisfying [P] in a list with at most one such
    element are at the same index. *)
Lemma filter_length_le1_unique (P : A -> Prop) `{!forall x, Decision (P x)}
    (l : list A) (i j : nat) (x y : A) :
  length (filter P l) <= 1 ->
  l !! i = Some x -> l !! j = Some y -> P x -> P y -> i = j.
Proof.
  revert i j. induction l as [|z l IH]; intros [|i] [|j] Hlen Hi Hj Hx Hy;
    simplify_eq/=; auto.
  - rewrite filter_cons_True in Hlen by done. simpl in Hlen.
    assert (y ∈ filter P l) as Hin.
    { apply list_elem_of_filter. split; [done|]. by eapply list_elem_of_lookup_2. }
    destruct (filter P l); [set_solver | simpl in Hlen; lia].
  - rewrite filter_cons_True in Hlen by done. simpl in Hlen.
    assert (x ∈ filter P l) as Hin.
    { apply list_elem_of_filter. split; [done|]. by eapply list_elem_of_lookup_2. }
    destruct (filter P l); [set_solver | simpl in Hlen; lia].
  - f_equal. apply IH; auto.
    rewrite filter_cons in Hlen. case_decide; simpl in Hlen; lia.
Qed.

(** No element has key [k] among those satisfying [P] iff [k] is not a
    key of the elements satisfying [P]. *)
Lemma filter_key_nil {K} `{EqDecision K} (f : A -> K) (P : A -> Prop) `{!forall x, Decision (P x)}
    (k : K) (l : list A) :
  filter (fun x => f x = k /\ P x) l = [] <-> k ∉ map f (filter P l).
Proof.
  split.
  - intros E Hk. apply list_elem_of_In, in_map_iff in Hk as (x & <- & Hx).
    apply list_elem_of_In, list_elem_of_filter in Hx as [HP Hx].
    exact (filter_nil_not_elem_of _ _ x E (conj eq_refl HP) Hx).
  - intros Hk. apply filter_nil_forall. intros x Hx [<- HP]. apply Hk.
    apply list_elem_of_In, in_map_iff. exists x. split; [done|].
    apply list_elem_of_In, list_elem_of_filter. done.
Qed.
End ListFacts.

#[export] Hint Resolve list_lookup_insert_other : pyv.
