(* ===== verification/PyStr.v ===== *)
(** * Python string methods

    The [str] operations that the plugin's code calls, on strings as
    lists of code points: [str.isspace] (the whitespace of [str.strip]
    and of the regular expression class [\s]), [strip], [startswith],
    the slices [s[k:]] and [s[1:-1]], [partition], [split] on a
    one-character separator, [str(n)] for integers and [int(s)] in base
    10.  The round trip [int(str(n)) = n] is proved here for every
    integer. *)

From S2P Require Import Prelude.

Local Open Scope Z_scope.

(** ** Whitespace and stripping *)

(** The code points for which Python's [str.isspace] holds. *)
Definition py_isspace (c : Z) : bool :=
  ((9 <=? c) && (c <=? 13)) || ((28 <=? c) && (c <=? 32)) ||
  (c =? 133) || (c =? 160) || (c =? 5760) ||
  ((8192 <=? c) && (c <=? 8202)) || (c =? 8232) || (c =? 8233) ||
  (c =? 8239) || (c =? 8287) || (c =? 12288).

Fixpoint lstrip (s : pystr) : pystr :=
  match s with
  | [] => []
  | c :: s' => if py_isspace c then lstrip s' else s
  end.

Definition rstrip (s : pystr) : pystr := reverse (lstrip (reverse s)).

(** [s.strip()] *)
Definition strip (s : pystr) : pystr := rstrip (lstrip s).

(** [s.startswith(pre)] *)
Definition startswith (s pre : pystr) : bool := bool_decide (pre `prefix_of` s).

(** [s[k:]] for [k >= 0]. *)
Definition slice_from (k : nat) (s : pystr) : pystr := drop k s.

(** [s[1:-1]]: empty when [s] has fewer than two code points. *)
Definition slice_1_m1 (s : pystr) : pystr := take (length s - 2)%nat (drop 1 s).

(** ** [partition] and [split] *)

(** The text before and after the first occurrence of a non-empty [sep]. *)
Fixpoint partition_go (sep s : pystr) : option (pystr * pystr) :=
  if bool_decide (sep `prefix_of` s) then Some ([], drop (length sep) s)
  else match s with
       | [] => None
       | c :: s' => (fun '(a, b) => (c :: a, b)) <$> partition_go sep s'
       end.

(** [s.partition(sep)]: [(head, sep, tail)] at the first occurrence of
    [sep], [(s, "", "")] when there is none, [ValueError] for an empty
    separator. *)
Definition partition (s sep : pystr) : pyres (pystr * pystr * pystr) :=
  match sep with
  | [] => Raise (ValueError «"empty separator"»)
  | _ => Ok (match partition_go sep s with
            | Some (a, b) => (a, sep, b)
            | None => (s, [], [])
            end)
  end.

(** [s.split(d)] for a one-character separator [d]. *)
Fixpoint split_char (d : Z) (s : pystr) : list pystr :=
  match s with
  | [] => [[]]
  | c :: s' =>
      if bool_decide (c = d) then [] :: split_char d s'
      else match split_char d s' with
           | seg :: segs => (c :: seg) :: segs
           | [] => [[c]]
           end
  end.

(** [s.split(d)[-1]]; [split] never returns an empty list. *)
Definition split_last (d : Z) (s : pystr) : pystr :=
  default [] (last (split_char d s)).

(** ** Integers *)

Definition is_digit (c : Z) : bool := (48 <=? c) && (c <=? 57).

(** The decimal digits of [n], most significant first. *)
Fixpoint digits_of_N_fuel (fuel : nat) (n : N) : pystr :=
  match fuel with
  | O => []
  | S f =>
      (if (n <? 10)%N then [] else digits_of_N_fuel f (n / 10)%N)
        ++ [48 + Z.of_N (n mod 10)]
  end.

Definition digits_of_N (n : N) : pystr := digits_of_N_fuel (S (N.to_nat n)) n.

(** [str(z)] for a Python [int]. *)
Definition str_of_Z (z : Z) : pystr :=
  if z <? 0 then 45 :: digits_of_N (Z.to_N (- z)) else digits_of_N (Z.to_N z).

(** The value of a run of digits in which single underscores may
    separate two digits, as [int()] accepts it. *)
Fixpoint parse_digits (acc : Z) (s : pystr) : option Z :=
  match s with
  | [] => Some acc
  | c :: s' =>
      if is_digit c then parse_digits (10 * acc + (c - 48)) s'
      else if bool_decide (c = 95) then
        match s' with
        | d :: _ => if is_digit d then parse_digits acc s' else None
        | [] => None
        end
      else None
  end.

(** [int(s)] with base 10 on ASCII digits: surrounding whitespace, an
    optional sign, then digits with single underscores between them.
    Python also accepts the decimal digits of other scripts; those are a
    [ValueError] here. *)
Definition py_int (s : pystr) : pyres Z :=
  let t := strip s in
  let '(sgn, body) :=
    match t with
    | c :: r => if bool_decide (c = 45) then (-1, r)
               else if bool_decide (c = 43) then (1, r) else (1, t)
    | [] => (1, [])
    end in
  match body with
  | c :: _ =>
      if is_digit c then
        match parse_digits 0 body with
        | Some v => Ok (sgn * v)
        | None => Raise (ValueError s)
        end
      else Raise (ValueError s)
  | [] => Raise (ValueError s)
  end.

(** [sep.join(l)] *)
Fixpoint join_with (sep : pystr) (l : list pystr) : pystr :=
  match l with
  | [] => []
  | [x] => x
  | x :: l' => x ++ sep ++ join_with sep l'
  end.

(** ** [str()] of an exception *)

(** A path as [str(Path)] prints it below the base directory. *)
Fixpoint path_str (p : path) : pystr :=
  match p with
  | [] => []
  | [c] => c
  | c :: p' => c ++ «"/"» ++ path_str p'
  end.

(** [str(e)]: the message of an exception, as Python formats it ([repr]
    of the key for [KeyError], the count of sub-exceptions for
    [ExceptionGroup]). *)
Definition exc_str (e : pyexc) : pystr :=
  match e with
  | Exception m | RuntimeError m | ValueError m | TypeError m | AttributeError m | OSError m => m
  | ExceptionGroup m excs =>
      m ++ «" ("» ++ str_of_Z (Z.of_nat (length excs)) ++
      (if (length excs =? 1)%nat then «" sub-exception)"» else «" sub-exceptions)"»)
  | KeyError k => «"'"» ++ k ++ «"'"»
  | NameError n => «"name '"» ++ n ++ «"' is not defined"»
  | FileExistsError p => «"[Errno 17] File exists: '"» ++ path_str p ++ «"'"»
  | FileNotFoundError p => «"[Errno 2] No such file or directory: '"» ++ path_str p ++ «"'"»
  | StopIteration => []
  | ViolationExc _ => []
  end.

(** [f"{x}"] of [x : Exception | None]. *)
Definition opt_exc_str (e : option pyexc) : pystr :=
  match e with Some e => exc_str e | None => «"None"» end.

(** [f"{b}"] of a [bool]. *)
Definition bool_str (b : bool) : pystr := if b then «"True"» else «"False"».

(** ** Lemmas *)

Lemma digit_code_is_digit n : is_digit (48 + Z.of_N (n mod 10)) = true.
Proof.
  pose proof (N.mod_lt n 10 ltac:(lia)). unfold is_digit.
  generalize dependent (n mod 10)%N. intros m Hm.
  apply andb_true_intro; split; apply Z.leb_le; lia.
Qed.

Lemma digits_of_N_fuel_digits f n : Forall (fun c => is_digit c = true) (digits_of_N_fuel f n).
Proof.
  revert n. induction f as [|f IH]; intros n; simpl; [constructor|].
  apply Forall_app. split.
  - destruct (n <? 10)%N; [constructor | apply IH].
  - repeat constructor. apply digit_code_is_digit.
Qed.

Lemma digits_of_N_fuel_nonempty f n : f <> O -> digits_of_N_fuel f n <> [].
Proof. destruct f; [done|]. simpl. intros _ H. by apply app_nil in H as [_ ?]. Qed.

Lemma parse_digits_app acc s t :
  Forall (fun c => is_digit c = true) s ->
  parse_digits acc (s ++ t) = parse_digits (fold_left (fun a c => 10 * a + (c - 48)) s acc) t.
Proof.
  revert acc. induction s as [|c s IH]; intros acc Hs; [done|].
  inversion Hs as [|? ? Hc Hs']; subst. simpl. rewrite Hc. by apply IH.
Qed.

Lemma parse_digits_all acc s :
  Forall (fun c => is_digit c = true) s ->
  parse_digits acc s = Some (fold_left (fun a c => 10 * a + (c - 48)) s acc).
Proof. intros Hs. rewrite <- (app_nil_r s) at 1. by rewrite parse_digits_app. Qed.

(** Enough fuel: the printer is the decimal expansion. *)
Lemma digits_of_N_fuel_enough f n :
  (N.to_nat n < f)%nat ->
  parse_digits 0 (digits_of_N_fuel f n) = Some (Z.of_N n).
Proof.
  revert n. induction f as [|f IH]; intros n Hf; [lia|]. simpl.
  destruct (N.ltb_spec n 10) as [Hlt|Hge].
  - simpl. rewrite digit_code_is_digit, N.mod_small by lia. f_equal. lia.
  - rewrite parse_digits_app by apply digits_of_N_fuel_digits.
    assert (Hdiv : (N.to_nat (n / 10) < f)%nat).
    { pose proof (N.div_lt n 10). lia. }
    pose proof (IH _ Hdiv) as Hp.
    rewrite parse_digits_all in Hp by apply digits_of_N_fuel_digits.
    injection Hp as Hp. simpl. rewrite Hp, digit_code_is_digit.
    f_equal. pose proof (N.div_mod n 10 ltac:(lia)). lia.
Qed.

Lemma strip_id (s : pystr) c r d :
  s = c :: r -> py_isspace c = false -> last s = Some d -> py_isspace d = false ->
  strip s = s.
Proof.
  intros Hs Hc Hlast Hd. apply last_Some in Hlast as [l' Hl].
  unfold strip, rstrip. rewrite Hs at 1. cbn [lstrip]. rewrite Hc, <- Hs, Hl, reverse_snoc.
  cbn [lstrip]. rewrite Hd, <- reverse_snoc. apply reverse_involutive.
Qed.

Lemma digit_not_special c :
  is_digit c = true -> py_isspace c = false /\ c <> 45 /\ c <> 43.
Proof.
  unfold is_digit. intros [H1 H2]%andb_prop. apply Z.leb_le in H1, H2.
  assert (c = 48 \/ c = 49 \/ c = 50 \/ c = 51 \/ c = 52 \/ c = 53 \/ c = 54
          \/ c = 55 \/ c = 56 \/ c = 57) as Hc by lia.
  repeat destruct Hc as [-> | Hc]; subst; (split; [reflexivity | lia]).
Qed.

Lemma digits_of_N_shape n :
  exists c r d, digits_of_N n = c :: r /\ last (digits_of_N n) = Some d /\
    is_digit c = true /\ is_digit d = true.
Proof.
  pose proof (digits_of_N_fuel_digits (S (N.to_nat n)) n) as Hall.
  pose proof (digits_of_N_fuel_nonempty (S (N.to_nat n)) n ltac:(done)) as Hne.
  fold (digits_of_N n) in Hall, Hne.
  destruct (digits_of_N n) as [|c r] eqn:E; [done|].
  destruct (last (c :: r)) as [d|] eqn:El; [|by apply last_None in El].
  exists c, r, d. repeat split; [by inversion Hall |].
  rewrite Forall_forall in Hall. apply Hall. by apply last_Some_elem_of.
Qed.

Lemma parse_digits_of_N n : parse_digits 0 (digits_of_N n) = Some (Z.of_N n).
Proof. apply digits_of_N_fuel_enough. lia. Qed.

(** Round trip: [int(str(z)) == z] for every Python [int]. *)
Lemma py_int_str_of_Z z : py_int (str_of_Z z) = Ok z.
Proof.
  destruct (digits_of_N_shape (Z.to_N (Z.abs z))) as (c & r & d & Hs & Hl & Hc & Hd).
  pose proof (digit_not_special c Hc) as (Hcs & Hc45 & Hc43).
  pose proof (digit_not_special d Hd) as (Hds & _ & _).
  pose proof (parse_digits_of_N (Z.to_N (Z.abs z))) as Hp.
  unfold py_int, str_of_Z. destruct (Z.ltb_spec z 0) as [Hz|Hz].
  - replace (Z.to_N (- z)) with (Z.to_N (Z.abs z)) by lia.
    rewrite (strip_id (45 :: digits_of_N _) 45 (digits_of_N (Z.to_N (Z.abs z))) d);
      [| done | done | by rewrite last_cons, Hl | done].
    rewrite bool_decide_eq_true_2 by done. rewrite Hs, Hc, <- Hs, Hp. f_equal. lia.
  - replace (Z.to_N z) with (Z.to_N (Z.abs z)) by lia.
    rewrite (strip_id _ c r d Hs Hcs Hl Hds), Hs.
    rewrite !bool_decide_eq_false_2 by done. rewrite Hc, <- Hs, Hp. f_equal. lia.
Qed.

Lemma split_char_nonempty d s : split_char d s <> [].
Proof.
  induction s as [|c s IH]; simpl; [done|].
  case_decide; [done|]. destruct (split_char d s); done.
Qed.

(** A separator splits the string into the splits of both sides. *)
Lemma split_char_app_sep d s1 s2 :
  split_char d (s1 ++ d :: s2) = split_char d s1 ++ split_char d s2.
Proof.
  induction s1 as [|c s1 IH]; simpl.
  - by rewrite bool_decide_eq_true_2.
  - case_decide; [by rewrite IH|]. rewrite IH.
    destruct (split_char d s1) as [|seg segs] eqn:E; [by apply split_char_nonempty in E|].
    done.
Qed.

Lemma split_char_no_sep d s : d ∉ s -> split_char d s = [s].
Proof.
  induction s as [|c s IH]; intros Hd; simpl; [done|].
  rewrite bool_decide_eq_false_2 by set_solver. rewrite IH by set_solver. done.
Qed.

(** [(s1 + d + s2).split(d)[-1] == s2] when [d] does not occur in [s2]. *)
Lemma split_last_app_sep d s1 s2 : d ∉ s2 -> split_last d (s1 ++ d :: s2) = s2.
Proof.
  intros Hd. unfold split_last. rewrite split_char_app_sep, (split_char_no_sep d s2) by done.
  by rewrite last_snoc.
Qed.

Lemma digits_of_N_no_dash n : 45 ∉ digits_of_N n.
Proof.
  intros Hin. pose proof (digits_of_N_fuel_digits (S (N.to_nat n)) n) as Hall.
  rewrite Forall_forall in Hall. apply Hall in Hin. by apply digit_not_special in Hin as (_ & ? & _).
Qed.
