(* ===== verification/Json.v ===== *)
(** * [json.dumps] and its inverse

    [Base.dump] ([utils.py], lines 46-47) prints a model with
    [json.dumps(self.dict())]: Python's defaults, [ensure_ascii=True] and
    the separators [", "] and [": "].  [json_dumps] is that printer on
    [jval]: a code point outside the printable ASCII range [0x20-0x7e] is
    written [\uXXXX] (four lower-case hex digits), one above [0xffff] as
    the UTF-16 surrogate pair [\uD8xx\uDCxx] computed with the shifts and
    masks of [json.encoder.py_encode_basestring_ascii], and seven
    characters have short escapes: the double quote, the backslash and
    the controls written [\b \f \n \r \t].

    [dec_value] is a reference decoder for the documents [json_dumps]
    writes, following [json.scanner]'s string scanner on [\uXXXX] escapes
    (a high surrogate followed by an escaped low one is one code point).
    This file models the standard library, not the repository: its
    lemmas serve [Fetch.v], where the dump of a validator is decoded
    back to its fields.  Decoding gives the value back for every value
    whose strings are sequences of Unicode scalar values (no surrogate
    code points); a string holding a surrogate pair prints like the
    astral character the pair encodes, so [json.dumps] is not injective
    beyond them. *)

From S2P Require Import Prelude PyStr.

Local Open Scope Z_scope.

(** ** The printer *)

(** A hex digit in lower case, for [0 <= d < 16]. *)
Definition hex_digit (d : Z) : Z := if d <? 10 then 48 + d else 87 + d.

(** ['{0:04x}'.format(n)] for [0 <= n < 0x10000], the only arguments the
    encoder gives it. *)
Definition hex4 (n : Z) : pystr :=
  [hex_digit (n / 4096 mod 16); hex_digit (n / 256 mod 16);
   hex_digit (n / 16 mod 16); hex_digit (n mod 16)].

(** ['\\u{0:04x}'.format(n)] *)
Definition u_escape (n : Z) : pystr := 92 :: 117 :: hex4 n.

(** [ESCAPE_DCT] of [json.encoder]: the short escapes. *)
Definition short_escape (c : Z) : option pystr :=
  if c =? 92 then Some [92; 92]
  else if c =? 34 then Some [92; 34]
  else if c =? 8 then Some [92; 98]
  else if c =? 12 then Some [92; 102]
  else if c =? 10 then Some [92; 110]
  else if c =? 13 then Some [92; 114]
  else if c =? 9 then Some [92; 116]
  else None.

(** [replace] of [py_encode_basestring_ascii] on one code point: its
    pattern [ESCAPE_ASCII] leaves printable ASCII other than the double
    quote and the backslash alone. *)
Definition escape_char (c : Z) : pystr :=
  match short_escape c with
  | Some e => e
  | None =>
      if (32 <=? c) && (c <=? 126) then [c]
      else if c <? 65536 then u_escape c
      else
        let n := c - 65536 in
        let s1 := Z.lor 55296 (Z.land (Z.shiftr n 10) 1023) in
        let s2 := Z.lor 56320 (Z.land n 1023) in
        u_escape s1 ++ u_escape s2
  end.

(** [py_encode_basestring_ascii(s)]: the quoted, escaped string. *)
Definition dumps_str (s : pystr) : pystr := 34 :: concat (map escape_char s) ++ [34].

(** [json.dumps(v)] with the default arguments. *)
Fixpoint json_dumps (v : jval) : pystr :=
  match v with
  | JNull => «"null"»
  | JBool true => «"true"»
  | JBool false => «"false"»
  | JInt z => str_of_Z z
  | JStr s => dumps_str s
  | JList l => 91 :: join_with «", "» (map json_dumps l) ++ [93]
  | JObj kvs =>
      123 :: join_with «", "» (map (fun '(k, x) => dumps_str k ++ «": "» ++ json_dumps x) kvs)
        ++ [125]
  end.

(** ** The reference decoder *)

Definition hex_val (c : Z) : option Z :=
  if (48 <=? c) && (c <=? 57) then Some (c - 48)
  else if (97 <=? c) && (c <=? 102) then Some (c - 87)
  else if (65 <=? c) && (c <=? 70) then Some (c - 55)
  else None.

(** [_decode_uXXXX]: the value of four hex digits. *)
Definition hex4_val (a b c d : Z) : option Z :=
  match hex_val a, hex_val b, hex_val c, hex_val d with
  | Some w, Some x, Some y, Some z => Some (((w * 16 + x) * 16 + y) * 16 + z)
  | _, _, _, _ => None
  end.

Definition is_high (n : Z) : bool := (55296 <=? n) && (n <=? 56319).
Definition is_low (n : Z) : bool := (56320 <=? n) && (n <=? 57343).

(** The code point of a surrogate pair. *)
Definition combine_pair (hi lo : Z) : Z := 65536 + (hi - 55296) * 1024 + (lo - 56320).

Definition unescape_short (e : Z) : option Z :=
  if e =? 34 then Some 34 else if e =? 92 then Some 92 else if e =? 47 then Some 47
  else if e =? 98 then Some 8 else if e =? 102 then Some 12 else if e =? 110 then Some 10
  else if e =? 114 then Some 13 else if e =? 116 then Some 9 else None.

Definition cons_fst {A B} (a : A) (p : option (list A * B)) : option (list A * B) :=
  (fun '(t, r) => (a :: t, r)) <$> p.

(** The body of a string after its opening quote: its code points and
    what follows the closing quote.  A raw control character is an
    error, as in strict mode. *)
Fixpoint scan_string (s : pystr) : option (pystr * pystr) :=
  match s with
  | [] => None
  | c :: r =>
      if c =? 34 then Some ([], r)
      else if c =? 92 then
        match r with
        | e :: r1 =>
            if e =? 117 then
              match r1 with
              | a :: b :: c' :: d :: r2 =>
                  match hex4_val a b c' d with
                  | None => None
                  | Some n =>
                      if is_high n then
                        match r2 with
                        | x :: y :: a' :: b' :: c'' :: d' :: r3 =>
                            if (x =? 92) && (y =? 117) then
                              match hex4_val a' b' c'' d' with
                              | Some m =>
                                  if is_low m then cons_fst (combine_pair n m) (scan_string r3)
                                  else cons_fst n (scan_string r2)
                              | None => None
                              end
                            else cons_fst n (scan_string r2)
                        | _ => cons_fst n (scan_string r2)
                        end
                      else cons_fst n (scan_string r2)
                  end
              | _ => None
              end
            else match unescape_short e with
                 | Some ch => cons_fst ch (scan_string r1)
                 | None => None
                 end
        | [] => None
        end
      else if c <? 32 then None
      else cons_fst c (scan_string r)
  end.

(** The longest prefix of decimal digits. *)
Fixpoint digit_run (s : pystr) : pystr * pystr :=
  match s with
  | c :: r => if is_digit c then let '(ds, t) := digit_run r in (c :: ds, t) else ([], s)
  | [] => ([], [])
  end.

Definition digits_value (ds : pystr) : Z := fold_left (fun a c => 10 * a + (c - 48)) ds 0.

(** An integer: an optional minus sign and digits. *)
Definition dec_number (s : pystr) : option (jval * pystr) :=
  let '(neg, s1) := match s with
                    | c :: r => if c =? 45 then (true, r) else (false, s)
                    | [] => (false, s)
                    end in
  match digit_run s1 with
  | ([], _) => None
  | (ds, r) => Some (JInt (if neg then - digits_value ds else digits_value ds), r)
  end.

(** The keyword [w] followed by the rest of the input. *)
Definition dec_word (w : pystr) (v : jval) (s : pystr) : option (jval * pystr) :=
  if bool_decide (take (length w) s = w) then Some (v, drop (length w) s) else None.

Fixpoint dec_value (fuel : nat) (s : pystr) : option (jval * pystr) :=
  match fuel with
  | O => None
  | S f =>
      match s with
      | [] => None
      | c :: r =>
          if c =? 110 then dec_word «"ull"» JNull r
          else if c =? 116 then dec_word «"rue"» (JBool true) r
          else if c =? 102 then dec_word «"alse"» (JBool false) r
          else if c =? 34 then (fun '(t, r') => (JStr t, r')) <$> scan_string r
          else if c =? 91 then
            match r with
            | d :: r' =>
                if d =? 93 then Some (JList [], r')
                else (fun '(l, r'') => (JList l, r'')) <$> dec_items f r
            | [] => None
            end
          else if c =? 123 then
            match r with
            | d :: r' =>
                if d =? 125 then Some (JObj [], r')
                else (fun '(l, r'') => (JObj l, r'')) <$> dec_members f r
            | [] => None
            end
          else dec_number s
      end
  end
with dec_items (fuel : nat) (s : pystr) : option (list jval * pystr) :=
  match fuel with
  | O => None
  | S f =>
      match dec_value f s with
      | Some (v, c :: r) =>
          if c =? 93 then Some ([v], r)
          else if c =? 44 then
            match r with
            | d :: r' => if d =? 32 then cons_fst v (dec_items f r') else None
            | [] => None
            end
          else None
      | _ => None
      end
  end
with dec_members (fuel : nat) (s : pystr) : option (list (pystr * jval) * pystr) :=
  match fuel with
  | O => None
  | S f =>
      match s with
      | c :: r =>
          if c =? 34 then
            match scan_string r with
            | Some (k, c1 :: c2 :: r2) =>
                if (c1 =? 58) && (c2 =? 32) then
                  match dec_value f r2 with
                  | Some (v, d :: r4) =>
                      if d =? 125 then Some ([(k, v)], r4)
                      else if d =? 44 then
                        match r4 with
                        | e :: r5 => if e =? 32 then cons_fst (k, v) (dec_members f r5) else None
                        | [] => None
                        end
                      else None
                  | _ => None
                  end
                else None
            | _ => None
            end
          else None
      | [] => None
      end
  end.

(** A whole document. *)
Definition json_decode (s : pystr) : option jval :=
  match dec_value (S (length s)) s with
  | Some (v, []) => Some v
  | _ => None
  end.

(** ** Unicode scalar values *)

(** A code point that is not a surrogate. *)
Definition scalar_ok (c : Z) : bool :=
  (0 <=? c) && (c <=? 1114111) && negb ((55296 <=? c) && (c <=? 57343)).

Fixpoint jscalars_ok (v : jval) : bool :=
  match v with
  | JStr s => forallb scalar_ok s
  | JList l => forallb jscalars_ok l
  | JObj kvs => forallb (fun '(k, x) => forallb scalar_ok k && jscalars_ok x) kvs
  | _ => true
  end.

(** What may follow a number: anything but a digit. *)
Definition no_digit_head (r : pystr) : bool :=
  match r with c :: _ => negb (is_digit c) | [] => true end.

(** The decoder reads [json_dumps v] back, followed by any [r] that does
    not start with a digit, given more fuel than the printed length. *)
Definition dumps_decodes (v : jval) : Prop :=
  forall fuel r, (length (json_dumps v) < fuel)%nat -> no_digit_head r = true ->
  dec_value fuel (json_dumps v ++ r) = Some (v, r).

(** ** Induction on JSON values *)

Section JvalInd.
Variable P : jval -> Prop.
Hypothesis HNull : P JNull.
Hypothesis HBool : forall b, P (JBool b).
Hypothesis HInt : forall z, P (JInt z).
Hypothesis HStr : forall s, P (JStr s).
Hypothesis HList : forall l, Forall P l -> P (JList l).
Hypothesis HObj : forall kvs, Forall (fun kv => P kv.2) kvs -> P (JObj kvs).

Fixpoint jval_ind' (v : jval) : P v :=
  match v with
  | JNull => HNull
  | JBool b => HBool b
  | JInt z => HInt z
  | JStr s => HStr s
  | JList l =>
      HList l ((fix go (l : list jval) : Forall P l :=
                  match l with
                  | [] => List.Forall_nil _
                  | x :: l' => List.Forall_cons _ _ _ (jval_ind' x) (go l')
                  end) l)
  | JObj kvs =>
      HObj kvs ((fix go (kvs : list (pystr * jval)) : Forall (fun kv => P kv.2) kvs :=
                   match kvs with
                   | [] => List.Forall_nil _
                   | kv :: kvs' => List.Forall_cons _ _ _ (jval_ind' kv.2) (go kvs')
                   end) kvs)
  end.
End JvalInd.

(** ** Hex digits *)

Lemma hex_val_hex_digit d : 0 <= d < 16 -> hex_val (hex_digit d) = Some d.
Proof.
  intros Hd. unfold hex_val, hex_digit.
  destruct (Z.ltb_spec d 10); repeat (case_match; rewrite ?andb_true_iff, ?andb_false_iff,
    ?Z.leb_le, ?Z.leb_gt in *); f_equal; lia.
Qed.

(** Four hex digits read back as the number they print. *)
Lemma hex4_val_hex4 n :
  0 <= n < 65536 ->
  hex4_val (hex_digit (n / 4096 mod 16)) (hex_digit (n / 256 mod 16))
           (hex_digit (n / 16 mod 16)) (hex_digit (n mod 16)) = Some n.
Proof.
  intros Hn. unfold hex4_val.
  rewrite !hex_val_hex_digit by (apply Z.mod_pos_bound; lia).
  f_equal. Z.div_mod_to_equations. lia.
Qed.

(** ** Surrogate pairs *)

Lemma lor_low (a y : Z) :
  Z.land a 1023 = 0 -> 0 <= y < 1024 -> Z.lor a y = a + y.
Proof.
  intros Ha Hy. assert (Hand : Z.land a y = 0).
  { rewrite <- (Z.mod_small y 1024) by lia.
    change 1024 with (2 ^ 10). rewrite <- Z.land_ones by lia.
    rewrite (Z.land_comm y), Z.land_assoc. change (Z.ones 10) with 1023. by rewrite Ha. }
  rewrite <- Z.lxor_lor by done. by rewrite Z.add_nocarry_lxor.
Qed.

Lemma land_1023 x : Z.land x 1023 = x mod 1024.
Proof. change 1023 with (Z.ones 10). rewrite Z.land_ones by lia. done. Qed.

(** The two halves of the pair the encoder writes for [65536 + n]. *)
Lemma surrogate_halves n :
  0 <= n < 1048576 ->
  Z.lor 55296 (Z.land (Z.shiftr n 10) 1023) = 55296 + n / 1024 /\
  Z.lor 56320 (Z.land n 1023) = 56320 + n mod 1024.
Proof.
  intros Hn. rewrite !land_1023, Z.shiftr_div_pow2 by lia. change (2 ^ 10) with 1024.
  rewrite (Z.mod_small (n / 1024)) by (Z.div_mod_to_equations; lia).
  split; apply lor_low; try reflexivity.
  - Z.div_mod_to_equations. lia.
  - apply Z.mod_pos_bound. lia.
Qed.

(** ** Scanning what the encoder writes *)

Lemma scan_u_escape n r :
  0 <= n < 65536 -> is_high n = false ->
  scan_string (u_escape n ++ r) = cons_fst n (scan_string r).
Proof.
  intros Hn Hh. pose proof (hex4_val_hex4 n Hn) as Hv. unfold u_escape, hex4.
  remember (hex_digit (n / 4096 mod 16)) as a. remember (hex_digit (n / 256 mod 16)) as b.
  remember (hex_digit (n / 16 mod 16)) as c. remember (hex_digit (n mod 16)) as d.
  simpl. rewrite Hv, Hh. reflexivity.
Qed.

Lemma scan_u_pair hi lo r :
  0 <= hi < 65536 -> 0 <= lo < 65536 -> is_high hi = true -> is_low lo = true ->
  scan_string (u_escape hi ++ u_escape lo ++ r) = cons_fst (combine_pair hi lo) (scan_string r).
Proof.
  intros Hhi Hlo Hh Hl. pose proof (hex4_val_hex4 hi Hhi) as Hv. pose proof (hex4_val_hex4 lo Hlo) as Hw.
  unfold u_escape, hex4.
  remember (hex_digit (hi / 4096 mod 16)) as a. remember (hex_digit (hi / 256 mod 16)) as b.
  remember (hex_digit (hi / 16 mod 16)) as c. remember (hex_digit (hi mod 16)) as d.
  remember (hex_digit (lo / 4096 mod 16)) as a'. remember (hex_digit (lo / 256 mod 16)) as b'.
  remember (hex_digit (lo / 16 mod 16)) as c'. remember (hex_digit (lo mod 16)) as d'.
  simpl. rewrite Hv, Hh. simpl. rewrite Hw, Hl. reflexivity.
Qed.

(** One escaped scalar value scans back to itself. *)
Lemma scan_escape_char c r :
  scalar_ok c = true ->
  scan_string (escape_char c ++ r) = cons_fst c (scan_string r).
Proof.
  unfold scalar_ok. rewrite !andb_true_iff, negb_true_iff, andb_false_iff, !Z.leb_le, !Z.leb_gt.
  intros Hc. unfold escape_char, short_escape.
  destruct (Z.eqb_spec c 92) as [->|H92]; [reflexivity|].
  destruct (Z.eqb_spec c 34) as [->|H34]; [reflexivity|].
  destruct (Z.eqb_spec c 8) as [->|H8]; [reflexivity|].
  destruct (Z.eqb_spec c 12) as [->|H12]; [reflexivity|].
  destruct (Z.eqb_spec c 10) as [->|H10]; [reflexivity|].
  destruct (Z.eqb_spec c 13) as [->|H13]; [reflexivity|].
  destruct (Z.eqb_spec c 9) as [->|H9]; [reflexivity|].
  destruct ((32 <=? c) && (c <=? 126)) eqn:Hp.
  - apply andb_true_iff in Hp as [Hp _]. apply Z.leb_le in Hp. simpl.
    destruct (Z.eqb_spec c 34); [done|]. destruct (Z.eqb_spec c 92); [done|].
    destruct (Z.ltb_spec c 32); [lia|done].
  - destruct (Z.ltb_spec c 65536).
    + apply scan_u_escape; [lia|]. unfold is_high. apply andb_false_iff.
      rewrite !Z.leb_gt. lia.
    + destruct (surrogate_halves (c - 65536)) as [-> ->]; [lia|].
      rewrite <- app_assoc, scan_u_pair.
      * f_equal. unfold combine_pair. Z.div_mod_to_equations. lia.
      * Z.div_mod_to_equations. lia.
      * pose proof (Z.mod_pos_bound (c - 65536) 1024). lia.
      * unfold is_high. apply andb_true_iff. rewrite !Z.leb_le. Z.div_mod_to_equations. lia.
      * unfold is_low. apply andb_true_iff. rewrite !Z.leb_le.
        pose proof (Z.mod_pos_bound (c - 65536) 1024). lia.
Qed.

(** The body of [dumps_str s] scans back to [s]. *)
Lemma scan_dumps_str s r :
  forallb scalar_ok s = true ->
  scan_string (concat (map escape_char s) ++ 34 :: r) = Some (s, r).
Proof.
  induction s as [|c s IH]; intros Hs; [reflexivity|].
  apply andb_true_iff in Hs as [Hc Hs]. simpl. rewrite <- app_assoc, scan_escape_char, IH by done.
  reflexivity.
Qed.

(** ** Numbers *)

Lemma digit_run_app ds r :
  Forall (fun c => is_digit c = true) ds -> no_digit_head r = true ->
  digit_run (ds ++ r) = (ds, r).
Proof.
  intros Hds Hr. induction Hds as [|c ds Hc _ IH]; cbn [digit_run app].
  - destruct r as [|c r]; [done|]. simpl in Hr. apply negb_true_iff in Hr.
    cbn [digit_run]. by rewrite Hr.
  - by rewrite Hc, IH.
Qed.

Lemma digits_value_of_N n : digits_value (digits_of_N n) = Z.of_N n.
Proof.
  pose proof (parse_digits_of_N n) as Hp.
  rewrite parse_digits_all in Hp by apply digits_of_N_fuel_digits. by injection Hp.
Qed.

Lemma digits_of_N_digits n : Forall (fun c => is_digit c = true) (digits_of_N n).
Proof. apply digits_of_N_fuel_digits. Qed.

(** The first character of a printed value, and what it is not. *)
Lemma is_digit_range c : is_digit c = true -> 48 <= c <= 57.
Proof. unfold is_digit. rewrite andb_true_iff, !Z.leb_le. done. Qed.

Lemma dec_value_str_of_Z f z r :
  no_digit_head r = true -> dec_value (S f) (str_of_Z z ++ r) = Some (JInt z, r).
Proof.
  intros Hr. pose proof (digits_value_of_N (Z.to_N (Z.abs z))) as Hv.
  destruct (digits_of_N_shape (Z.to_N (Z.abs z))) as (c & t & d & Hs & _ & Hc & _).
  apply is_digit_range in Hc. unfold str_of_Z. destruct (Z.ltb_spec z 0).
  - replace (Z.to_N (- z)) with (Z.to_N (Z.abs z)) by lia.
    cbn [app dec_value Z.eqb Pos.eqb]. unfold dec_number. cbn [Z.eqb Pos.eqb].
    rewrite digit_run_app by (apply digits_of_N_digits || done). rewrite Hs, <- Hs, Hv.
    do 3 f_equal. lia.
  - replace (Z.to_N z) with (Z.to_N (Z.abs z)) by lia.
    rewrite Hs. cbn [app dec_value].
    repeat match goal with |- context [c =? ?k] => destruct (Z.eqb_spec c k); [lia|] end.
    unfold dec_number. rewrite app_comm_cons, <- Hs.
    destruct (Z.eqb_spec c 45); [lia|].
    rewrite digit_run_app by (apply digits_of_N_digits || done). rewrite Hs, <- Hs, Hv.
    do 3 f_equal. lia.
Qed.

(** ** Lists and objects *)

Lemma json_dumps_head v : exists c t, json_dumps v = c :: t /\ c <> 93 /\ c <> 125.
Proof.
  destruct v as [| [|] | z | s | l | kvs]; try by (eexists _, _; split; [reflexivity | vm_compute; lia]).
  destruct (digits_of_N_shape (Z.to_N (Z.abs z))) as (c & t & d & Hs & _ & Hc & _).
  apply is_digit_range in Hc. simpl. unfold str_of_Z. destruct (Z.ltb_spec z 0).
  - eexists _, _. split; [reflexivity | lia].
  - replace (Z.to_N z) with (Z.to_N (Z.abs z)) by lia. rewrite Hs. eexists _, _.
    split; [reflexivity | lia].
Qed.

Lemma json_dumps_length v : (1 <= length (json_dumps v))%nat.
Proof. destruct (json_dumps_head v) as (c & t & -> & _). simpl. lia. Qed.

Lemma join_with_cons (sep x : pystr) l :
  l <> [] -> join_with sep (x :: l) = x ++ sep ++ join_with sep l.
Proof. by destruct l. Qed.

Lemma dec_items_join l f r :
  Forall dumps_decodes l -> l <> [] ->
  (S (length (join_with «", "» (map json_dumps l))) < f)%nat ->
  dec_items f (join_with «", "» (map json_dumps l) ++ 93 :: r) = Some (l, r).
Proof.
  intros Hl. revert f. induction Hl as [|x l Hx Hl IH]; intros f Hne Hf; [done|].
  destruct f as [|f]; [lia|]. destruct l as [|y l].
  - cbn [map join_with] in *. cbn [dec_items]. rewrite Hx by (done || lia). by simpl.
  - rewrite map_cons, join_with_cons in Hf |- * by done.
    rewrite !length_app in Hf. change (length «", "») with 2%nat in Hf.
    cbn [dec_items]. rewrite <- app_assoc, Hx by (done || lia). cbn.
    rewrite IH by (done || lia). reflexivity.
Qed.

Lemma dec_members_join kvs f r :
  Forall (fun kv => forallb scalar_ok kv.1 = true /\ dumps_decodes kv.2) kvs -> kvs <> [] ->
  (S (length (join_with «", "»
       (map (fun '(k, x) => dumps_str k ++ «": "» ++ json_dumps x) kvs))) < f)%nat ->
  dec_members f (join_with «", "»
    (map (fun '(k, x) => dumps_str k ++ «": "» ++ json_dumps x) kvs) ++ 125 :: r)
  = Some (kvs, r).
Proof.
  intros Hl. revert f. induction Hl as [|[k x] kvs [Hk Hx] Hl IH]; intros f Hne Hf; [done|].
  destruct f as [|f]; [lia|]. simpl in Hx, Hk.
  destruct kvs as [|[k' y] kvs].
  - cbn [map join_with] in *. unfold dumps_str in Hf |- *.
    cbn [dec_members app]. rewrite <- !app_assoc. cbn [app].
    rewrite scan_dumps_str by done. cbn. rewrite Hx; [done| |done].
    unfold dumps_str in Hf. rewrite !length_app in Hf. simpl in Hf. lia.
  - rewrite map_cons, join_with_cons in Hf |- * by done.
    set (J := join_with «", "» (map (fun '(k, x) => dumps_str k ++ «": "» ++ json_dumps x)
                                   ((k', y) :: kvs))) in *.
    specialize (IH ltac:(done)). clearbody J. unfold dumps_str in Hf |- *.
    rewrite !length_app in Hf. cbn [length] in Hf.
    change (length «", "») with 2%nat in Hf. change (length «": "») with 2%nat in Hf.
    cbn [dec_members app]. rewrite <- !app_assoc. cbn [app].
    rewrite scan_dumps_str by done. cbn -[json_dumps dec_value].
    rewrite Hx by (done || lia). cbn -[dec_members].
    rewrite IH by (done || lia). reflexivity.
Qed.

Lemma json_dumps_JList l :
  json_dumps (JList l) = 91 :: join_with «", "» (map json_dumps l) ++ [93].
Proof. reflexivity. Qed.

Lemma json_dumps_JObj kvs :
  json_dumps (JObj kvs) =
  123 :: join_with «", "» (map (fun '(k, x) => dumps_str k ++ «": "» ++ json_dumps x) kvs)
    ++ [125].
Proof. reflexivity. Qed.

Lemma join_with_head (sep a : pystr) l : exists rest, join_with sep (a :: l) = a ++ rest.
Proof. destruct l; [exists []; by rewrite app_nil_r | by eexists]. Qed.

(** Every value whose strings are scalar values prints to a document the
    decoder reads back. *)
Lemma dec_value_dumps v : jscalars_ok v = true -> dumps_decodes v.
Proof.
  induction v as [| b | z | s | l IH | kvs IH] using jval_ind'; intros Hok fuel r Hf Hr;
    destruct fuel as [|f]; try lia; cbn [jscalars_ok] in Hok.
  - reflexivity.
  - by destruct b.
  - by apply dec_value_str_of_Z.
  - cbn [json_dumps]. unfold dumps_str. cbn [app]. rewrite <- app_assoc. cbn [app].
    cbn -[scan_string]. by rewrite scan_dumps_str.
  - destruct l as [|x l']; [reflexivity|].
    assert (Hl : Forall dumps_decodes (x :: l')).
    { rewrite Forall_forall in IH |- *. intros w Hw. apply IH; [done|].
      rewrite forallb_forall in Hok. apply Hok. by apply list_elem_of_In. }
    destruct (json_dumps_head x) as (c & t & Hc & Hc93 & _).
    destruct (join_with_head «", "» (json_dumps x) (map json_dumps l')) as [rest Hrest].
    rewrite json_dumps_JList in Hf |- *. cbn [length] in Hf. rewrite length_app in Hf. cbn [length] in Hf.
    rewrite <- app_comm_cons, <- app_assoc. cbn [app dec_value Z.eqb Pos.eqb].
    rewrite map_cons, Hrest at 1. rewrite Hc. cbn [app].
    destruct (Z.eqb_spec c 93); [done|].
    rewrite dec_items_join by (done || lia). reflexivity.
  - destruct kvs as [|[k x] kvs']; [reflexivity|].
    assert (Hl : Forall (fun kv => forallb scalar_ok kv.1 = true /\ dumps_decodes kv.2)
                        ((k, x) :: kvs')).
    { rewrite Forall_forall in IH |- *. intros [k' w] Hw. rewrite forallb_forall in Hok.
      pose proof (Hok _ (proj1 (list_elem_of_In _ _) Hw)) as Hkw.
      apply andb_true_iff in Hkw as [Hk Hw']. split; [done|]. by apply (IH (k', w)). }
    destruct (join_with_head «", "» (dumps_str k ++ «": "» ++ json_dumps x)
      (map (fun '(k, x) => dumps_str k ++ «": "» ++ json_dumps x) kvs')) as [rest Hrest].
    rewrite json_dumps_JObj in Hf |- *. cbn [length] in Hf. rewrite length_app in Hf. cbn [length] in Hf.
    rewrite <- app_comm_cons, <- app_assoc. cbn [app dec_value Z.eqb Pos.eqb].
    rewrite map_cons, Hrest at 1. unfold dumps_str at 1. cbn [app Z.eqb Pos.eqb].
    rewrite dec_members_join by (done || lia). reflexivity.
Qed.

(** ** The round trip *)

(** Round trip: the document [json.dumps] writes
    for a value whose strings and keys are sequences of Unicode scalar
    values decodes to that value (numbers, escapes, surrogate pairs for
    the characters above [0xffff], nesting and key order included). *)
Theorem json_decode_dumps v : jscalars_ok v = true -> json_decode (json_dumps v) = Some v.
Proof.
  intros Hok. unfold json_decode.
  rewrite <- (app_nil_r (json_dumps v)) at 2. by rewrite (dec_value_dumps v Hok); [| lia |].
Qed.

(** [json.dumps] is not injective on
    Python strings: the astral character U+1F600 and the string of its
    two surrogate code points print to the same document
    (a quoted [\ud83d\ude00]); the second is not a string of scalar values, which
    is why [json_decode_dumps] excludes surrogates. *)
Example json_dumps_surrogate_collision :
  json_dumps (JStr [128512]) = json_dumps (JStr [55357; 56832]) /\
  JStr [128512] <> JStr [55357; 56832] /\
  jscalars_ok (JStr [55357; 56832]) = false /\
  json_decode (json_dumps (JStr [55357; 56832])) = Some (JStr [128512]).
Proof. split_and!; [vm_compute; reflexivity | discriminate | reflexivity | vm_compute; reflexivity]. Qed.

(** ** Instances *)

Lemma json_decode_dumps_witness :
  jscalars_ok (JObj [(«"messages"», JList [JObj [(«"type"», JStr «"error"»);
                                                («"lastLine"», JInt 3)];
                                          JStr [128512; 233; 10]; JNull; JBool false])]) = true /\
  json_decode (json_dumps (JObj [(«"messages"», JList [JObj [(«"type"», JStr «"error"»);
                                                («"lastLine"», JInt 3)];
                                          JStr [128512; 233; 10]; JNull; JBool false])]))
  = Some (JObj [(«"messages"», JList [JObj [(«"type"», JStr «"error"»); («"lastLine"», JInt 3)];
                                     JStr [128512; 233; 10]; JNull; JBool false])]).
Proof. split; [reflexivity | apply json_decode_dumps; reflexivity]. Defined.
