(* ===== verification/Vnu.v ===== *)
(** * The launcher of the vnu server

    [utils.py], lines 122-193: [_start_vnu_server] asks the OS for a free
    port ([get_an_unused_port]), builds the java command line
    ([get_vnu_args]), spawns it ([Popen]) and blocks in
    [wait_for_vnu_to_start] until the server answers.  The process
    environment is the record [launch_env], the OS calls the oracle
    record [launch_io].  The global names of [utils.py] that the code
    reads are parameters of the definitions; [utils_ENV_JAVA_PATH] is the
    binding the shipped module has ([None]: the name is neither defined
    nor imported there).  The retry loop runs on a fuel: [None] is a call
    that has not returned when the fuel runs out.  [setenv] sets one
    variable, to state that [NBA11Y_VNU_JAR_PATH] (the plugin's
    [ENV_VNU_JAR_PATH]) does not reach the command line. *)

From S2P Require Import Prelude PyStr.

Module Vnu.

Local Open Scope Z_scope.

(** ** The outside world *)

(** What the launcher reads of its own process. *)
Record launch_env := {
  environ : list (pystr * pystr);   (** [os.environ] *)
  which : pystr -> option pystr;    (** [shutil.which] *)
  sys_prefix : pystr;               (** [sys.prefix] *)
  os_nt : bool;                     (** [os.name == "nt"] *)
  path_exists : pystr -> bool;      (** [Path(p).exists()] *)
}.

(** What the launcher asks of the OS. *)
Record launch_io := {
  bind_any : pyres Z;                   (** [get_an_unused_port()], modelled in [Ports.v] *)
  popen : list pystr -> pyres Z;        (** [Popen(args)]: the child's pid *)
  urlopen : pystr -> nat -> pyres unit; (** the [k]-th [urlopen(url)] *)
}.

(** [os.environ.get(key, dflt)] *)
Fixpoint environ_get (env : list (pystr * pystr)) (key : pystr) (dflt : option pystr)
    : option pystr :=
  match env with
  | [] => dflt
  | (k, v) :: env' => if bool_decide (k = key) then Some v else environ_get env' key dflt
  end.

(** A global name of the module: its value, or [NameError]. *)
Definition global (name : pystr) (v : option pystr) : pyres pystr :=
  match v with Some x => Ok x | None => Raise (NameError name) end.

(** [ENV_JAVA_PATH] in [utils.py]: the constant is defined in
    [pytest_plugin.py] only, and [utils.py] does not import it. *)
Definition utils_ENV_JAVA_PATH : option pystr := None.

(** The value [pytest_plugin.py] gives the constant (line 8). *)
Definition plugin_ENV_JAVA_PATH : option pystr := Some «"NBA11Y_JAVA_PATH"».

(** [ENV_VNU_JAR_PATH = "NBA11Y_VNU_JAR_PATH"] (line 9): defined, and
    read nowhere. *)
Definition plugin_ENV_VNU_JAR_PATH : pystr := «"NBA11Y_VNU_JAR_PATH"».

(** [os.environ[k] = v] before the launch. *)
Definition setenv (k v : pystr) (e : launch_env) : launch_env := {|
  environ := (k, v) :: environ e; which := which e; sys_prefix := sys_prefix e;
  os_nt := os_nt e; path_exists := path_exists e;
|}.

(** [a or b] on two [str | None]: the empty string is false. *)
Definition py_or (a b : option pystr) : option pystr :=
  match a with Some (_ :: _) => a | _ => b end.

(** [Path(x)]: a [str] is a path, [None] a [TypeError], with the
    message of Python 3.8 to 3.11 (3.12 and later word it "argument
    should be a str or an os.PathLike object where __fspath__ returns a
    str, not 'NoneType'"). *)
Definition Path_of (x : option pystr) : pyres pystr :=
  match x with
  | Some s => Ok s
  | None => Raise (TypeError «"expected str, bytes or os.PathLike object, not NoneType"»)
  end.

(** [Path(sys.prefix) / ("Library/lib" if win else "lib") / "vnu.jar"] as
    [str] prints it: with the separator of the platform. *)
Definition jar_default (e : launch_env) : pystr :=
  let sep := if os_nt e then «"\"» else «"/"» in
  sys_prefix e ++ sep ++ (if os_nt e then «"Library"» ++ sep ++ «"lib"» else «"lib"») ++
  sep ++ «"vnu.jar"».

(** The message of the [RuntimeError] of lines 167-172, with its ["\b"]. *)
Definition missing_java_message (e : launch_env) (java jar : pystr) : pystr :=
  «"Failed to find java or vnu.jar:"» ++ [8] ++
  «"  - "» ++ bool_str (path_exists e java) ++ «" "» ++ java ++ [10] ++
  «"  - "» ++ bool_str (path_exists e jar) ++ «" "» ++ jar.

(** ** [get_vnu_args] (lines 153-183) *)

Definition get_vnu_args (ENV_JAVA_PATH : option pystr) (e : launch_env) (host : pystr) (port : Z)
    : pyres (list pystr) :=
  key <- global «"ENV_JAVA_PATH"» ENV_JAVA_PATH ;;
  java <- Path_of (environ_get (environ e) key
                     (py_or (which e «"java"») (which e «"java.exe"»))) ;;
  key' <- global «"ENV_JAVA_PATH"» ENV_JAVA_PATH ;;
  jar <- Path_of (environ_get (environ e) key' (Some (jar_default e))) ;;
  if negb (path_exists e java) || negb (path_exists e jar) then
    Raise (RuntimeError (missing_java_message e java jar))
  else
    Ok [java; «"-cp"»; jar; «"-Dnu.validator.servlet.bind-address="» ++ host;
        «"nu.validator.servlet.Main"»; str_of_Z port].

(** ** [wait_for_vnu_to_start] (lines 137-150) *)

(** What the wait returned or raised, how many probes it made and how
    long it slept. *)
Record wait_out := { wo_result : pyres unit; wo_probes : nat; wo_slept : Z }.

(** The [while retries:] loop, [k] probes made so far. *)
Fixpoint wait_loop (fuel : nat) (probe : nat -> pyres unit) (sleep retries : Z) (k : nat)
    (slept : Z) (last_error : option pyexc) : option wait_out :=
  match fuel with
  | O => None
  | S fuel =>
      if retries =? 0 then
        Some {| wo_result := Raise (RuntimeError (opt_exc_str last_error));
                wo_probes := k; wo_slept := slept |}
      else
        match probe k with
        | Ok _ => Some {| wo_result := Ok tt; wo_probes := S k; wo_slept := slept |}
        | Raise err => wait_loop fuel probe sleep (retries - 1) (S k) (slept + sleep) (Some err)
        end
  end.

(** One [time.sleep(sleep)] before the loop. *)
Definition wait_for_vnu_to_start (fuel : nat) (io : launch_io) (url : pystr) (retries sleep : Z)
    : option wait_out :=
  wait_loop fuel (urlopen io url) sleep retries 0 sleep None.

(** ** [_start_vnu_server] (lines 122-134) *)

(** The result, and the pids of the children it spawned: a child is
    left running when the wait raises. *)
Definition _start_vnu_server (fuel : nat) (ENV_JAVA_PATH : option pystr) (e : launch_env)
    (io : launch_io) (proto host : pystr) : option (pyres (Z * pystr * Z) * list Z) :=
  match bind_any io with
  | Raise err => Some (Raise err, [])
  | Ok port =>
      let url := proto ++ «"://"» ++ host ++ «":"» ++ str_of_Z port ++ «"/"» in
      match get_vnu_args ENV_JAVA_PATH e host port with
      | Raise err => Some (Raise err, [])
      | Ok server_args =>
          let url := proto ++ «"://"» ++ host ++ «":"» ++ str_of_Z port in
          match popen io server_args with
          | Raise err => Some (Raise err, [])
          | Ok proc =>
              match wait_for_vnu_to_start fuel io url 10 1 with
              | None => None
              | Some wo =>
                  match wo_result wo with
                  | Ok _ => Some (Ok (port, url, proc), [proc])
                  | Raise err => Some (Raise err, [proc])
                  end
              end
          end
      end
  end.

(** ** Concrete environments *)

(** A POSIX machine with java on the [PATH] and [vnu.jar] in [sys.prefix]. *)
Definition ok_env : launch_env := {|
  environ := [];
  which c := if bool_decide (c = «"java"») then Some «"/usr/bin/java"» else None;
  sys_prefix := «"/opt/conda"»;
  os_nt := false;
  path_exists p := bool_decide (p = «"/usr/bin/java"» \/ p = «"/opt/conda/lib/vnu.jar"»);
|}.

(** The same machine with [NBA11Y_JAVA_PATH] set. *)
Definition java_var_env : launch_env := {|
  environ := [(«"NBA11Y_JAVA_PATH"», «"/jdk/bin/java"»)];
  which := which ok_env;
  sys_prefix := «"/opt/conda"»;
  os_nt := false;
  path_exists p := bool_decide (p = «"/jdk/bin/java"» \/ p = «"/opt/conda/lib/vnu.jar"»);
|}.

(** A machine without java. *)
Definition no_java_env : launch_env := {|
  environ := []; which _ := None; sys_prefix := «"/opt/conda"»; os_nt := false;
  path_exists _ := false;
|}.

(** A server that never answers, and one that answers its third probe. *)
Definition refused : pyexc := OSError «"<urlopen error [Errno 111] Connection refused>"».

Definition down_io : launch_io := {|
  bind_any := Ok 8888; popen _ := Ok 4242; urlopen _ _ := Raise refused;
|}.

Definition up_io : launch_io := {|
  bind_any := Ok 8888; popen _ := Ok 4242;
  urlopen _ k := if (k <? 2)%nat then Raise refused else Ok tt;
|}.

(** ** The retry loop *)

(** The error the loop reports after [n] failed probes from probe [k]. *)
Definition last_err (errs : nat -> pyexc) (last : option pyexc) (k n : nat) : option pyexc :=
  match n with O => last | S m => Some (errs (k + m)%nat) end.

Section Loop.
Context (probe : nat -> pyres unit) (sleep : Z).

Lemma wait_loop_step fuel retries k slept last :
  retries <> 0 ->
  wait_loop (S fuel) probe sleep retries k slept last =
  match probe k with
  | Ok _ => Some {| wo_result := Ok tt; wo_probes := S k; wo_slept := slept |}
  | Raise err => wait_loop fuel probe sleep (retries - 1) (S k) (slept + sleep) (Some err)
  end.
Proof. intros Hr. simpl. by rewrite (proj2 (Z.eqb_neq _ _) Hr). Qed.

Lemma wait_loop_all_fail errs n fuel k slept last :
  (forall j, probe j = Raise (errs j)) -> (n < fuel)%nat ->
  wait_loop fuel probe sleep (Z.of_nat n) k slept last =
  Some {| wo_result := Raise (RuntimeError (opt_exc_str (last_err errs last k n)));
          wo_probes := (k + n)%nat; wo_slept := slept + sleep * Z.of_nat n |}.
Proof.
  intros Hf. revert fuel k slept last. induction n as [|n IH]; intros [|fuel] k slept last Hn;
    try lia.
  - simpl. do 2 f_equal; lia.
  - rewrite wait_loop_step, Hf by lia. cbv beta iota. replace (Z.of_nat (S n) - 1) with (Z.of_nat n) by lia.
    rewrite IH by lia. do 2 f_equal; [|lia|lia].
    destruct n; simpl; repeat f_equal; lia.
Qed.

Lemma wait_loop_success n j fuel k slept last :
  (forall i, (k <= i < k + j)%nat -> exists e, probe i = Raise e) -> is_ok (probe (k + j)%nat) ->
  (j < n)%nat -> (j < fuel)%nat ->
  wait_loop fuel probe sleep (Z.of_nat n) k slept last =
  Some {| wo_result := Ok tt; wo_probes := S (k + j); wo_slept := slept + sleep * Z.of_nat j |}.
Proof.
  revert n fuel k slept last. induction j as [|j IH]; intros n [|fuel] k slept last Hf Hs Hj Hfu;
    try lia; rewrite wait_loop_step by lia.
  - rewrite Nat.add_0_r in Hs. destruct (probe k) eqn:E; [|done]. do 2 f_equal; lia.
  - destruct (Hf k) as [e He]; [lia|]. rewrite He. cbv beta iota.
    destruct n as [|n]; [lia|]. replace (Z.of_nat (S n) - 1) with (Z.of_nat n) by lia.
    rewrite (IH n); [do 2 f_equal; lia | | | lia | lia].
    + intros i Hi. apply Hf. lia.
    + by replace (S k + j)%nat with (k + S j)%nat by lia.
Qed.

Lemma wait_loop_negative errs retries fuel k slept last :
  (forall j, probe j = Raise (errs j)) -> retries < 0 ->
  wait_loop fuel probe sleep retries k slept last = None.
Proof.
  intros Hf. revert retries k slept last. induction fuel as [|fuel IH]; intros retries k slept last Hr;
    [done|].
  rewrite wait_loop_step, Hf by lia. cbv beta iota. apply IH. lia.
Qed.

Lemma wait_loop_returns n fuel k slept last :
  (n < fuel)%nat ->
  exists wo, wait_loop fuel probe sleep (Z.of_nat n) k slept last = Some wo /\
    (wo_probes wo <= k + n)%nat.
Proof.
  revert fuel k slept last. induction n as [|n IH]; intros [|fuel] k slept last Hn; try lia.
  - eexists. split; [done|]. simpl. lia.
  - rewrite wait_loop_step by lia. destruct (probe k); cbv beta iota.
    + eexists. split; [done|]. simpl. lia.
    + replace (Z.of_nat (S n) - 1) with (Z.of_nat n) by lia.
      destruct (IH fuel (S k) (slept + sleep) (Some e)) as (wo & -> & Hp); [lia|].
      exists wo. split; [done | lia].
Qed.
End Loop.

(** ** [os.environ.get] *)

Lemma environ_get_found env k x d :
  environ_get env k None = Some x -> environ_get env k d = Some x.
Proof.
  induction env as [|[k' v] env IH]; simpl; [done|]. by case_bool_decide.
Qed.

Lemma environ_get_other env k v key d :
  k <> key -> environ_get ((k, v) :: env) key d = environ_get env key d.
Proof. intros Hk. simpl. by rewrite bool_decide_eq_false_2. Qed.

(** Setting a variable that [ENV_JAVA_PATH] does not name leaves
    [get_vnu_args] as it was. *)
Lemma get_vnu_args_setenv g e host port k v :
  (forall name, g = Some name -> name <> k) ->
  get_vnu_args g (setenv k v e) host port = get_vnu_args g e host port.
Proof.
  intros Hg. destruct g as [name|]; [|done]. unfold get_vnu_args, jar_default, missing_java_message.
  cbn [setenv environ which sys_prefix os_nt path_exists global pyres_bind].
  rewrite !environ_get_other by (apply not_eq_sym, Hg; done). done.
Qed.

Lemma environ_get_missing env k d : environ_get env k None = None -> environ_get env k d = d.
Proof.
  induction env as [|[k' v] env IH]; simpl; [done|]. by case_bool_decide.
Qed.

(** ** The launcher *)

(** The shipped launcher raises, and spawns nothing. *)
Lemma start_shipped_raises fuel e io proto host :
  exists err, _start_vnu_server fuel utils_ENV_JAVA_PATH e io proto host = Some (Raise err, []).
Proof. unfold _start_vnu_server. destruct (bind_any io); by eexists. Qed.

(** On success the URL is [proto://host:port] of the returned port. *)
Lemma start_vnu_server_url fuel g e io proto host port url pid spawned :
  _start_vnu_server fuel g e io proto host = Some (Ok (port, url, pid), spawned) ->
  url = proto ++ «"://"» ++ host ++ «":"» ++ str_of_Z port.
Proof.
  unfold _start_vnu_server. intros Hs.
  repeat match type of Hs with context [match ?x with _ => _ end] => destruct x end;
    simplify_eq; done.
Qed.

(** C14: with the shipped [utils.py], [_start_vnu_server] never starts a
    server: once it has a port, [get_vnu_args] reads the global
    [ENV_JAVA_PATH], which [utils.py] neither defines nor imports, and
    raises [NameError]; no child process is spawned. *)
Theorem start_vnu_server_name_error fuel e io proto host :
  _start_vnu_server fuel utils_ENV_JAVA_PATH e io proto host =
  Some (Raise (match bind_any io with
               | Ok _ => NameError «"ENV_JAVA_PATH"»
               | Raise err => err
               end), []).
Proof. unfold _start_vnu_server. by destruct (bind_any io). Qed.

(** C15: when the server never answers, [wait_for_vnu_to_start] probes
    exactly [retries] times, sleeps [retries + 1] times, and raises
    [RuntimeError(str(last_error))] ([RuntimeError("None")] when
    [retries = 0]). *)
Theorem wait_all_fail fuel io url retries sleep errs :
  (forall k, urlopen io url k = Raise (errs k)) -> 0 <= retries -> (Z.to_nat retries < fuel)%nat ->
  wait_for_vnu_to_start fuel io url retries sleep =
  Some {| wo_result := Raise (RuntimeError (opt_exc_str (last_err errs None 0 (Z.to_nat retries))));
          wo_probes := Z.to_nat retries; wo_slept := sleep * (retries + 1) |}.
Proof.
  intros Hf Hr Hfu. destruct (Z_of_nat_complete retries Hr) as [n ->].
  rewrite Nat2Z.id in *. unfold wait_for_vnu_to_start.
  rewrite (wait_loop_all_fail _ _ errs) by done. do 2 f_equal. ring.
Qed.

(** When the first probe that succeeds is probe [j < retries],
    [wait_for_vnu_to_start] returns after [j + 1] probes and [j + 1]
    sleeps. *)
Theorem wait_first_success fuel io url retries sleep j :
  (forall i, (i < j)%nat -> exists e, urlopen io url i = Raise e) -> is_ok (urlopen io url j) ->
  (j < Z.to_nat retries)%nat -> (j < fuel)%nat ->
  wait_for_vnu_to_start fuel io url retries sleep =
  Some {| wo_result := Ok tt; wo_probes := S j; wo_slept := sleep * (Z.of_nat j + 1) |}.
Proof.
  intros Hf Hs Hj Hfu. destruct (Z_of_nat_complete retries) as [n ->]; [lia|].
  rewrite Nat2Z.id in *. unfold wait_for_vnu_to_start.
  rewrite (wait_loop_success _ _ _ j); try done.
  - do 2 f_equal. ring.
  - intros i Hi. apply Hf. lia.
Qed.

(** C16: [while retries:] with a negative [retries] never ends while the
    server does not answer: the call does not return, whatever the fuel. *)
Theorem wait_diverges_negative io url retries sleep errs :
  (forall k, urlopen io url k = Raise (errs k)) -> retries < 0 ->
  forall fuel, wait_for_vnu_to_start fuel io url retries sleep = None.
Proof. intros Hf Hr fuel. by apply (wait_loop_negative _ _ errs). Qed.

(** C17: for [retries >= 0] the wait returns, after at most [retries]
    probes, with a fuel of [retries + 1] loop iterations. *)
Theorem wait_terminates fuel io url retries sleep :
  0 <= retries -> (Z.to_nat retries < fuel)%nat ->
  exists wo, wait_for_vnu_to_start fuel io url retries sleep = Some wo /\
    (wo_probes wo <= Z.to_nat retries)%nat.
Proof.
  intros Hr Hfu. destruct (Z_of_nat_complete retries Hr) as [n ->].
  rewrite Nat2Z.id in *. apply wait_loop_returns. done.
Qed.

(** C18: with [ENV_JAVA_PATH] bound as in [pytest_plugin.py], the jar is
    read from the same variable as java: when [NBA11Y_JAVA_PATH] is set,
    the command line is [java -cp java ...], and [NBA11Y_VNU_JAR_PATH]
    is never read. *)
Theorem get_vnu_args_jar_is_java e host port x :
  environ_get (environ e) «"NBA11Y_JAVA_PATH"» None = Some x -> path_exists e x = true ->
  get_vnu_args plugin_ENV_JAVA_PATH e host port =
  Ok [x; «"-cp"»; x; «"-Dnu.validator.servlet.bind-address="» ++ host;
      «"nu.validator.servlet.Main"»; str_of_Z port].
Proof.
  intros Hx He. unfold get_vnu_args. simpl. rewrite !(environ_get_found _ _ x) by done.
  simpl. by rewrite He.
Qed.

(** Without the variable, [get_vnu_args] takes java from the [PATH]
    and the jar from [sys.prefix/lib/vnu.jar], and returns the server's
    command line with the port as a decimal string. *)
Theorem get_vnu_args_ok e host port java :
  environ_get (environ e) «"NBA11Y_JAVA_PATH"» None = None -> which e «"java"» = Some java ->
  java <> [] -> path_exists e java = true -> path_exists e (jar_default e) = true ->
  get_vnu_args plugin_ENV_JAVA_PATH e host port =
  Ok [java; «"-cp"»; jar_default e; «"-Dnu.validator.servlet.bind-address="» ++ host;
      «"nu.validator.servlet.Main"»; str_of_Z port].
Proof.
  intros Hn Hw Hne Hj Hjar. unfold get_vnu_args. simpl. rewrite !environ_get_missing by done.
  rewrite Hw. destruct java as [|c java]; [done|]. simpl. by rewrite Hj, Hjar.
Qed.

(** C19: with [ENV_JAVA_PATH] bound to the plugin's
    ["NBA11Y_JAVA_PATH"] ([plugin_ENV_JAVA_PATH], the binding an import
    of the name from [pytest_plugin.py] would give; the shipped module
    has none, and the shipped launcher raises [NameError] before
    this call), when
    [NBA11Y_JAVA_PATH] is unset and neither [java] nor [java.exe] is on
    the [PATH], [get_vnu_args] raises the [TypeError] of [Path(None)],
    not its "Failed to find java or vnu.jar" error: [Path(None)] on line
    156 raises before the check of line 166. *)
Theorem get_vnu_args_no_java e host port :
  environ_get (environ e) «"NBA11Y_JAVA_PATH"» None = None ->
  which e «"java"» = None -> which e «"java.exe"» = None ->
  get_vnu_args plugin_ENV_JAVA_PATH e host port =
  Raise (TypeError «"expected str, bytes or os.PathLike object, not NoneType"»).
Proof.
  intros Hn Hw Hw'. unfold get_vnu_args. simpl. rewrite environ_get_missing by done.
  by rewrite Hw, Hw'.
Qed.

(** C20: when the server never answers, [_start_vnu_server] raises the
    [RuntimeError] of the tenth failed probe and leaves the child it
    spawned running: the caller gets no handle to terminate it. *)
Theorem start_leaks_on_timeout fuel g e io proto host port args pid errs :
  bind_any io = Ok port -> get_vnu_args g e host port = Ok args -> popen io args = Ok pid ->
  (forall k, urlopen io (proto ++ «"://"» ++ host ++ «":"» ++ str_of_Z port) k = Raise (errs k)) ->
  (10 < fuel)%nat ->
  _start_vnu_server fuel g e io proto host = Some (Raise (RuntimeError (exc_str (errs 9%nat))), [pid]).
Proof.
  intros Hp Ha Hpo Hf Hfu. unfold _start_vnu_server, wait_for_vnu_to_start. rewrite Hp, Ha, Hpo.
  by rewrite (wait_loop_all_fail _ _ errs 10%nat).
Qed.

(** When the server answers its probe [j < 10], [_start_vnu_server]
    returns the port, the URL [proto://host:port] and the child's pid. *)
Theorem start_vnu_server_ok fuel g e io proto host port args pid j :
  bind_any io = Ok port -> get_vnu_args g e host port = Ok args -> popen io args = Ok pid ->
  (forall i, (i < j)%nat ->
     exists err, urlopen io (proto ++ «"://"» ++ host ++ «":"» ++ str_of_Z port) i = Raise err) ->
  is_ok (urlopen io (proto ++ «"://"» ++ host ++ «":"» ++ str_of_Z port) j) ->
  (j < 10)%nat -> (j < fuel)%nat ->
  _start_vnu_server fuel g e io proto host =
  Some (Ok (port, proto ++ «"://"» ++ host ++ «":"» ++ str_of_Z port, pid), [pid]).
Proof.
  intros Hp Ha Hpo Hf Hs Hj Hfu. unfold _start_vnu_server, wait_for_vnu_to_start. rewrite Hp, Ha, Hpo.
  rewrite (wait_loop_success _ _ 10%nat j); try done. intros i Hi. apply Hf. lia.
Qed.

(** With the default [retries = 10], [_start_vnu_server] always
    returns or raises: eleven iterations of the loop are enough. *)
Theorem start_vnu_server_returns fuel g e io proto host :
  (10 < fuel)%nat -> exists r, _start_vnu_server fuel g e io proto host = Some r.
Proof.
  intros Hfu. unfold _start_vnu_server.
  destruct (bind_any io) as [port|]; [|by eexists].
  destruct (get_vnu_args g e host port) as [args|]; [|by eexists].
  destruct (popen io args) as [pid|]; [|by eexists].
  unfold wait_for_vnu_to_start.
  destruct (wait_loop_returns (urlopen io (proto ++ «"://"» ++ host ++ «":"» ++ str_of_Z port)) 1
              10%nat fuel 0 1 None) as (wo & Hwo & _); [done|].
  change (Z.of_nat 10) with 10 in Hwo. rewrite Hwo.
  destruct (wo_result wo); by eexists.
Qed.

(** ** Instances *)

(** C33: the launch never reads
    [NBA11Y_VNU_JAR_PATH]: whatever the variable holds, and whether it is
    set at all, [_start_vnu_server] gives the same result, for every
    binding of [ENV_JAVA_PATH] that does not name it (the shipped one and
    [pytest_plugin.py]'s included); the jar comes from [ENV_JAVA_PATH] or
    [sys.prefix]. *)
Theorem start_vnu_server_ignores_jar_env fuel g e io proto host v :
  (forall name, g = Some name -> name <> plugin_ENV_VNU_JAR_PATH) ->
  _start_vnu_server fuel g (setenv plugin_ENV_VNU_JAR_PATH v e) io proto host =
  _start_vnu_server fuel g e io proto host.
Proof.
  intros Hg. unfold _start_vnu_server. destruct (bind_any io) as [port|]; [|done].
  by rewrite get_vnu_args_setenv.
Qed.

Lemma wait_all_fail_witness :
  (forall k, urlopen down_io «"http://127.0.0.1:8888"» k = Raise ((fun _ => refused) k)) /\
  wait_for_vnu_to_start 11 down_io «"http://127.0.0.1:8888"» 10 1 =
  Some {| wo_result := Raise (RuntimeError (opt_exc_str (last_err (fun _ => refused) None 0 10)));
          wo_probes := 10; wo_slept := 1 * (10 + 1) |}.
Proof.
  split; [done|].
  exact (wait_all_fail 11 down_io _ 10 1 (fun _ => refused) (fun _ => eq_refl)
           ltac:(lia) ltac:(vm_compute; lia)).
Defined.

Lemma wait_first_success_witness :
  wait_for_vnu_to_start 11 up_io «"http://127.0.0.1:8888"» 10 1 =
  Some {| wo_result := Ok tt; wo_probes := 3; wo_slept := 1 * (Z.of_nat 2 + 1) |}.
Proof.
  apply (wait_first_success 11 up_io _ 10 1 2).
  - intros i Hi. exists refused. simpl. by destruct i as [|[|]]; [..|lia].
  - reflexivity.
  - vm_compute. lia.
  - lia.
Defined.

Lemma wait_diverges_negative_witness :
  wait_for_vnu_to_start 1000 down_io «"http://127.0.0.1:8888"» (-1) 1 = None.
Proof.
  exact (wait_diverges_negative down_io _ (-1) 1 (fun _ => refused) (fun _ => eq_refl) ltac:(lia) 1000).
Defined.

Lemma wait_terminates_witness :
  exists wo, wait_for_vnu_to_start 11 up_io «"http://127.0.0.1:8888"» 10 1 = Some wo /\
    (wo_probes wo <= Z.to_nat 10)%nat.
Proof. exact (wait_terminates 11 up_io _ 10 1 ltac:(lia) ltac:(vm_compute; lia)). Defined.

Lemma get_vnu_args_jar_is_java_witness :
  get_vnu_args plugin_ENV_JAVA_PATH java_var_env «"127.0.0.1"» 8888 =
  Ok [«"/jdk/bin/java"»; «"-cp"»; «"/jdk/bin/java"»;
      «"-Dnu.validator.servlet.bind-address="» ++ «"127.0.0.1"»;
      «"nu.validator.servlet.Main"»; str_of_Z 8888].
Proof.
  apply get_vnu_args_jar_is_java; vm_compute; reflexivity.
Defined.

Lemma get_vnu_args_ok_witness :
  get_vnu_args plugin_ENV_JAVA_PATH ok_env «"127.0.0.1"» 8888 =
  Ok [«"/usr/bin/java"»; «"-cp"»; jar_default ok_env;
      «"-Dnu.validator.servlet.bind-address="» ++ «"127.0.0.1"»;
      «"nu.validator.servlet.Main"»; str_of_Z 8888].
Proof.
  apply get_vnu_args_ok; [reflexivity | reflexivity | discriminate | vm_compute; reflexivity..].
Defined.

Lemma get_vnu_args_no_java_witness :
  get_vnu_args plugin_ENV_JAVA_PATH no_java_env «"127.0.0.1"» 8888 =
  Raise (TypeError «"expected str, bytes or os.PathLike object, not NoneType"»).
Proof. apply get_vnu_args_no_java; reflexivity. Defined.

Lemma start_leaks_on_timeout_witness :
  _start_vnu_server 11 plugin_ENV_JAVA_PATH ok_env down_io «"http"» «"127.0.0.1"» =
  Some (Raise (RuntimeError (exc_str refused)), [4242]).
Proof.
  eapply (start_leaks_on_timeout _ _ _ _ _ _ 8888 _ 4242 (fun _ => refused));
    [reflexivity | vm_compute; reflexivity | reflexivity | reflexivity | lia].
Defined.

Lemma start_vnu_server_ok_witness :
  _start_vnu_server 11 plugin_ENV_JAVA_PATH ok_env up_io «"http"» «"127.0.0.1"» =
  Some (Ok (8888, «"http"» ++ «"://"» ++ «"127.0.0.1"» ++ «":"» ++ str_of_Z 8888, 4242), [4242]).
Proof.
  eapply (start_vnu_server_ok _ _ _ _ _ _ 8888 _ 4242 2);
    [reflexivity | vm_compute; reflexivity | reflexivity | | reflexivity | lia | lia].
  intros i Hi. exists refused. simpl. by destruct i as [|[|]]; [..|lia].
Defined.

Lemma start_vnu_server_returns_witness :
  exists r, _start_vnu_server 11 plugin_ENV_JAVA_PATH ok_env up_io «"http"» «"127.0.0.1"» = Some r.
Proof. exact (start_vnu_server_returns 11 _ _ _ _ _ ltac:(lia)). Defined.

Lemma start_vnu_server_ignores_jar_env_witness :
  (forall name, plugin_ENV_JAVA_PATH = Some name -> name <> plugin_ENV_VNU_JAR_PATH) /\
  _start_vnu_server 11 plugin_ENV_JAVA_PATH (setenv plugin_ENV_VNU_JAR_PATH «"/opt/vnu.jar"» ok_env)
    up_io «"http"» «"127.0.0.1"» =
  _start_vnu_server 11 plugin_ENV_JAVA_PATH ok_env up_io «"http"» «"127.0.0.1"».
Proof.
  assert (Hg : forall name, plugin_ENV_JAVA_PATH = Some name -> name <> plugin_ENV_VNU_JAR_PATH)
    by (intros name [= <-]; discriminate).
  split; [exact Hg | exact (start_vnu_server_ignores_jar_env _ _ _ _ _ _ _ Hg)].
Defined.

End Vnu.
