(* ===== verification/Organize.v ===== *)
(** * The classifier of validator messages

    [utils.py], lines 31-34 and 98-119: [EXCLUDE],
    [organize_validator_results] and [raise_if_errors].  A Python dict
    keeps its keys in insertion order, and the result of the classifier
    (the order of the sub-exceptions) depends on it, so the dicts are
    association lists with unique keys, updated the way [defaultdict]
    updates them: a missing key is appended at the end with the default
    value.  [itertools.groupby] is modelled on the list of messages. *)

From S2P Require Import Prelude PyStr.

Module Organize.

(** ** Data *)

(** One element of the JSON ["messages"] array of the vnu service.  The
    code reads ["type"] and ["message"] of every message and ["extract"]
    of the error messages it reports; vnu omits ["extract"] for messages
    that are not about a piece of the source, hence the option. *)
Record vnu_message := {
  msg_type : pystr;
  msg_message : pystr;
  msg_extract : option pystr;
  msg_subType : option pystr;
}.

(** The JSON object returned by the service: [results["messages"]]. *)
Record vnu_results := { messages : list vnu_message }.

(** ** Insertion-ordered dicts and [defaultdict] *)

Section OrdDict.
Context {K V : Type} `{EqDecision K}.

Fixpoint od_lookup (k : K) (d : list (K * V)) : option V :=
  match d with
  | [] => None
  | (k', v) :: d' => if decide (k = k') then Some v else od_lookup k d'
  end.

(** [d[k] = f(d[k])] on a [defaultdict] whose factory returns [dflt]:
    a missing key is inserted last. *)
Fixpoint od_alter_default (dflt : V) (f : V -> V) (k : K) (d : list (K * V)) : list (K * V) :=
  match d with
  | [] => [(k, f dflt)]
  | (k', v) :: d' =>
      if decide (k = k') then (k', f v) :: d' else (k', v) :: od_alter_default dflt f k d'
  end.
End OrdDict.

(** The keys of [l] in order of first occurrence, without repetition. *)
Fixpoint dedup_first_go {K} `{EqDecision K} (seen l : list K) : list K :=
  match l with
  | [] => []
  | k :: l' => if decide (k ∈ seen) then dedup_first_go seen l' else k :: dedup_first_go (k :: seen) l'
  end.

Definition dedup_first {K} `{EqDecision K} (l : list K) : list K := dedup_first_go [] l.

(** ** [itertools.groupby] *)

(** The runs of consecutive elements with equal keys, each with its key. *)
Fixpoint groupby {A K} `{EqDecision K} (key : A -> K) (l : list A) : list (K * list A) :=
  match l with
  | [] => []
  | x :: l' =>
      match groupby key l' with
      | (k, g) :: rest =>
          if decide (key x = k) then (k, x :: g) :: rest else (key x, [x]) :: (k, g) :: rest
      | [] => [(key x, [x])]
      end
  end.

(** ** [organize_validator_results] (lines 98-105) *)

Abbreviation collected := (list (pystr * list (pystr * list vnu_message))).

(** [collect[error][msg].append(item)] *)
Definition collect_append (error msg : pystr) (item : vnu_message) (c : collected) : collected :=
  od_alter_default [] (od_alter_default [] (fun g => g ++ [item]) msg) error c.

Definition type_message (x : vnu_message) : pystr * pystr := (msg_type x, msg_message x).

Definition organize_validator_results (results : vnu_results) : collected :=
  fold_left
    (fun collect '((error, msg), group) =>
       fold_left (fun c item => collect_append error msg item c) group collect)
    (groupby type_message (messages results)) [].

(** ** The [EXCLUDE] pattern (lines 31-34) *)

(** The literal part of the pattern, with its curly quotes. *)
Definition EXCLUDE_LIT : pystr :=
  «"or with a "» ++ [LQUOTE] ++ «"role"» ++ [RQUOTE] ++ «" attribute whose value is "» ++
  [LQUOTE] ++ «"table"» ++ [RQUOTE] ++ «", "» ++ [LQUOTE] ++ «"grid"» ++ [RQUOTE] ++
  «", or "» ++ [LQUOTE] ++ «"treegrid"» ++ [RQUOTE].

(** [t] ends with [lit] followed by one character other than a newline
    (the pattern's [.]). *)
Definition lit_dot_at_end (lit t : pystr) : bool :=
  match reverse t with
  | c :: rt => bool_decide (c <> 10%Z) && bool_decide (reverse lit `prefix_of` rt)
  | [] => false
  end.

(** [EXCLUDE.search(s)] for the pattern [LIT.$]: without [re.MULTILINE],
    [$] matches at the end of [s] and before a newline that ends [s]. *)
Definition EXCLUDE_search (s : pystr) : bool :=
  lit_dot_at_end EXCLUDE_LIT s ||
  match reverse s with
  | 10 :: rs => lit_dot_at_end EXCLUDE_LIT (reverse rs)
  | _ => false
  end%Z.

(** ** [raise_if_errors] (lines 108-119) *)

(** [not exclude or not exclude.search(msg)]; a compiled pattern is
    always true, [None] is false. *)
Definition keep_message (exclude : option (pystr -> bool)) (msg : pystr) : bool :=
  match exclude with
  | None => true
  | Some search => negb (search msg)
  end.

(** [Exception(x["extract"])] *)
Definition extract_exception (x : vnu_message) : pyres pyexc :=
  match msg_extract x with
  | Some e => Ok (Exception e)
  | None => Raise (KeyError «"extract"»)
  end.

(** A list comprehension: left to right, the first exception escapes. *)
Fixpoint map_res {A B} (f : A -> pyres B) (l : list A) : pyres (list B) :=
  match l with
  | [] => Ok []
  | x :: l' => y <- f x ;; ys <- map_res f l' ;; Ok (y :: ys)
  end.

(** The [ExceptionGroup] constructor refuses an empty list. *)
Definition exception_group (msg : pystr) (excs : list pyexc) : pyres pyexc :=
  match excs with
  | [] => Raise (ValueError «"second argument (exceptions) must be a non-empty sequence"»)
  | _ => Ok (ExceptionGroup msg excs)
  end.

(** The loop [for msg in collect["error"]] with its accumulator
    [exceptions]. *)
Fixpoint error_groups (exclude : option (pystr -> bool))
    (errs : list (pystr * list vnu_message)) (exceptions : list pyexc) : pyres (list pyexc) :=
  match errs with
  | [] => Ok exceptions
  | (msg, items) :: rest =>
      if keep_message exclude msg then
        excs <- map_res extract_exception items ;;
        g <- exception_group msg excs ;;
        error_groups exclude rest (exceptions ++ [g])
      else error_groups exclude rest exceptions
  end.

(** [Ok tt] when the function returns, [Raise e] when it raises [e].
    [collect["error"]] on the [defaultdict] inserts an empty entry when
    there is no error; the empty entry has no message, as [[]] here. *)
Definition raise_if_errors (results : vnu_results) (exclude : option (pystr -> bool)) : pyres unit :=
  let collect := organize_validator_results results in
  exceptions <- error_groups exclude (default [] (od_lookup «"error"» collect)) [] ;;
  match exceptions with
  | [] => Ok tt
  | _ => g <- exception_group «"nu validator errors"» exceptions ;; Raise g
  end.

(** The default argument [exclude=EXCLUDE]. *)
Definition raise_if_errors_default (results : vnu_results) : pyres unit :=
  raise_if_errors results (Some EXCLUDE_search).

(** ** Specifications *)

(** The dict of groups [key -> elements with that key], keys in order of
    first occurrence, elements in their order in [l]. *)
Definition group_spec {A K} `{EqDecision K} (key : A -> K) (l : list A) : list (K * list A) :=
  map (fun k => (k, filter (fun x => key x = k) l)) (dedup_first (map key l)).

(** The two-level dict [type -> message -> messages] that the classifier
    should build. *)
Definition organize_spec (msgs : list vnu_message) : collected :=
  map (fun t => (t, group_spec msg_message (filter (fun x => msg_type x = t) msgs)))
    (dedup_first (map msg_type msgs)).

(** The error messages of a result, grouped by text. *)
Definition error_message_groups (msgs : list vnu_message) : list (pystr * list vnu_message) :=
  group_spec msg_message (filter (fun x => msg_type x = «"error"») msgs).

(** The sub-exception of one reported group when every extract exists. *)
Definition group_exception (g : pystr * list vnu_message) : pyexc :=
  ExceptionGroup g.1 (map (fun x => Exception (default [] (msg_extract x))) g.2).

(** A group that [raise_if_errors] reports. *)
Definition kept (exclude : option (pystr -> bool)) (g : pystr * list vnu_message) : Prop :=
  keep_message exclude g.1 = true.

#[export] Instance kept_dec exclude g : Decision (kept exclude g).
Proof. unfold kept. apply _. Defined.

(** The three messages of the specification's example. *)
Definition spec_example : vnu_results := {| messages := [
  {| msg_type := «"error"»; msg_message := «"Foo"»; msg_extract := Some «"a"»; msg_subType := None |};
  {| msg_type := «"error"»; msg_message := «"Foo"»; msg_extract := Some «"b"»; msg_subType := None |};
  {| msg_type := «"warning"»; msg_message := «"Bar"»; msg_extract := Some «"c"»; msg_subType := None |}] |}.

(** An error message without ["extract"]. *)
Definition no_extract_example : vnu_results := {| messages := [
  {| msg_type := «"error"»; msg_message := «"Stray end tag"»; msg_extract := None;
     msg_subType := None |}] |}.

(** An error that is the validator's known false positive. *)
Definition role_table_example : vnu_results := {| messages := [
  {| msg_type := «"error"»;
     msg_message := «"The element tr must not be used "» ++ EXCLUDE_LIT ++ «"."»;
     msg_extract := Some «"<tr>"»; msg_subType := None |}] |}.

(** The loop of [organize_validator_results] without [groupby]: one
    append per message. *)
Definition organize_per_item (msgs : list vnu_message) : collected :=
  fold_left (fun c x => collect_append (msg_type x) (msg_message x) x c) msgs [].

(** What [raise_if_errors] should do when the reported messages have
    extracts: one sub-group per distinct reported error text. *)
Definition raise_if_errors_spec (msgs : list vnu_message) (exclude : option (pystr -> bool)) : pyres unit :=
  match map group_exception
          (filter (kept exclude) (error_message_groups msgs)) with
  | [] => Ok tt
  | gs => Raise (ExceptionGroup «"nu validator errors"» gs)
  end.

(** ** Dicts *)

Section OrdDictFacts.
Context {K V : Type} `{EqDecision K}.

(** [defaultdict] update of a dict given by a function on its keys. *)
Lemma od_alter_default_map (dflt : V) f (F F' : K -> V) (ks : list K) k :
  NoDup ks -> (k ∉ ks -> F k = dflt) -> F' k = f (F k) ->
  (forall k', k' <> k -> F' k' = F k') ->
  od_alter_default dflt f k (map (fun k' => (k', F k')) ks)
  = map (fun k' => (k', F' k')) (ks ++ if bool_decide (k ∈ ks) then [] else [k]).
Proof.
  intros Hnd Hdflt Hk Hother. induction ks as [|k0 ks IH]; simpl.
  - rewrite Hk, Hdflt by set_solver. done.
  - apply NoDup_cons in Hnd as [Hk0 Hnd].
    destruct (decide (k = k0)) as [->|Hne].
    + simpl. destruct (decide (k0 = k0)) as [_|]; [|done].
      rewrite bool_decide_eq_true_2 by set_solver. simpl. rewrite Hk. f_equal.
      rewrite app_nil_r. apply map_ext_in. intros k' Hk'%list_elem_of_In.
      rewrite Hother by set_solver. done.
    + cbn [od_alter_default map]. rewrite Hother by done. f_equal.
      rewrite IH by (done || set_solver).
      rewrite (bool_decide_ext (k ∈ k0 :: ks) (k ∈ ks)) by set_solver. done.
Qed.

Lemma od_lookup_map (F : K -> V) (ks : list K) k :
  od_lookup k (map (fun k' => (k', F k')) ks) = if decide (k ∈ ks) then Some (F k) else None.
Proof.
  induction ks as [|k0 ks IH]; cbn [od_lookup map]; [done|].
  destruct (decide (k = k0)) as [->|Hne].
  - destruct (decide (k0 ∈ k0 :: ks)); [done | set_solver].
  - rewrite IH. destruct (decide (k ∈ ks)), (decide (k ∈ k0 :: ks)); set_solver.
Qed.
End OrdDictFacts.

Section Dedup.
Context {K : Type} `{EqDecision K}.

Lemma elem_of_dedup_first_go (seen l : list K) x :
  x ∈ dedup_first_go seen l <-> x ∈ l /\ x ∉ seen.
Proof.
  revert seen. induction l as [|k l IH]; intros seen; simpl; [set_solver|].
  case_decide; rewrite ?elem_of_cons, ?IH, ?elem_of_cons;
    destruct (decide (x = k)); subst; intuition auto.
Qed.

Lemma NoDup_dedup_first_go (seen l : list K) : NoDup (dedup_first_go seen l).
Proof.
  revert seen. induction l as [|k l IH]; intros seen; simpl; [constructor|].
  case_decide; [done|]. constructor; [|done].
  rewrite elem_of_dedup_first_go. set_solver.
Qed.

Lemma elem_of_dedup_first (l : list K) x : x ∈ dedup_first l <-> x ∈ l.
Proof. unfold dedup_first. rewrite elem_of_dedup_first_go. set_solver. Qed.

Lemma dedup_first_go_snoc (seen l : list K) k :
  dedup_first_go seen (l ++ [k])
  = dedup_first_go seen l ++ if bool_decide (k ∈ seen \/ k ∈ l) then [] else [k].
Proof.
  revert seen. induction l as [|k0 l IH]; intros seen; simpl.
  - rewrite (bool_decide_ext _ (k ∈ seen)) by set_solver.
    case_decide; case_bool_decide; done.
  - destruct (decide (k0 ∈ seen)) as [Hin|Hin]; rewrite IH; [|simpl]; f_equal.
    + rewrite (bool_decide_ext (k ∈ seen \/ k ∈ k0 :: l) (k ∈ seen \/ k ∈ l)); [done|].
      rewrite elem_of_cons. naive_solver.
    + rewrite (bool_decide_ext (k ∈ seen \/ k ∈ k0 :: l) (k ∈ k0 :: seen \/ k ∈ l)); [done|].
      rewrite !elem_of_cons. naive_solver.
Qed.

Lemma dedup_first_snoc (l : list K) k :
  dedup_first (l ++ [k]) = dedup_first l ++ if bool_decide (k ∈ dedup_first l) then [] else [k].
Proof.
  unfold dedup_first. rewrite dedup_first_go_snoc.
  rewrite (bool_decide_ext (k ∈ dedup_first_go [] l) (k ∈ [] \/ k ∈ l)); [done|].
  rewrite elem_of_dedup_first_go. set_solver.
Qed.
End Dedup.

#[export] Hint Resolve NoDup_dedup_first_go : pyv.

(** ** Groups *)

Section Groups.
Context {A K : Type} `{EqDecision K}.
Implicit Types (key : A -> K) (l : list A).

Lemma filter_key_absent key l k : k ∉ map key l -> filter (fun x => key x = k) l = [].
Proof.
  intros Hk. apply filter_nil_forall. intros x Hx <-.
  apply Hk, list_elem_of_In, in_map, list_elem_of_In, Hx.
Qed.

(** One [d[key(x)].append(x)] on the group dict of [l] gives the group
    dict of [l ++ [x]]. *)
Lemma group_spec_snoc key l x :
  od_alter_default [] (fun g => g ++ [x]) (key x) (group_spec key l) = group_spec key (l ++ [x]).
Proof.
  unfold group_spec. rewrite map_app. cbn [map]. rewrite dedup_first_snoc.
  apply od_alter_default_map.
  - apply NoDup_dedup_first_go.
  - intros Hn. apply filter_key_absent. by rewrite <- elem_of_dedup_first.
  - by rewrite filter_app, filter_cons_True, filter_nil.
  - intros k' Hk'. rewrite filter_app, filter_cons_False, filter_nil by done.
    apply app_nil_r.
Qed.

Lemma group_spec_nonempty key l k g : (k, g) ∈ group_spec key l -> g <> [].
Proof.
  unfold group_spec. intros Hin.
  apply list_elem_of_In, in_map_iff in Hin as (k' & Heq & Hin).
  injection Heq as <- <-. apply list_elem_of_In in Hin. rewrite elem_of_dedup_first in Hin.
  apply list_elem_of_In, in_map_iff in Hin as (x & <- & Hx).
  apply list_elem_of_In in Hx. intros Hnil. by eapply (filter_nil_not_elem_of _ _ x) in Hnil.
Qed.

(** [groupby] cuts the list into runs of equal keys. *)
Lemma groupby_concat key l : concat (map snd (groupby key l)) = l.
Proof.
  induction l as [|x l IH]; simpl; [done|].
  destruct (groupby key l) as [|[k g] rest]; simpl in *; [by subst|].
  case_decide; simpl; by rewrite IH.
Qed.

Lemma groupby_keys key l : Forall (fun '(k, g) => Forall (fun x => key x = k) g) (groupby key l).
Proof.
  induction l as [|x l IH]; simpl; [constructor|].
  destruct (groupby key l) as [|[k g] rest]; [repeat constructor|].
  inversion IH as [|? ? Hg Hrest]; subst.
  case_decide; repeat constructor; done.
Qed.
End Groups.

Section GroupMembers.
Context {A K : Type} `{EqDecision K}.

Lemma elem_of_group_spec (key : A -> K) l k g :
  (k, g) ∈ group_spec key l <-> k ∈ map key l /\ g = filter (fun x => key x = k) l.
Proof.
  unfold group_spec. rewrite list_elem_of_In, in_map_iff. split.
  - intros (k' & Heq & Hin). injection Heq as <- <-.
    apply list_elem_of_In in Hin. rewrite elem_of_dedup_first in Hin. done.
  - intros [Hk ->]. exists k. split; [done|].
    apply list_elem_of_In. by rewrite elem_of_dedup_first.
Qed.
End GroupMembers.

(** ** [organize_validator_results] *)

Lemma fold_group_items error msg (g : list vnu_message) c :
  Forall (fun x => type_message x = (error, msg)) g ->
  fold_left (fun c item => collect_append error msg item c) g c
  = fold_left (fun c x => collect_append (msg_type x) (msg_message x) x c) g c.
Proof.
  revert c. induction g as [|x g IH]; intros c Hg; [done|].
  inversion Hg as [|? ? Hx Hg']; subst. unfold type_message in Hx. injection Hx as <- <-.
  simpl. by apply IH.
Qed.

Lemma fold_groups (gs : list ((pystr * pystr) * list vnu_message)) c :
  Forall (fun '(k, g) => Forall (fun x => type_message x = k) g) gs ->
  fold_left (fun collect '((error, msg), group) =>
               fold_left (fun c item => collect_append error msg item c) group collect) gs c
  = fold_left (fun c x => collect_append (msg_type x) (msg_message x) x c) (concat (map snd gs)) c.
Proof.
  revert c. induction gs as [|[[e m] g] gs IH]; intros c Hgs; [done|].
  inversion Hgs as [|? ? Hg Hgs']; subst. simpl.
  rewrite fold_left_app, fold_group_items by done. by apply IH.
Qed.

Lemma organize_spec_snoc (l : list vnu_message) x :
  collect_append (msg_type x) (msg_message x) x (organize_spec l) = organize_spec (l ++ [x]).
Proof.
  unfold collect_append, organize_spec. rewrite map_app. cbn [map]. rewrite dedup_first_snoc.
  apply od_alter_default_map.
  - apply NoDup_dedup_first_go.
  - intros Hn. rewrite filter_key_absent; [done|]. by rewrite <- elem_of_dedup_first.
  - rewrite filter_app, filter_cons_True, filter_nil by done. symmetry. apply group_spec_snoc.
  - intros t Ht. rewrite filter_app, filter_cons_False, filter_nil, app_nil_r by done. done.
Qed.

Lemma organize_per_item_spec (msgs : list vnu_message) : organize_per_item msgs = organize_spec msgs.
Proof.
  induction msgs as [|x msgs IH] using rev_ind; [done|].
  unfold organize_per_item in *. rewrite fold_left_app, IH. apply organize_spec_snoc.
Qed.

(** The error entry [collect["error"]] of the classifier. *)
Lemma organize_error_entry (msgs : list vnu_message) :
  default [] (od_lookup «"error"» (organize_spec msgs)) = error_message_groups msgs.
Proof.
  unfold organize_spec, error_message_groups. rewrite od_lookup_map.
  case_decide as Hin; [done|]. simpl.
  rewrite filter_key_absent; [done|]. by rewrite <- elem_of_dedup_first.
Qed.

Lemma organize_eq_spec (r : vnu_results) :
  organize_validator_results r = organize_spec (messages r).
Proof.
  unfold organize_validator_results. rewrite fold_groups by apply groupby_keys.
  rewrite groupby_concat. apply organize_per_item_spec.
Qed.

(** C7: [organize_validator_results] builds the two-level dict
    [collect[type][message]]: its types are those of the messages in
    order of first occurrence; the texts under a type are those of the
    messages of that type in order of first occurrence; and
    [collect[t][m]] holds exactly the messages of type [t] and text [m],
    in their order, and exists iff there is one. *)
Theorem organize_validator_results_spec (r : vnu_results) t m :
  map fst (organize_validator_results r) = dedup_first (map msg_type (messages r)) /\
  (od_lookup t (organize_validator_results r) ≫= fun d => Some (map fst d)) =
    (if decide (t ∈ map msg_type (messages r))
     then Some (dedup_first (map msg_message (filter (fun x => msg_type x = t) (messages r))))
     else None) /\
  (od_lookup t (organize_validator_results r) ≫= od_lookup m) =
    match filter (fun x => msg_message x = m /\ msg_type x = t) (messages r) with
    | [] => None
    | g => Some g
    end.
Proof.
  rewrite organize_eq_spec. unfold organize_spec. rewrite od_lookup_map. split_and!.
  - rewrite map_map. apply map_id.
  - destruct (decide (t ∈ dedup_first _)) as [Ht|Ht], (decide (t ∈ map msg_type _)) as [Ht'|Ht'];
      rewrite elem_of_dedup_first in Ht; try done. simpl.
    unfold group_spec. rewrite map_map. f_equal. apply map_id.
  - destruct (decide (t ∈ dedup_first _)) as [Ht|Ht]; rewrite elem_of_dedup_first in Ht; simpl.
    + unfold group_spec. rewrite od_lookup_map.
      assert (Hf : filter (fun x => msg_message x = m) (filter (fun x => msg_type x = t) (messages r))
                   = filter (fun x => msg_message x = m /\ msg_type x = t) (messages r))
        by apply list_filter_filter.
      rewrite Hf.
      destruct (decide (m ∈ _)) as [Hm|Hm]; rewrite elem_of_dedup_first in Hm;
        destruct (filter (fun x => msg_message x = m /\ msg_type x = t) _) eqn:E; try done.
      * by apply filter_key_nil in E.
      * apply filter_key_nil in Hm. congruence.
    + replace (filter _ _) with (@nil vnu_message); [done|]. symmetry.
      apply filter_nil_forall. intros x Hx [_ <-]. apply Ht.
      apply list_elem_of_In, in_map_iff. exists x. split; [done|]. by apply list_elem_of_In.
Qed.

(** ** [raise_if_errors] *)

(** [map_res] over a concatenation stops at the first error of either part. *)
Lemma map_res_app {A B} (f : A -> pyres B) l1 l2 :
  map_res f (l1 ++ l2) = (ys <- map_res f l1 ;; zs <- map_res f l2 ;; Ok (ys ++ zs)).
Proof.
  induction l1 as [|x l1 IH]; cbn [app map_res].
  - by destruct (map_res f l2).
  - destruct (f x); [|done]. cbn [pyres_bind]. rewrite IH.
    destruct (map_res f l1); [|done]. cbn [pyres_bind]. by destruct (map_res f l2).
Qed.

Lemma map_res_extract_ok (items : list vnu_message) :
  Forall (fun x => is_Some (msg_extract x)) items ->
  map_res extract_exception items
  = Ok (map (fun x => Exception (default [] (msg_extract x))) items).
Proof.
  induction items as [|x items IH]; intros Hall; [done|].
  inversion Hall as [|? ? [e He] Hall']; subst. simpl.
  unfold extract_exception at 1. rewrite He. simpl. by rewrite IH.
Qed.

Lemma map_res_extract_cases (items : list vnu_message) :
  (exists excs, map_res extract_exception items = Ok excs /\ length excs = length items)
  \/ (map_res extract_exception items = Raise (KeyError «"extract"»)
      /\ exists x, x ∈ items /\ msg_extract x = None).
Proof.
  induction items as [|x items IH]; [left; by exists []|]. cbn [map_res].
  destruct (msg_extract x) as [e|] eqn:He.
  - replace (extract_exception x) with (Ok (A:=pyexc) (Exception e))
      by (unfold extract_exception; by rewrite He).
    destruct IH as [(excs & -> & Hlen) | [-> (y & Hy & Hny)]]; simpl.
    + left. exists (Exception e :: excs). simpl. by rewrite Hlen.
    + right. split; [done|]. exists y. split; [set_solver | done].
  - replace (extract_exception x) with (Raise (A:=pyexc) (KeyError «"extract"»))
      by (unfold extract_exception; by rewrite He).
    right. split; [done|]. exists x. split; [set_solver | done].
Qed.


Lemma map_res_extract_missing (items : list vnu_message) x :
  x ∈ items -> msg_extract x = None ->
  map_res extract_exception items = Raise (KeyError «"extract"»).
Proof.
  induction items as [|y items IH]; intros Hx Hnx; [set_solver|]. cbn [map_res].
  apply elem_of_cons in Hx as [->|Hx].
  - unfold extract_exception at 1. by rewrite Hnx.
  - rewrite IH by done. unfold extract_exception at 1. by destruct (msg_extract y).
Qed.

Section ErrorGroups.
Context (exclude : option (pystr -> bool)).

Lemma error_groups_correct errs acc :
  Forall (fun g => kept exclude g -> g.2 <> [] /\ Forall (fun x => is_Some (msg_extract x)) g.2) errs ->
  error_groups exclude errs acc = Ok (acc ++ map group_exception (filter (kept exclude) errs)).
Proof.
  revert acc. induction errs as [|[m items] errs IH]; intros acc Hall; simpl.
  - by rewrite app_nil_r.
  - inversion Hall as [|? ? Hg Hall']; subst. rewrite filter_cons.
    destruct (decide (kept exclude (m, items))) as [Hk|Hk]; unfold kept in Hk; simpl in Hk.
    + rewrite Hk. destruct (Hg Hk) as [Hne Hex]. rewrite map_res_extract_ok by done. simpl.
      destruct items as [|x items]; [done|]. simpl. rewrite IH by done.
      by rewrite <- app_assoc.
    + apply not_true_is_false in Hk. rewrite Hk. by apply IH.
Qed.

Lemma error_groups_no_kept errs acc :
  Forall (fun g => ~ kept exclude g) errs -> error_groups exclude errs acc = Ok acc.
Proof.
  revert acc. induction errs as [|[m items] errs IH]; intros acc Hall; [done|].
  inversion Hall as [|? ? Hg Hall']; subst. unfold kept in Hg. simpl in *.
  rewrite not_true_iff_false in Hg. rewrite Hg. by apply IH.
Qed.

(** With non-empty groups the loop raises nothing but [KeyError]. *)
Lemma error_groups_raise errs acc e :
  Forall (fun g => g.2 <> []) errs ->
  error_groups exclude errs acc = Raise e -> e = KeyError «"extract"».
Proof.
  revert acc. induction errs as [|[m items] errs IH]; intros acc Hall Hr; [done|].
  inversion Hall as [|? ? Hne Hall']; subst. simpl in *.
  destruct (keep_message exclude m); [|by eapply IH].
  destruct (map_res_extract_cases items) as [(excs & Hm & Hlen) | [Hm _]];
    rewrite Hm in Hr; simpl in Hr; [|by injection Hr].
  destruct excs; [destruct items; simpl in *; done|]. simpl in Hr. by eapply IH.
Qed.

Lemma error_groups_grows errs acc l :
  error_groups exclude errs acc = Ok l -> acc `prefix_of` l.
Proof.
  revert acc. induction errs as [|[m items] errs IH]; intros acc Hr; simpl in Hr.
  - by injection Hr as ->.
  - destruct (keep_message exclude m); [|by eapply IH].
    destruct (map_res extract_exception items) as [excs|]; simpl in Hr; [|done].
    destruct excs; simpl in Hr; [done|].
    apply IH in Hr. by eapply prefix_app_l.
Qed.

Lemma error_groups_some_kept errs acc l :
  Forall (fun g => g.2 <> []) errs -> (exists g, g ∈ errs /\ kept exclude g) ->
  error_groups exclude errs acc = Ok l -> l <> [].
Proof.
  revert acc. induction errs as [|[m items] errs IH]; intros acc Hall (g & Hg & Hkg) Hr;
    [set_solver|].
  inversion Hall as [|? ? Hne Hall']; subst. simpl in *.
  destruct (keep_message exclude m) eqn:Hk.
  - destruct (map_res extract_exception items) as [excs|]; simpl in Hr; [|done].
    destruct excs as [|exc excs]; simpl in Hr; [done|].
    apply error_groups_grows in Hr as [? ->]. by destruct acc.
  - apply elem_of_cons in Hg as [->|Hg]; [unfold kept in Hkg; simpl in Hkg; congruence|].
    eapply IH; eauto.
Qed.

Lemma error_groups_missing errs acc :
  Forall (fun g => g.2 <> []) errs ->
  (exists g x, g ∈ errs /\ kept exclude g /\ x ∈ g.2 /\ msg_extract x = None) ->
  error_groups exclude errs acc = Raise (KeyError «"extract"»).
Proof.
  revert acc. induction errs as [|[m items] errs IH]; intros acc Hall (g & x & Hg & Hkg & Hx & Hnx);
    [set_solver|].
  inversion Hall as [|? ? Hne Hall']; subst. simpl.
  apply elem_of_cons in Hg as [->|Hg].
  - unfold kept in Hkg. simpl in *. rewrite Hkg.
    by rewrite (map_res_extract_missing items x).
  - destruct (keep_message exclude m) eqn:Hk; [|apply IH; eauto 10].
    destruct (map_res_extract_cases items) as [(excs & Hm & Hlen) | [Hm _]]; rewrite Hm; [|done].
    destruct excs as [|exc excs]; [by destruct items|]. simpl. apply IH; eauto 10.
Qed.

End ErrorGroups.

Lemma error_groups_shape exclude errs acc l :
  error_groups exclude errs acc = Ok l ->
  Forall (fun g => exists m excs, excs <> [] /\ g = ExceptionGroup m excs) acc ->
  Forall (fun g => exists m excs, excs <> [] /\ g = ExceptionGroup m excs) l.
Proof.
  revert acc. induction errs as [|[m items] errs IH]; intros acc Hr Hacc; simpl in Hr.
  - by injection Hr as <-.
  - destruct (keep_message exclude m); [|by eapply IH].
    destruct (map_res extract_exception items) as [excs|]; simpl in Hr; [|done].
    destruct excs as [|exc excs]; simpl in Hr; [done|].
    eapply IH; [exact Hr|]. apply Forall_app. split; [done|].
    repeat constructor. by exists m, (exc :: excs).
Qed.

Lemma error_message_groups_nonempty msgs : Forall (fun g => g.2 <> []) (error_message_groups msgs).
Proof. apply Forall_forall. intros [m g] Hg. by eapply group_spec_nonempty. Qed.

Lemma raise_if_errors_unfold r exclude :
  raise_if_errors r exclude =
  (exceptions <- error_groups exclude (error_message_groups (messages r)) [] ;;
   match exceptions with
   | [] => Ok tt
   | _ => g <- exception_group «"nu validator errors"» exceptions ;; Raise g
   end).
Proof. unfold raise_if_errors. by rewrite organize_eq_spec, organize_error_entry. Qed.

Lemma elem_of_error_message_groups msgs m g :
  (m, g) ∈ error_message_groups msgs <->
  (exists x, x ∈ msgs /\ msg_type x = «"error"» /\ msg_message x = m) /\
  g = filter (fun x => msg_message x = m) (filter (fun x => msg_type x = «"error"») msgs).
Proof.
  unfold error_message_groups. rewrite elem_of_group_spec, list_elem_of_In, in_map_iff.
  split; intros [(x & Hm & Hx) Hg]; (split; [|done]); exists x;
    rewrite <- ?list_elem_of_In, list_elem_of_filter in *; naive_solver.
Qed.

Lemma kept_group_iff exclude msgs :
  (exists g, g ∈ error_message_groups msgs /\ kept exclude g) <->
  exists x, x ∈ msgs /\ msg_type x = «"error"» /\ keep_message exclude (msg_message x) = true.
Proof.
  split.
  - intros ([m g] & Hg & Hk). apply elem_of_error_message_groups in Hg as [(x & ? & ? & <-) _].
    exists x. done.
  - intros (x & Hx & Ht & Hk). exists (msg_message x, filter (fun y => msg_message y = msg_message x)
      (filter (fun y => msg_type y = «"error"») msgs)).
    rewrite elem_of_error_message_groups. split; [|done]. split; [|done]. by exists x.
Qed.

(** Results without a reported error pass. *)
Lemma raise_if_errors_none_kept (r : vnu_results) exclude :
  (forall x, x ∈ messages r -> msg_type x = «"error"» -> keep_message exclude (msg_message x) = false) ->
  raise_if_errors r exclude = Ok tt.
Proof.
  intros Hnone. rewrite raise_if_errors_unfold, error_groups_no_kept; [done|].
  apply Forall_forall. intros g Hg Hk.
  destruct (proj1 (kept_group_iff exclude (messages r))) as (x & Hx & Ht & Hkx); [by exists g|].
  rewrite Hnone in Hkx by done. done.
Qed.

(** [raise_if_errors] returns normally iff every error message is
    excluded by the pattern; whatever the extracts are. *)
Theorem raise_if_errors_ok_iff (r : vnu_results) exclude :
  raise_if_errors r exclude = Ok tt <->
  forall x, x ∈ messages r -> msg_type x = «"error"» -> keep_message exclude (msg_message x) = false.
Proof.
  split; [|apply raise_if_errors_none_kept].
  rewrite raise_if_errors_unfold. intros Hok x Hx Ht. apply not_true_iff_false. intros Hk.
  assert (Hg : exists g, g ∈ error_message_groups (messages r) /\ kept exclude g)
    by (apply kept_group_iff; by exists x).
  destruct (error_groups exclude (error_message_groups (messages r)) []) as [l|] eqn:He;
    simpl in Hok; [|done].
  eapply error_groups_some_kept in He; [| apply error_message_groups_nonempty | done].
  by destruct l.
Qed.

(** C8: when the reported error messages have an ["extract"],
    [raise_if_errors] raises one [ExceptionGroup("nu validator errors")]
    with one sub-group per distinct reported error text, in order of first
    occurrence, each holding the [Exception(extract)] of every message
    with that text, in order; it returns normally when there is none. *)
Theorem raise_if_errors_correct (r : vnu_results) exclude :
  (forall x, x ∈ messages r -> msg_type x = «"error"» ->
     keep_message exclude (msg_message x) = true -> is_Some (msg_extract x)) ->
  raise_if_errors r exclude = raise_if_errors_spec (messages r) exclude.
Proof.
  intros Hex. rewrite raise_if_errors_unfold, error_groups_correct.
  - unfold raise_if_errors_spec. simpl.
    by destruct (map group_exception (filter (kept exclude) _)).
  - apply Forall_forall. intros [m g] Hg Hk. split.
    + eapply group_spec_nonempty, Hg.
    + apply elem_of_error_message_groups in Hg as [_ ->]. apply Forall_forall.
      intros y Hy. simpl in Hy. rewrite !list_elem_of_filter in Hy. destruct Hy as (<- & Ht & Hy).
      by apply Hex.
Qed.

(** [raise_if_errors] never calls [ExceptionGroup] with an empty list
    (which would raise [ValueError]): what it raises is [KeyError] for a
    missing ["extract"], or a non-empty group of non-empty groups. *)
Theorem raise_if_errors_raises (r : vnu_results) exclude e :
  raise_if_errors r exclude = Raise e ->
  e = KeyError «"extract"» \/
  exists gs, gs <> [] /\ e = ExceptionGroup «"nu validator errors"» gs /\
    Forall (fun g => exists m excs, excs <> [] /\ g = ExceptionGroup m excs) gs.
Proof.
  rewrite raise_if_errors_unfold.
  destruct (error_groups exclude (error_message_groups (messages r)) []) as [l|e'] eqn:He;
    simpl; intros Hr.
  - destruct l as [|g gs]; [done|]. simpl in Hr. injection Hr as <-. right.
    exists (g :: gs). split; [done|]. split; [done|].
    eapply error_groups_shape; [exact He | constructor].
  - injection Hr as <-. left.
    eapply error_groups_raise; [apply error_message_groups_nonempty | exact He].
Qed.

(** C12: an error message that is reported but has no ["extract"] makes
    [raise_if_errors] raise [KeyError('extract')] instead of the
    validation failure. *)
Theorem raise_if_errors_missing_extract (r : vnu_results) exclude x :
  x ∈ messages r -> msg_type x = «"error"» -> keep_message exclude (msg_message x) = true ->
  msg_extract x = None ->
  raise_if_errors r exclude = Raise (KeyError «"extract"»).
Proof.
  intros Hx Ht Hk Hn. rewrite raise_if_errors_unfold, error_groups_missing; [done | |].
  - apply error_message_groups_nonempty.
  - exists (msg_message x, filter (fun y => msg_message y = msg_message x)
      (filter (fun y => msg_type y = «"error"») (messages r))), x.
    rewrite elem_of_error_message_groups. split; [split; [by exists x | done]|].
    split; [done|]. split; [|done]. simpl. rewrite !list_elem_of_filter. done.
Qed.

Lemma EXCLUDE_search_period pre : EXCLUDE_search (pre ++ EXCLUDE_LIT ++ «"."») = true.
Proof.
  unfold EXCLUDE_search, lit_dot_at_end. rewrite !reverse_app. by simpl.
Qed.

(** With the default pattern, the known false positive of the
    validator (an error text ending in the [EXCLUDE] sentence and a
    period) is never reported: results whose errors are all of this kind
    pass. *)
Theorem raise_if_errors_default_excludes (r : vnu_results) :
  (forall x, x ∈ messages r -> msg_type x = «"error"» ->
     exists pre, msg_message x = pre ++ EXCLUDE_LIT ++ «"."») ->
  raise_if_errors_default r = Ok tt.
Proof.
  intros Hall. apply raise_if_errors_none_kept. intros x Hx Ht.
  destruct (Hall x Hx Ht) as [pre ->]. simpl. by rewrite EXCLUDE_search_period.
Qed.

(** ** Witnesses *)

Lemma raise_if_errors_correct_witness :
  (forall x, x ∈ messages spec_example -> msg_type x = «"error"» ->
     keep_message None (msg_message x) = true -> is_Some (msg_extract x)) /\
  raise_if_errors spec_example None = raise_if_errors_spec (messages spec_example) None /\
  raise_if_errors_spec (messages spec_example) None =
    Raise (ExceptionGroup «"nu validator errors"»
             [ExceptionGroup «"Foo"» [Exception «"a"»; Exception «"b"»]]).
Proof.
  assert (H : forall x, x ∈ messages spec_example -> msg_type x = «"error"» ->
     keep_message None (msg_message x) = true -> is_Some (msg_extract x)).
  { intros x Hx. repeat (apply elem_of_cons in Hx as [->|Hx]); [..|by apply elem_of_nil in Hx];
      intros; by eexists. }
  split; [exact H|]. split; [exact (raise_if_errors_correct spec_example None H)|].
  vm_compute. reflexivity.
Defined.

Lemma raise_if_errors_raises_witness :
  raise_if_errors spec_example None =
    Raise (ExceptionGroup «"nu validator errors"»
             [ExceptionGroup «"Foo"» [Exception «"a"»; Exception «"b"»]]) /\
  (ExceptionGroup «"nu validator errors"» [ExceptionGroup «"Foo"» [Exception «"a"»; Exception «"b"»]]
     = KeyError «"extract"» \/
   exists gs, gs <> [] /\
     ExceptionGroup «"nu validator errors"» [ExceptionGroup «"Foo"» [Exception «"a"»; Exception «"b"»]]
       = ExceptionGroup «"nu validator errors"» gs /\
     Forall (fun g => exists m excs, excs <> [] /\ g = ExceptionGroup m excs) gs).
Proof.
  assert (H : raise_if_errors spec_example None =
    Raise (ExceptionGroup «"nu validator errors"»
             [ExceptionGroup «"Foo"» [Exception «"a"»; Exception «"b"»]])) by (vm_compute; reflexivity).
  split; [exact H|]. exact (raise_if_errors_raises _ _ _ H).
Defined.

Lemma raise_if_errors_missing_extract_witness :
  let x := {| msg_type := «"error"»; msg_message := «"Stray end tag"»; msg_extract := None;
              msg_subType := None |} in
  x ∈ messages no_extract_example /\ msg_type x = «"error"» /\
  keep_message None (msg_message x) = true /\ msg_extract x = None /\
  raise_if_errors no_extract_example None = Raise (KeyError «"extract"»).
Proof.
  intros x. assert (Hx : x ∈ messages no_extract_example) by (simpl; left).
  split; [exact Hx|]. split; [reflexivity|]. split; [reflexivity|]. split; [reflexivity|].
  exact (raise_if_errors_missing_extract no_extract_example None x Hx eq_refl eq_refl eq_refl).
Defined.

Lemma raise_if_errors_default_excludes_witness :
  (forall x, x ∈ messages role_table_example -> msg_type x = «"error"» ->
     exists pre, msg_message x = pre ++ EXCLUDE_LIT ++ «"."») /\
  raise_if_errors_default role_table_example = Ok tt.
Proof.
  assert (H : forall x, x ∈ messages role_table_example -> msg_type x = «"error"» ->
     exists pre, msg_message x = pre ++ EXCLUDE_LIT ++ «"."»).
  { intros x Hx _. apply list_elem_of_singleton in Hx as ->.
    eexists. reflexivity. }
  split; [exact H|]. exact (raise_if_errors_default_excludes role_table_example H).
Defined.

End Organize.
