(* ===== verification/FileSystem.v ===== *)
(** * The filesystem calls of the fixture

    [a_vnu_server_url] talks to the other workers only through the
    filesystem, with four calls: [Path.exists()], [Path.mkdir()] (no
    [parents], no [exist_ok]), [shutil.rmtree] and [Path.glob] of a prefix pattern
    on a directory.  [FileSystem] is the interface of these calls and
    [FileSystemLaws] what the fixture's proofs assume of them: the POSIX
    behaviour of [mkdir] (atomic: it fails with [FileExistsError] when the
    path exists, with [FileNotFoundError] when its parent does not) and of
    [rmtree] (it removes the path and everything below it).  The
    rendezvous theorems are proved against the laws; [gset_fs] is an
    executable instance, a set of paths, that discharges them and runs
    the concrete schedules. *)

From S2P Require Import Prelude.

Class FileSystem (F : Type) := {
  fs_exists : path -> F -> bool;
  fs_mkdir : path -> F -> pyres F;
  fs_rmtree : path -> F -> pyres F;
  (** the names [n] of the entries [d/n] with [pre] a prefix of [n]:
      [[q.name for q in d.glob(pre + "*")]] *)
  fs_glob : path -> pystr -> F -> list pystr;
}.

(** The directory that contains [p]; the root [[]] is its own parent. *)
Definition parent (p : path) : path := removelast p.

Class FileSystemLaws (F : Type) `{!FileSystem F} : Prop := {
  fs_exists_root fs : fs_exists [] fs = true;
  fs_mkdir_exists p fs :
    fs_exists p fs = true -> fs_mkdir p fs = Raise (FileExistsError p);
  fs_mkdir_noparent p fs :
    fs_exists p fs = false -> fs_exists (parent p) fs = false ->
    fs_mkdir p fs = Raise (FileNotFoundError p);
  fs_mkdir_ok p fs :
    fs_exists p fs = false -> fs_exists (parent p) fs = true ->
    exists fs', fs_mkdir p fs = Ok fs' /\
      forall q, fs_exists q fs' = bool_decide (q = p) || fs_exists q fs;
  fs_rmtree_missing p fs :
    fs_exists p fs = false -> fs_rmtree p fs = Raise (FileNotFoundError p);
  fs_rmtree_ok p fs :
    p <> [] -> fs_exists p fs = true ->
    exists fs', fs_rmtree p fs = Ok fs' /\
      forall q, fs_exists q fs' = fs_exists q fs && negb (bool_decide (p `prefix_of` q));
  fs_glob_spec d pre fs n :
    n ∈ fs_glob d pre fs <-> fs_exists (d ++ [n]) fs = true /\ pre `prefix_of` n;
}.

(** ** An executable filesystem: the set of existing directories *)

(** [q] is [d ++ [n]] with [pre] a prefix of [n]: its name [n]. *)
Definition glob_child (d : path) (pre : pystr) (q : path) : option pystr :=
  match reverse q with
  | n :: rd => if bool_decide (reverse rd = d /\ pre `prefix_of` n) then Some n else None
  | [] => None
  end.

#[export] Instance gset_fs : FileSystem (gset path) := {|
  fs_exists p fs := bool_decide (p = [] \/ p ∈ fs);
  fs_mkdir p fs :=
    if bool_decide (p = [] \/ p ∈ fs) then Raise (FileExistsError p)
    else if bool_decide (parent p = [] \/ parent p ∈ fs) then Ok ({[p]} ∪ fs)
    else Raise (FileNotFoundError p);
  fs_rmtree p fs :=
    if bool_decide (p = [] \/ p ∈ fs) then Ok (filter (fun q => ~ p `prefix_of` q) fs)
    else Raise (FileNotFoundError p);
  fs_glob d pre fs := omap (glob_child d pre) (elements fs);
|}.

(** ** Consequences of the laws *)

Section Laws.
Context `{FileSystemLaws F}.

Lemma fs_mkdir_Ok p fs fs' :
  fs_mkdir p fs = Ok fs' ->
  fs_exists p fs = false /\ fs_exists (parent p) fs = true /\
  forall q, fs_exists q fs' = bool_decide (q = p) || fs_exists q fs.
Proof.
  intros Hm. destruct (fs_exists p fs) eqn:Hp; [by rewrite fs_mkdir_exists in Hm|].
  destruct (fs_exists (parent p) fs) eqn:Hpp; [|by rewrite fs_mkdir_noparent in Hm].
  destruct (fs_mkdir_ok p fs Hp Hpp) as (fs'' & Hm' & Hq). rewrite Hm in Hm'.
  injection Hm' as <-. done.
Qed.

Lemma fs_rmtree_Ok p fs fs' :
  p <> [] -> fs_rmtree p fs = Ok fs' ->
  forall q, fs_exists q fs' = fs_exists q fs && negb (bool_decide (p `prefix_of` q)).
Proof.
  intros Hne Hr. destruct (fs_exists p fs) eqn:Hp; [|by rewrite fs_rmtree_missing in Hr].
  destruct (fs_rmtree_ok p fs Hne Hp) as (fs'' & Hr' & Hq). rewrite Hr in Hr'.
  by injection Hr' as <-.
Qed.

Lemma fs_mkdir_Raise p fs e :
  fs_mkdir p fs = Raise e -> fs_exists p fs = true \/ fs_exists (parent p) fs = false.
Proof.
  intros Hm. destruct (fs_exists p fs) eqn:Hp; [by left|].
  destruct (fs_exists (parent p) fs) eqn:Hpp; [|by right].
  destruct (fs_mkdir_ok p fs Hp Hpp) as (fs' & Hm' & _). congruence.
Qed.
End Laws.

Lemma glob_child_Some d pre q n :
  glob_child d pre q = Some n <-> q = d ++ [n] /\ pre `prefix_of` n.
Proof.
  unfold glob_child. destruct (reverse q) as [|n' rd] eqn:E.
  - apply (f_equal reverse) in E. rewrite reverse_involutive in E. subst q.
    split; [done|]. intros [Hq _]. by destruct d.
  - apply (f_equal reverse) in E. rewrite reverse_involutive, reverse_cons in E. subst q.
    case_bool_decide as Hb.
    + destruct Hb as [<- Hp]. split.
      * intros Heq. injection Heq as ->. done.
      * intros [Hq _]. apply app_inj_tail in Hq as [_ ->]. done.
    + split; [done|]. intros [Hq Hp]. apply app_inj_tail in Hq as [Hd Hn]. subst. naive_solver.
Qed.

#[export] Instance gset_fs_laws : FileSystemLaws (gset path).
Proof.
  split; simpl.
  - done.
  - intros p fs ->. done.
  - intros p fs -> ->. done.
  - intros p fs -> ->. eexists. split; [done|]. intros q.
    destruct (bool_decide_reflect (q = p)); simpl; subst.
    + apply bool_decide_eq_true_2. set_solver.
    + apply bool_decide_ext. set_solver.
  - intros p fs ->. done.
  - intros p fs Hne ->. eexists. split; [done|]. intros q.
    destruct (bool_decide_reflect (p `prefix_of` q)) as [Hpq|Hpq]; simpl.
    + rewrite andb_false_r. apply bool_decide_eq_false_2.
      rewrite elem_of_filter. intros [-> | [Hn _]]; [|done].
      apply Hne. by apply prefix_nil_inv.
    + rewrite andb_true_r. apply bool_decide_ext. rewrite elem_of_filter. naive_solver.
  - intros d pre fs n. rewrite list_elem_of_omap. setoid_rewrite glob_child_Some.
    rewrite bool_decide_eq_true. split.
    + intros (q & Hq & -> & Hp). rewrite elem_of_elements in Hq. naive_solver.
    + intros [[Hn | Hin] Hp]; [by destruct d|]. exists (d ++ [n]).
      rewrite elem_of_elements. done.
Qed.
