(* ===== verification/Rendezvous.v ===== *)
(** * The session fixture [a_vnu_server_url]

    [pytest_plugin.py], lines 49-112.  Every pytest-xdist worker runs this
    generator fixture once.  A worker's run is a program counter
    ([phase]) and the fixture's local variables ([worker]); [step_worker]
    performs the next atomic action of one worker: one filesystem call,
    one start or termination of the vnu server, or a move between program
    points.  A session ([session]) holds the shared filesystem, the set of
    running servers, the environment and the workers; [sys_step i] runs
    one step of worker [i], and a schedule (a list of worker indices) is
    one interleaving of the workers.  Every interleaving is allowed: time
    and [time.sleep] are not modelled, a sleep is a step that changes no
    state.

    [_start_vnu_server] (port allocation, [Popen], the readiness loop) is
    one step here: its outcome for each worker is fixed in the worker's
    [w_start] (the port it returns, or the exception it raises), since
    only its result reaches the shared state.  [Vnu.v] models its body and
    [Session.v] ties [w_start] to it. *)

From S2P Require Import Prelude PyStr FileSystem.

Module Rendezvous.

(** ** Data *)

(** [worker_id]: ["master"] without xdist, ["gw<n>"] in a worker. *)
Inductive worker_id := Master | Gw (n : nat).

#[export] Instance worker_id_eq_dec : EqDecision worker_id.
Proof. solve_decision. Defined.

(** The program points of the fixture, with the lines they stand for. *)
Inductive phase :=
| Start                       (* line 54: read NBA11Y_VNU_SERVER_URL *)
| MasterStart                 (* line 68 *)
| MkLock                      (* lines 74-78: try lock_dir.mkdir() *)
| MkNeeds                     (* line 80: needs_lock.mkdir() *)
| StartServer                 (* line 83 *)
| Publish                     (* line 84: (lock_dir / f"port-{port}").mkdir() *)
| Poll (retries : nat)        (* lines 86-92: while retries *)
| CheckPort                   (* lines 93-94 *)
| InUse                       (* line 96: yield url; the worker's tests run *)
| RmNeedsCheck                (* line 98 *)
| RmNeeds                     (* line 99 *)
| OwnCheck                    (* line 101 *)
| WaitTokens                  (* lines 102-107 *)
| Terminate                   (* line 110 *)
| RmLockCheck                 (* line 111 *)
| RmLock                      (* line 112 *)
| Done                        (* the generator is exhausted *)
| NoYield                     (* line 57: [return url] ends the generator unyielded *)
| Failed (e : pyexc).         (* an exception escaped the fixture *)

(** The fixture's locals for one worker. *)
Record worker := {
  w_id : worker_id;
  w_uuid : pystr;             (* uuid.uuid4() of line 65 *)
  w_start : pyres Z;          (* what _start_vnu_server returns (its port) or raises *)
  w_pc : phase;
  w_owns_lock : bool;
  w_port : option Z;
  w_url : option pystr;
  w_proc : option Z;          (* the Popen of the server it started, by port *)
}.

Definition set_pc (pc : phase) (w : worker) : worker :=
  {| w_id := w_id w; w_uuid := w_uuid w; w_start := w_start w; w_pc := pc;
     w_owns_lock := w_owns_lock w; w_port := w_port w; w_url := w_url w; w_proc := w_proc w |}.

Definition set_owns (b : bool) (w : worker) : worker :=
  {| w_id := w_id w; w_uuid := w_uuid w; w_start := w_start w; w_pc := w_pc w;
     w_owns_lock := b; w_port := w_port w; w_url := w_url w; w_proc := w_proc w |}.

Definition set_port_url (p : option Z) (u : option pystr) (w : worker) : worker :=
  {| w_id := w_id w; w_uuid := w_uuid w; w_start := w_start w; w_pc := w_pc w;
     w_owns_lock := w_owns_lock w; w_port := p; w_url := u; w_proc := w_proc w |}.

Definition set_proc (p : option Z) (w : worker) : worker :=
  {| w_id := w_id w; w_uuid := w_uuid w; w_start := w_start w; w_pc := w_pc w;
     w_owns_lock := w_owns_lock w; w_port := w_port w; w_url := w_url w; w_proc := p |}.

(** The shared state of a session. *)
Record session {F : Type} := {
  s_fs : F;
  s_running : gset Z;         (* ports with a live vnu server *)
  s_env_url : option pystr;   (* os.environ.get(ENV_VNU_SERVER_URL) *)
  s_workers : list worker;
}.
Arguments session : clear implicits.

(** ** Paths and names *)

(** [tmp_path_factory.getbasetemp().parent / "vnu_server"], relative to
    the base directory shared by the workers. *)
Definition lock_dir : path := [«"vnu_server"»].

(** [lock_dir / f"test-{uuid.uuid4()}"] *)
Definition needs_lock (w : worker) : path := lock_dir ++ [«"test-"» ++ w_uuid w].

(** [f"port-{port}"] *)
Definition port_name (p : Z) : pystr := «"port-"» ++ str_of_Z p.

(** [f"{proto}://{host}:{port}"] with [proto = "http"], [host = "127.0.0.1"]. *)
Definition vnu_url (p : Z) : pystr := «"http://127.0.0.1:"» ++ str_of_Z p.

(** [int(name.split("-")[-1])] *)
Definition parse_port (name : pystr) : pyres Z := py_int (split_last 45 name).

(** ** One step of one worker *)

Section Step.
Context `{FileSystem F}.

Definition step_worker (env : option pystr) (fs : F) (run : gset Z) (w : worker)
    : F * gset Z * worker :=
  match w_pc w with
  | Start =>
      match env with
      | Some u => (fs, run, set_pc NoYield (set_port_url None (Some u) w))
      | None => (fs, run, set_pc (if bool_decide (w_id w = Master) then MasterStart else MkLock) w)
      end
  | MasterStart =>
      match w_start w with
      | Ok p =>
          (fs, {[p]} ∪ run, set_pc InUse (set_owns true (set_proc (Some p)
                              (set_port_url (Some p) (Some (vnu_url p)) w))))
      | Raise e => (fs, run, set_pc (Failed e) w)
      end
  | MkLock =>
      match fs_mkdir lock_dir fs with
      | Ok fs' => (fs', run, set_pc MkNeeds (set_owns true w))
      | Raise _ => (fs, run, set_pc MkNeeds w)
      end
  | MkNeeds =>
      match fs_mkdir (needs_lock w) fs with
      | Ok fs' => (fs', run, set_pc (if w_owns_lock w then StartServer else Poll 10) w)
      | Raise e => (fs, run, set_pc (Failed e) w)
      end
  | StartServer =>
      match w_start w with
      | Ok p =>
          (fs, {[p]} ∪ run, set_pc Publish (set_proc (Some p)
                              (set_port_url (Some p) (Some (vnu_url p)) w)))
      | Raise e => (fs, run, set_pc (Failed e) w)
      end
  | Publish =>
      match w_port w with
      | Some p =>
          match fs_mkdir (lock_dir ++ [port_name p]) fs with
          | Ok fs' => (fs', run, set_pc InUse w)
          | Raise e => (fs, run, set_pc (Failed e) w)
          end
      | None => (fs, run, set_pc (Failed (TypeError «"port is None"»)) w)
      end
  | Poll 0 => (fs, run, set_pc CheckPort w)
  | Poll (S r) =>
      match fs_glob lock_dir «"port-"» fs with
      | n :: _ =>
          match parse_port n with
          | Ok p => (fs, run, set_pc (Poll r) (set_port_url (Some p) (Some (vnu_url p)) w))
          | Raise _ => (fs, run, set_pc (Poll r) w)
          end
      | [] => (fs, run, set_pc (Poll r) w)
      end
  | CheckPort =>
      match w_port w with
      | None => (fs, run, set_pc (Failed (RuntimeError «"Never started vnu server"»)) w)
      | Some _ => (fs, run, set_pc InUse w)
      end
  | InUse => (fs, run, set_pc RmNeedsCheck w)
  | RmNeedsCheck =>
      (fs, run, set_pc (if fs_exists (needs_lock w) fs then RmNeeds else OwnCheck) w)
  | RmNeeds =>
      match fs_rmtree (needs_lock w) fs with
      | Ok fs' => (fs', run, set_pc OwnCheck w)
      | Raise e => (fs, run, set_pc (Failed e) w)
      end
  | OwnCheck => (fs, run, set_pc (if w_owns_lock w then WaitTokens else Done) w)
  | WaitTokens =>
      match fs_glob lock_dir «"test-"» fs with
      | [] => (fs, run, set_pc Terminate w)
      | _ :: _ => (fs, run, set_pc WaitTokens w)
      end
  | Terminate =>
      match w_proc w with
      | Some p => (fs, run ∖ {[p]}, set_pc RmLockCheck w)
      | None => (fs, run, set_pc (Failed (AttributeError «"terminate"»)) w)
      end
  | RmLockCheck =>
      (fs, run, set_pc (if fs_exists lock_dir fs then RmLock else Done) w)
  | RmLock =>
      match fs_rmtree lock_dir fs with
      | Ok fs' => (fs', run, set_pc Done w)
      | Raise e => (fs, run, set_pc (Failed e) w)
      end
  | Done | NoYield | Failed _ => (fs, run, w)
  end.

(** One step of worker [i] of the session; no change when there is no
    worker [i]. *)
Definition sys_step (i : nat) (s : session F) : session F :=
  match s_workers s !! i with
  | Some w =>
      let '(fs', run', w') := step_worker (s_env_url s) (s_fs s) (s_running s) w in
      {| s_fs := fs'; s_running := run'; s_env_url := s_env_url s;
         s_workers := <[i:=w']> (s_workers s) |}
  | None => s
  end.

Definition run_schedule (sched : list nat) (s : session F) : session F :=
  fold_left (fun s i => sys_step i s) sched s.

(** The states a session reaches from [s0] by any interleaving. *)
Inductive reachable (s0 : session F) : session F -> Prop :=
| reach_init : reachable s0 s0
| reach_step s i : reachable s0 s -> reachable s0 (sys_step i s).

(** A worker before it runs the fixture. *)
Definition fresh_worker (id : worker_id) (uuid : pystr) (start : pyres Z) : worker :=
  {| w_id := id; w_uuid := uuid; w_start := start; w_pc := Start; w_owns_lock := false;
     w_port := None; w_url := None; w_proc := None |}.

(** A session before any worker ran: [lock_dir] and its entries do not
    exist, no server runs. *)
Definition initial_session (fs : F) (env : option pystr)
    (cfg : list (worker_id * pystr * pyres Z)) : session F :=
  {| s_fs := fs; s_running := ∅; s_env_url := env;
     s_workers := map (fun '(id, u, st) => fresh_worker id u st) cfg |}.

Definition fresh_base (fs : F) : Prop :=
  fs_exists lock_dir fs = false /\ forall n, fs_exists (lock_dir ++ [n]) fs = false.

(** The configuration of an xdist session: no ["master"], and every
    port [_start_vnu_server] returns is a TCP port number. *)
Definition xdist_config (cfg : list (worker_id * pystr * pyres Z)) : Prop :=
  Forall (fun '(id, _, st) => id <> Master /\ forall p, st = Ok p -> (0 <= p)%Z) cfg.

(** [n] steps of one worker while the others do not run. *)
Fixpoint iter_worker (n : nat) (env : option pystr) (fs : F) (run : gset Z) (w : worker)
    : F * gset Z * worker :=
  match n with
  | O => (fs, run, w)
  | S n => let '(fs', run', w') := step_worker env fs run w in iter_worker n env fs' run' w'
  end.
End Step.

(** Two xdist workers whose [_start_vnu_server] would pick ports 8888 and
    9999, and a schedule in which [gw1] registers after the owner [gw0]
    saw no [test-*] entry: [gw0] runs ten steps up to its teardown
    check, [gw1] runs fifteen, then [gw0] terminates its server. *)
Definition race_cfg : list (worker_id * pystr * pyres Z) :=
  [(Gw 0, «"aaaa"», Ok 8888%Z); (Gw 1, «"bbbb"», Ok 9999%Z)].

Definition race_schedule : list nat := replicate 10 0 ++ replicate 15 1 ++ [0].

Definition race_session : session (gset path) := initial_session ∅ None race_cfg.

(** Concrete workers and directories for the theorems' instances. *)
Definition waiting_owner : worker := set_pc WaitTokens (fresh_worker (Gw 0) «"aaaa"» (Ok 8888%Z)).

Definition polling_follower : worker := set_pc (Poll 10) (fresh_worker (Gw 1) «"bbbb"» (Ok 9999%Z)).

Definition published_fs : gset path := {[lock_dir; lock_dir ++ [port_name 8888%Z]]}.

Definition override_session : session (gset path) :=
  initial_session ∅ (Some «"http://127.0.0.1:8888"») race_cfg.

(** ** Lock holders *)

Definition is_done (pc : phase) : bool := match pc with Done => true | _ => false end.

(** The lock holder: an xdist worker that created [lock_dir] and has not
    finished its teardown. *)
Definition holds_lock (w : worker) : bool :=
  bool_decide (w_id w <> Master) && w_owns_lock w && negb (is_done (w_pc w)).

Definition lock_holders (ws : list worker) : nat :=
  length (filter (fun w => holds_lock w = true) ws).

(** Program points before the [mkdir] of [lock_dir], and those reached
    only by the owner. *)
Definition pre_lock (pc : phase) : bool :=
  match pc with Start | MasterStart | MkLock | NoYield => true | _ => false end.

Definition follower (pc : phase) : bool :=
  match pc with Poll _ | CheckPort => true | _ => false end.

(** Program points at which the owner's server has been started and
    not yet terminated: from [Publish] to [Terminate], and a failure
    there, which leaves the server running. *)
Definition serving (pc : phase) : bool :=
  match pc with
  | Publish | InUse | RmNeedsCheck | RmNeeds | OwnCheck | WaitTokens | Terminate | Failed _ => true
  | _ => false
  end.

Definition post_own (pc : phase) : bool :=
  match pc with StartServer | Publish | WaitTokens | Terminate | RmLockCheck | RmLock => true
  | _ => false end.

(** What every worker of an xdist session satisfies at every step. *)
Definition worker_ok (w : worker) : Prop :=
  w_id w <> Master /\ w_pc w <> MasterStart /\
  (pre_lock (w_pc w) = true -> w_owns_lock w = false) /\
  (follower (w_pc w) = true -> w_owns_lock w = false) /\
  (post_own (w_pc w) = true -> w_owns_lock w = true) /\
  (w_pc w = Publish -> w_proc w <> None) /\
  (forall p, w_proc w = Some p -> w_start w = Ok p /\ w_owns_lock w = true /\ w_port w = Some p) /\
  (forall p, w_start w = Ok p -> (0 <= p)%Z).

(** The entries of [lock_dir] exist only inside [lock_dir]. *)
Definition entries_in_lock `{FileSystem F} (fs : F) : Prop :=
  forall n, fs_exists (lock_dir ++ [n]) fs = true -> fs_exists lock_dir fs = true.

(** A [port-*] entry names the port of the lock holder's server. *)
Definition port_entries `{FileSystem F} (ws : list worker) (fs : F) : Prop :=
  forall n, fs_exists (lock_dir ++ [n]) fs = true -> «"port-"» `prefix_of` n ->
    exists i h p, ws !! i = Some h /\ holds_lock h = true /\ w_proc h = Some p /\
      n = port_name p.

(** Every port a worker has read or chosen is the port of a server that
    some worker started. *)
Definition ports_started (ws : list worker) : Prop :=
  forall i w p, ws !! i = Some w -> w_port w = Some p ->
    exists j h, ws !! j = Some h /\ w_proc h = Some p.

(** The invariant of an xdist session: well-formed workers, and one lock
    holder exactly when [lock_dir] exists. *)
Definition session_inv `{FileSystem F} (s : session F) : Prop :=
  Forall worker_ok (s_workers s) /\
  lock_holders (s_workers s) = Nat.b2n (fs_exists lock_dir (s_fs s)).

(** Every running server is the one the lock holder started and has
    not terminated. *)
Definition servers_owned (ws : list worker) (run : gset Z) : Prop :=
  forall p, p ∈ run -> exists i h, ws !! i = Some h /\ holds_lock h = true /\
    w_proc h = Some p /\ serving (w_pc h) = true.

(** The publication invariant: [session_inv], the shape of [lock_dir],
    and the provenance of every port. *)
Definition pub_inv `{FileSystem F} (s : session F) : Prop :=
  session_inv s /\ entries_in_lock (s_fs s) /\ port_entries (s_workers s) (s_fs s) /\
  ports_started (s_workers s).

(** ** Proof automation *)

(** Run [step_worker] symbolically in hypothesis [H]: split every
    [match] and [if] of the step, then substitute the result. *)
Ltac step_cases H :=
  unfold step_worker in H;
  repeat match type of H with
    | context [match ?x with _ => _ end] => let E := fresh "E" in destruct x eqn:E
    end;
  simplify_eq.

(** ** Well-formed workers *)

Section WorkerOk.
Context `{FileSystemLaws F}.

(** Every step keeps a worker well formed. *)
Lemma step_worker_ok env (fs : F) run w fs' run' w' :
  worker_ok w -> step_worker env fs run w = (fs', run', w') -> worker_ok w'.
Proof.
  intros Hok Hs. destruct Hok as (Hid & Hms & Hpre & Hfol & Hpost & Hpub & Hproc & Hnn).
  assert (Hpr : w_proc w = None \/ exists p, w_proc w = Some p /\ w_start w = Ok p /\
                  w_owns_lock w = true /\ w_port w = Some p)
    by (destruct (w_proc w) eqn:?; [right; eauto | by left]).
  clear Hproc. destruct Hpr as [Hpr | (p0 & Hpr & Hst & How & Hpo)];
    step_cases Hs; unfold worker_ok; simpl in *; rewrite ?E in *;
    repeat split; intros; simplify_eq; try done;
    try (by apply Hpre); try (by apply Hfol); try (by apply Hpost);
    try (apply Hnn; congruence);
    try (assert (w_owns_lock w = false) by (first [by apply Hpre | by apply Hfol]); congruence).
  all: match goal with Hb : bool_decide _ = true |- _ => apply bool_decide_eq_true in Hb end;
    congruence.
Qed.

End WorkerOk.

(** ** The effect of a step on [lock_dir] *)

Section LockDir.
Context `{FileSystemLaws F}.

Lemma lock_dir_not_child n : lock_dir <> lock_dir ++ [n].
Proof. intros Heq. apply (f_equal length) in Heq. rewrite length_app in Heq. simpl in Heq. lia. Qed.

Lemma lock_dir_not_below_child n : ~ (lock_dir ++ [n]) `prefix_of` lock_dir.
Proof. intros Hp%prefix_length. rewrite length_app in Hp. simpl in Hp. lia. Qed.

Lemma mkdir_child_lock n (fs fs' : F) :
  fs_mkdir (lock_dir ++ [n]) fs = Ok fs' -> fs_exists lock_dir fs' = fs_exists lock_dir fs.
Proof.
  intros (_ & _ & Hq)%fs_mkdir_Ok. rewrite Hq, bool_decide_eq_false_2; [done|].
  apply lock_dir_not_child.
Qed.

Lemma rmtree_child_lock n (fs fs' : F) :
  fs_rmtree (lock_dir ++ [n]) fs = Ok fs' -> fs_exists lock_dir fs' = fs_exists lock_dir fs.
Proof.
  intros Hr. apply fs_rmtree_Ok with (q := lock_dir) in Hr; [|by destruct lock_dir].
  rewrite Hr, bool_decide_eq_false_2 by apply lock_dir_not_below_child. apply andb_true_r.
Qed.

Lemma mkdir_lock (fs fs' : F) :
  fs_mkdir lock_dir fs = Ok fs' -> fs_exists lock_dir fs = false /\ fs_exists lock_dir fs' = true.
Proof. intros (Hn & _ & Hq)%fs_mkdir_Ok. rewrite Hq, bool_decide_eq_true_2; done. Qed.

Lemma rmtree_lock (fs fs' : F) :
  fs_rmtree lock_dir fs = Ok fs' -> fs_exists lock_dir fs' = false.
Proof.
  intros Hr. apply fs_rmtree_Ok with (q := lock_dir) in Hr; [|done].
  rewrite Hr, bool_decide_eq_true_2 by done. apply andb_false_r.
Qed.

(** One step changes the existence of [lock_dir] exactly as it changes
    whether the stepping worker holds the lock. *)
Lemma step_lock_balance env (fs : F) run w fs' run' w' :
  worker_ok w -> (holds_lock w = true -> fs_exists lock_dir fs = true) ->
  step_worker env fs run w = (fs', run', w') ->
  Nat.b2n (fs_exists lock_dir fs') + Nat.b2n (holds_lock w)
  = Nat.b2n (fs_exists lock_dir fs) + Nat.b2n (holds_lock w').
Proof.
  intros Hok Hh Hs. destruct Hok as (Hid & Hms & Hpre & Hfol & Hpost & _).
  unfold holds_lock in *. rewrite (bool_decide_eq_true_2 _ Hid) in *.
  step_cases Hs; unfold needs_lock in *;
    repeat match goal with
      | Hm : fs_mkdir lock_dir _ = Ok _ |- _ => apply mkdir_lock in Hm as [-> ->]
      | Hm : fs_mkdir (lock_dir ++ _) _ = Ok _ |- _ => rewrite (mkdir_child_lock _ _ _ Hm); clear Hm
      | Hm : fs_rmtree (lock_dir ++ _) _ = Ok _ |- _ => rewrite (rmtree_child_lock _ _ _ Hm); clear Hm
      | Hm : fs_rmtree lock_dir _ = Ok _ |- _ => rewrite (rmtree_lock _ _ Hm); clear Hm
      end; simpl in *; rewrite ?E in *;
    try rewrite (bool_decide_eq_true_2 _ Hid); try done;
    destruct (w_owns_lock w); simpl in *; try done;
    try (by discriminate Hpre); try (by discriminate Hpost);
    rewrite ?Hh in * by done; simpl; try lia.
  all: match goal with He : fs_exists lock_dir _ = true |- _ => by rewrite He end.
Qed.
End LockDir.

Lemma reachable_run_schedule `{FileSystem F} (s0 : session F) sched :
  reachable s0 (run_schedule sched s0).
Proof.
  enough (Hgen : forall s, reachable s0 s -> reachable s0 (run_schedule sched s))
    by (apply Hgen; constructor).
  unfold run_schedule. induction sched as [|i sched IH]; intros s Hr; [done|].
  simpl. apply IH. by constructor.
Qed.

(** The concrete session of two workers starts from a fresh base. *)
Lemma fresh_base_empty : fresh_base (∅ : gset path).
Proof. split; [reflexivity|]. intros n. apply bool_decide_eq_false_2. set_solver. Qed.

Lemma xdist_race_cfg : xdist_config race_cfg.
Proof. repeat constructor; try discriminate; intros p Hp; injection Hp as <-; lia. Qed.

(** ** Mutual exclusion *)

Section Mutex.
Context `{FileSystemLaws F}.

Lemma holders_count_singleton w :
  length (filter (fun w => holds_lock w = true) [w]) = Nat.b2n (holds_lock w).
Proof. rewrite length_filter_singleton. by destruct (holds_lock w). Qed.

Lemma session_inv_init (fs : F) env cfg :
  fresh_base fs -> xdist_config cfg -> session_inv (initial_session fs env cfg).
Proof.
  intros [Hlock _] Hcfg. split; simpl.
  - apply Forall_forall. intros w (c & -> & Hc)%list_elem_of_fmap.
    destruct c as [[id u] st]. unfold xdist_config in Hcfg. rewrite Forall_forall in Hcfg. apply Hcfg in Hc as [Hid Hnn].
    repeat split; simpl; done.
  - rewrite Hlock. unfold lock_holders. simpl.
    rewrite filter_nil_forall; [done|]. intros w (c & -> & _)%list_elem_of_fmap.
    destruct c as [[id u] st]. unfold holds_lock. simpl. by rewrite andb_false_r.
Qed.

Lemma session_inv_step (s : session F) i : session_inv s -> session_inv (sys_step i s).
Proof.
  intros [Hok Hcount]. unfold sys_step.
  destruct (s_workers s !! i) as [w|] eqn:Hi; [|done].
  destruct (step_worker (s_env_url s) (s_fs s) (s_running s) w) as [[fs' run'] w'] eqn:Hs.
  pose proof (proj1 (Forall_lookup _ _) Hok i w Hi) as Hw. split; simpl.
  - apply Forall_insert; [done|]. by eapply step_worker_ok.
  - pose proof (length_filter_insert (fun w => holds_lock w = true) _ i w w' Hi) as Hins.
    rewrite !holders_count_singleton in Hins.
    assert (Hh : holds_lock w = true -> fs_exists lock_dir (s_fs s) = true).
    { intros Hhw. pose proof (length_filter_lookup (fun w => holds_lock w = true) _ i w Hi Hhw).
      unfold lock_holders in Hcount. destruct (fs_exists lock_dir (s_fs s)); simpl in *; lia. }
    pose proof (step_lock_balance _ _ _ _ _ _ _ Hw Hh Hs) as Hbal.
    unfold lock_holders in *. lia.
Qed.

Lemma reachable_inv (s0 s : session F) : session_inv s0 -> reachable s0 s -> session_inv s.
Proof. intros H0 Hr. induction Hr; [done|]. by apply session_inv_step. Qed.

(** C1: mutual exclusion.  In every state that a session of xdist
    workers reaches, whatever the interleaving, exactly one worker holds
    the lock while [lock_dir] exists and none otherwise. *)
Theorem lock_mutual_exclusion (fs : F) env cfg s :
  fresh_base fs -> xdist_config cfg -> reachable (initial_session fs env cfg) s ->
  lock_holders (s_workers s) = (if fs_exists lock_dir (s_fs s) then 1 else 0)%nat.
Proof.
  intros Hf Hc Hr. apply reachable_inv in Hr as [_ Hcount]; [|by apply session_inv_init].
  rewrite Hcount. by destruct (fs_exists lock_dir (s_fs s)).
Qed.

(** At most one worker holds the lock: two holders are the same
    worker. *)
Theorem lock_holder_unique (fs : F) env cfg s i j wi wj :
  fresh_base fs -> xdist_config cfg -> reachable (initial_session fs env cfg) s ->
  s_workers s !! i = Some wi -> s_workers s !! j = Some wj ->
  holds_lock wi = true -> holds_lock wj = true -> i = j.
Proof.
  intros Hf Hc Hr Hi Hj Hhi Hhj. apply reachable_inv in Hr as [_ Hcount]; [|by apply session_inv_init].
  apply (filter_length_le1_unique (fun w => holds_lock w = true) (s_workers s) i j wi wj);
    [|done..].
  unfold lock_holders in Hcount. rewrite Hcount. destruct (fs_exists _ _); simpl; lia.
Qed.
End Mutex.

Lemma lock_mutual_exclusion_witness :
  fresh_base (∅ : gset path) /\ xdist_config race_cfg /\
  lock_holders (s_workers (run_schedule race_schedule race_session)) =
    (if fs_exists lock_dir (s_fs (run_schedule race_schedule race_session)) then 1 else 0)%nat.
Proof.
  split_and!; [apply fresh_base_empty | apply xdist_race_cfg |].
  exact (lock_mutual_exclusion ∅ None race_cfg _ fresh_base_empty xdist_race_cfg
           (reachable_run_schedule race_session race_schedule)).
Defined.

Lemma lock_holder_unique_witness :
  exists w, s_workers (run_schedule [0; 0] race_session) !! 0 = Some w /\
    holds_lock w = true /\ 0 = 0.
Proof.
  destruct (s_workers (run_schedule [0; 0] race_session) !! 0) as [w|] eqn:E;
    pose proof E as E'; vm_compute in E'; [|discriminate E'].
  assert (Hh : holds_lock w = true) by (injection E' as <-; reflexivity).
  exists w. split_and!; [done | done |].
  exact (lock_holder_unique ∅ None race_cfg _ 0 0 w w fresh_base_empty xdist_race_cfg
           (reachable_run_schedule _ _) E E Hh Hh).
Defined.

(** ** Publication of the port *)

(** [int(f"port-{p}".split("-")[-1]) == p] for every port [p >= 0]. *)
Lemma parse_port_name p : (0 <= p)%Z -> parse_port (port_name p) = Ok p.
Proof.
  intros Hp. unfold parse_port, port_name.
  replace («"port-"» ++ str_of_Z p) with («"port"» ++ 45%Z :: str_of_Z p) by reflexivity.
  rewrite split_last_app_sep; [apply py_int_str_of_Z|].
  unfold str_of_Z. destruct (Z.ltb_spec p 0); [lia|]. apply digits_of_N_no_dash.
Qed.

(** C13: the port round trip of the rendezvous: the follower's
    [int(name.split("-")[-1])] gives back the [p] of the owner's
    [f"port-{p}"] exactly when [p >= 0]; for a negative [p] it reads
    [-p]. *)
Theorem port_name_roundtrip p : parse_port (port_name p) = Ok p <-> (0 <= p)%Z.
Proof.
  split; [|apply parse_port_name]. intros Hp. destruct (Z.ltb_spec p 0) as [Hn|]; [|done].
  exfalso. unfold parse_port, port_name, str_of_Z in Hp. rewrite (proj2 (Z.ltb_lt _ _) Hn) in Hp.
  rewrite split_last_app_sep in Hp by apply digits_of_N_no_dash.
  pose proof (py_int_str_of_Z (- p)) as Hq. unfold str_of_Z in Hq.
  rewrite (proj2 (Z.ltb_ge _ _)) in Hq by lia. rewrite Hq in Hp. injection Hp. lia.
Qed.

Lemma port_prefix_not_test u : ~ «"port-"» `prefix_of` «"test-"» ++ u.
Proof. intros [k Hk]. discriminate Hk. Qed.

Section Publication.
Context `{FileSystemLaws F}.

Lemma step_proc_mono env (fs : F) run w fs' run' w' p :
  worker_ok w -> step_worker env fs run w = (fs', run', w') ->
  w_proc w = Some p -> w_proc w' = Some p.
Proof.
  intros Hok Hs Hp. destruct Hok as (_ & _ & _ & _ & _ & _ & Hproc & _).
  destruct (Hproc p Hp) as (Hst & _). step_cases Hs; simpl; congruence.
Qed.

(** The filesystem changes of one step. *)
Lemma step_fs_cases env (fs : F) run w fs' run' w' :
  step_worker env fs run w = (fs', run', w') ->
  fs' = fs \/
  (w_pc w = MkLock /\ fs_mkdir lock_dir fs = Ok fs' /\ w_pc w' = MkNeeds /\ w_owns_lock w' = true) \/
  (exists u, fs_mkdir (lock_dir ++ [«"test-"» ++ u]) fs = Ok fs') \/
  (exists p, w_pc w = Publish /\ w_port w = Some p /\
     fs_mkdir (lock_dir ++ [port_name p]) fs = Ok fs' /\ w' = set_pc InUse w) \/
  (exists u, fs_rmtree (lock_dir ++ [u]) fs = Ok fs') \/
  (w_pc w = RmLock /\ fs_rmtree lock_dir fs = Ok fs').
Proof.
  intros Hs. step_cases Hs; try (left; done); unfold needs_lock in *; naive_solver.
Qed.

(** A lock holder stops holding only by removing [lock_dir], or when
    [lock_dir] does not exist. *)
Lemma step_holds env (fs : F) run w fs' run' w' :
  worker_ok w -> step_worker env fs run w = (fs', run', w') -> holds_lock w = true ->
  holds_lock w' = true \/ (w_pc w = RmLock /\ fs_rmtree lock_dir fs = Ok fs') \/
  (w_pc w = RmLockCheck /\ fs_exists lock_dir fs = false).
Proof.
  intros Hok Hs Hh. destruct Hok as (Hid & _ & Hpre & Hfol & Hpost & _).
  unfold holds_lock in *. rewrite (bool_decide_eq_true_2 _ Hid) in Hh.
  step_cases Hs; simpl in *; rewrite ?E, ?(bool_decide_eq_true_2 _ Hid) in *; try (left; done);
    try (right; by eauto); rewrite ?andb_false_r in Hh; try done.
  all: left; match goal with He : w_owns_lock _ = true |- _ => by rewrite He end.
Qed.

(** A new entry of [lock_dir] is a [test-*] token or the published
    port. *)
Lemma step_new_entry env (fs : F) run w fs' run' w' n :
  step_worker env fs run w = (fs', run', w') ->
  fs_exists (lock_dir ++ [n]) fs' = true ->
  fs_exists (lock_dir ++ [n]) fs = true \/ (exists u, n = «"test-"» ++ u) \/
  (exists p, w_pc w = Publish /\ w_port w = Some p /\ n = port_name p /\ w' = set_pc InUse w).
Proof.
  intros Hs Hn.
  destruct (step_fs_cases _ _ _ _ _ _ _ Hs) as
    [-> | [(_ & Hm & _) | [[u Hm] | [(p & Hpc & Hp & Hm & ->) | [[u Hr] | (_ & Hr)]]]]].
  - by left.
  - apply fs_mkdir_Ok in Hm as (_ & _ & Hq). rewrite Hq, bool_decide_eq_false_2 in Hn;
      [by left | apply not_eq_sym, lock_dir_not_child].
  - apply fs_mkdir_Ok in Hm as (_ & _ & Hq). rewrite Hq in Hn.
    destruct (bool_decide_reflect (lock_dir ++ [n] = lock_dir ++ [«"test-"» ++ u])) as [Heq|];
      [|by left]. apply app_inj_tail in Heq as [_ ->]. right; left. by exists u.
  - apply fs_mkdir_Ok in Hm as (_ & _ & Hq). rewrite Hq in Hn.
    destruct (bool_decide_reflect (lock_dir ++ [n] = lock_dir ++ [port_name p])) as [Heq|];
      [|by left]. apply app_inj_tail in Heq as [_ ->]. right; right. by exists p.
  - rewrite (fs_rmtree_Ok (lock_dir ++ [u]) fs fs' ltac:(by destruct lock_dir) Hr) in Hn.
    apply andb_prop in Hn as [? _]. by left.
  - rewrite (fs_rmtree_Ok lock_dir fs fs' ltac:(done) Hr) in Hn.
    apply andb_prop in Hn as [? _]. by left.
Qed.

(** How a step changes the port a worker knows. *)
Lemma step_port_cases env (fs : F) run w fs' run' w' p :
  step_worker env fs run w = (fs', run', w') -> w_port w' = Some p ->
  w_port w = Some p \/ w_proc w' = Some p \/
  (exists n l, fs_glob lock_dir «"port-"» fs = n :: l /\ parse_port n = Ok p).
Proof. intros Hs Hp. step_cases Hs; simpl in *; simplify_eq; eauto 10. Qed.
Lemma entries_in_lock_step env (fs : F) run w fs' run' w' :
  entries_in_lock fs -> step_worker env fs run w = (fs', run', w') -> entries_in_lock fs'.
Proof.
  intros Ht Hs n Hn.
  assert (Hpar : forall m (fs0 fs1 : F), fs_mkdir (lock_dir ++ [m]) fs0 = Ok fs1 ->
            fs_exists lock_dir fs1 = true).
  { intros m fs0 fs1 Hm. rewrite (mkdir_child_lock _ _ _ Hm).
    apply fs_mkdir_Ok in Hm as (_ & Hp & _). rewrite <- Hp. unfold parent. by rewrite removelast_last. }
  destruct (step_fs_cases _ _ _ _ _ _ _ Hs) as
    [-> | [(_ & Hm & _) | [[u Hm] | [(p & _ & _ & Hm & _) | [[u Hr] | (_ & Hr)]]]]].
  - by eapply Ht.
  - apply fs_mkdir_Ok in Hm as (_ & _ & Hq). rewrite Hq. by rewrite bool_decide_eq_true_2.
  - by eapply Hpar.
  - by eapply Hpar.
  - rewrite (rmtree_child_lock _ _ _ Hr). apply (Ht n).
    rewrite (fs_rmtree_Ok (lock_dir ++ [u]) fs fs' ltac:(by destruct lock_dir) Hr) in Hn.
    by apply andb_prop in Hn as [? _].
  - rewrite (fs_rmtree_Ok lock_dir fs fs' ltac:(done) Hr) in Hn.
    rewrite bool_decide_eq_true_2 in Hn; [by rewrite andb_false_r in Hn|]. by eexists.
Qed.

Section StepOf.
Context (env : option pystr) (fs : F) (run : gset Z) (ws : list worker) (i : nat).
Context (w : worker) (fs' : F) (run' : gset Z) (w' : worker).
Hypothesis Hok : Forall worker_ok ws.
Hypothesis Hi : ws !! i = Some w.
Hypothesis Hs : step_worker env fs run w = (fs', run', w').

Lemma worker_ok_at j h : ws !! j = Some h -> worker_ok h.
Proof. intros Hj. exact (proj1 (Forall_lookup _ _) Hok j h Hj). Qed.

Lemma lookup_insert_self : <[i:=w']> ws !! i = Some w'.
Proof. apply list_lookup_insert_Some. left. split_and!; [done..|by eapply lookup_lt_Some]. Qed.

(** A started server stays recorded at its index. *)
Lemma proc_persists j h p :
  ws !! j = Some h -> w_proc h = Some p ->
  exists h', <[i:=w']> ws !! j = Some h' /\ w_proc h' = Some p.
Proof.
  intros Hj Hp. destruct (decide (j = i)) as [->|Hne].
  - rewrite Hi in Hj. injection Hj as <-. exists w'. split; [apply lookup_insert_self|].
    eapply step_proc_mono; [by eapply worker_ok_at | exact Hs | done].
  - exists h. by rewrite list_lookup_insert_ne by congruence.
Qed.

Lemma port_entries_step :
  entries_in_lock fs -> port_entries ws fs -> port_entries (<[i:=w']> ws) fs'.
Proof.
  intros Ht He n Hn Hpre.
  destruct (step_new_entry _ _ _ _ _ _ _ _ Hs Hn) as [Hold | [[u ->] | (p & Hpc & Hp & -> & Hw')]].
  - destruct (He n Hold Hpre) as (k & h & p & Hk & Hh & Hpr & ->).
    destruct (decide (k = i)) as [->|Hne].
    + rewrite Hi in Hk. injection Hk as <-. exists i, w', p.
      split; [apply lookup_insert_self|].
      split_and!; [|by eapply step_proc_mono; [eapply worker_ok_at; exact Hi|exact Hs|done]|done].
      destruct (step_holds _ _ _ _ _ _ _ (worker_ok_at _ _ Hi) Hs Hh) as [?|[(_ & Hr)|(_ & Hnl)]];
        [done| |by rewrite (Ht _ Hold) in Hnl].
      rewrite (fs_rmtree_Ok lock_dir fs fs' ltac:(done) Hr) in Hn.
      rewrite bool_decide_eq_true_2 in Hn; [by rewrite andb_false_r in Hn|]. by eexists.
    + exists k, h, p. by rewrite list_lookup_insert_ne by congruence.
  - by apply port_prefix_not_test in Hpre.
  - destruct (worker_ok_at _ _ Hi) as (Hid & _ & _ & _ & Hpost & Hpub & Hproc & _).
    destruct (w_proc w) as [q|] eqn:Hq; [|by specialize (Hpub Hpc)].
    destruct (Hproc q eq_refl) as (_ & How & Hpq). rewrite Hp in Hpq. injection Hpq as <-.
    exists i, w', p. split; [apply lookup_insert_self|]. rewrite Hw'.
    unfold holds_lock. simpl. rewrite How, bool_decide_eq_true_2; [|done].
    split_and!; [done|by rewrite Hq|done].
Qed.

Lemma ports_started_step :
  port_entries ws fs -> ports_started ws -> ports_started (<[i:=w']> ws).
Proof.
  intros He Hps k h p Hk Hp.
  apply list_lookup_insert_Some in Hk as [(<- & <- & _) | (_ & Hk)].
  - destruct (step_port_cases _ _ _ _ _ _ _ _ Hs Hp) as [Hold | [Hpr | (n & l & Hg & Hparse)]].
    + destruct (Hps i w p Hi Hold) as (j & h & Hj & Hpr). destruct (proc_persists _ _ _ Hj Hpr).
      eauto.
    + exists i, w'. split; [apply lookup_insert_self | done].
    + assert (Hin : n ∈ fs_glob lock_dir «"port-"» fs) by (rewrite Hg; left).
      apply fs_glob_spec in Hin as [Hn Hpre].
      destruct (He n Hn Hpre) as (j & h & q & Hj & _ & Hq & ->).
      destruct (worker_ok_at _ _ Hj) as (_ & _ & _ & _ & _ & _ & Hproc & Hnn).
      destruct (Hproc q Hq) as (Hst & _).
      rewrite parse_port_name in Hparse by (by apply Hnn). injection Hparse as <-.
      destruct (proc_persists _ _ _ Hj Hq). eauto.
  - destruct (Hps k h p Hk Hp) as (j & h' & Hj & Hpr). destruct (proc_persists _ _ _ Hj Hpr).
    eauto.
Qed.
End StepOf.
Lemma pub_inv_init (fs : F) env cfg :
  fresh_base fs -> xdist_config cfg -> pub_inv (initial_session fs env cfg).
Proof.
  intros Hf Hc. split_and!; [by apply session_inv_init| | |]; simpl.
  - intros n Hn. by rewrite (proj2 Hf n) in Hn.
  - intros n Hn. by rewrite (proj2 Hf n) in Hn.
  - intros i w p Hi Hp. apply list_lookup_fmap_Some in Hi as ([[id u] st] & -> & _).
    discriminate Hp.
Qed.

Lemma pub_inv_step (s : session F) i : pub_inv s -> pub_inv (sys_step i s).
Proof.
  intros (Hinv & Ht & He & Hps). split; [by apply session_inv_step|].
  unfold sys_step. destruct (s_workers s !! i) as [w|] eqn:Hi; [|done].
  destruct (step_worker (s_env_url s) (s_fs s) (s_running s) w) as [[fs' run'] w'] eqn:Hs.
  simpl. split_and!.
  - by eapply entries_in_lock_step.
  - by eapply port_entries_step; [apply Hinv|..].
  - by eapply ports_started_step; [apply Hinv|..].
Qed.

Lemma reachable_pub_inv (fs : F) env cfg s :
  fresh_base fs -> xdist_config cfg -> reachable (initial_session fs env cfg) s -> pub_inv s.
Proof.
  intros Hf Hc Hr. induction Hr; [by apply pub_inv_init|]. by apply pub_inv_step.
Qed.

(** C3: publication.  In every reachable state, a [port-*] entry of
    [lock_dir] names the port of the server that the current lock holder
    started. *)
Theorem port_entry_of_holder (fs : F) env cfg s n :
  fresh_base fs -> xdist_config cfg -> reachable (initial_session fs env cfg) s ->
  n ∈ fs_glob lock_dir «"port-"» (s_fs s) ->
  exists i h p, s_workers s !! i = Some h /\ holds_lock h = true /\ w_proc h = Some p /\
    w_start h = Ok p /\ n = port_name p.
Proof.
  intros Hf Hc Hr Hn. apply fs_glob_spec in Hn as [Hn Hpre].
  destruct (reachable_pub_inv _ _ _ _ Hf Hc Hr) as ((Hok & _) & _ & He & _).
  destruct (He n Hn Hpre) as (i & h & p & Hi & Hh & Hp & ->).
  destruct (proj1 (Forall_lookup _ _) Hok i h Hi) as (_ & _ & _ & _ & _ & _ & Hproc & _).
  exists i, h, p. split_and!; try done. by apply Hproc.
Qed.

(** C4: every port a worker uses, read from [lock_dir] or chosen by
    itself, is the port of a server some worker of the session
    started with [_start_vnu_server]. *)
Theorem port_from_started_server (fs : F) env cfg s i w p :
  fresh_base fs -> xdist_config cfg -> reachable (initial_session fs env cfg) s ->
  s_workers s !! i = Some w -> w_port w = Some p ->
  exists j h, s_workers s !! j = Some h /\ w_proc h = Some p /\ w_start h = Ok p.
Proof.
  intros Hf Hc Hr Hi Hp.
  destruct (reachable_pub_inv _ _ _ _ Hf Hc Hr) as ((Hok & _) & _ & _ & Hps).
  destruct (Hps i w p Hi Hp) as (j & h & Hj & Hpr).
  destruct (proj1 (Forall_lookup _ _) Hok j h Hj) as (_ & _ & _ & _ & _ & _ & Hproc & _).
  exists j, h. split_and!; try done. by apply Hproc.
Qed.

End Publication.

(** ** The running servers *)

Section Servers.
Context `{FileSystemLaws F}.

(** How one step changes the set of running servers: the owner starts
    its server, or terminates it. *)
Lemma step_run_cases env (fs : F) run w fs' run' w' :
  worker_ok w -> step_worker env fs run w = (fs', run', w') ->
  run' = run \/
  (exists p, run' = {[p]} ∪ run /\ w_pc w' = Publish /\ w_proc w' = Some p /\
     w_owns_lock w' = true /\ w_id w' = w_id w) \/
  (exists p, w_proc w = Some p /\ run' = run ∖ {[p]}).
Proof.
  intros Hok Hs. destruct Hok as (_ & Hms & _ & _ & Hpost & _).
  step_cases Hs; try (left; done); try (by right; right; eauto); try congruence.
  right; left. eexists. split_and!; try done. by apply Hpost.
Qed.

(** A worker that holds the lock and whose server runs keeps both,
    until the step that terminates the server. *)
Lemma step_serving env (fs : F) run w fs' run' w' p :
  worker_ok w -> step_worker env fs run w = (fs', run', w') ->
  holds_lock w = true -> serving (w_pc w) = true -> w_proc w = Some p ->
  (holds_lock w' = true /\ serving (w_pc w') = true /\ w_proc w' = Some p) \/ run' = run ∖ {[p]}.
Proof.
  intros Hok Hs Hh Hsv Hp.
  pose proof (step_proc_mono _ _ _ _ _ _ _ _ Hok Hs Hp) as Hp'.
  destruct Hok as (Hid & _). unfold holds_lock in *. rewrite (bool_decide_eq_true_2 _ Hid) in Hh.
  apply andb_prop in Hh as [Hown Hnd].
  step_cases Hs; simpl in *; rewrite ?E, ?Hp in *; simplify_eq; try done;
    rewrite ?(bool_decide_eq_true_2 _ Hid), ?Hown in *; try (by right); try (by left).
  left. by rewrite E0.
Qed.

Section StepOf.
Context (env : option pystr) (fs : F) (run : gset Z) (ws : list worker) (i : nat).
Context (w : worker) (fs' : F) (run' : gset Z) (w' : worker).
Hypothesis Hok : Forall worker_ok ws.
Hypothesis Hi : ws !! i = Some w.
Hypothesis Hs : step_worker env fs run w = (fs', run', w').

(** A server that ran before the step and still runs after it has the
    same owner. *)
Lemma owner_persists q :
  servers_owned ws run -> q ∈ run -> q ∈ run' ->
  exists j h, <[i:=w']> ws !! j = Some h /\ holds_lock h = true /\
    w_proc h = Some q /\ serving (w_pc h) = true.
Proof.
  intros Hso Hq Hq'. destruct (Hso q Hq) as (j & h & Hj & Hh & Hp & Hsv).
  destruct (decide (j = i)) as [->|Hne].
  - rewrite Hi in Hj. injection Hj as <-.
    destruct (step_serving _ _ _ _ _ _ _ _ (proj1 (Forall_lookup _ _) Hok i w Hi) Hs Hh Hsv Hp)
      as [(Hh' & Hsv' & Hp') | ->]; [|set_solver].
    exists i, w'. split_and!; [by eapply lookup_insert_self|done..].
  - exists j, h. by rewrite list_lookup_insert_ne by congruence.
Qed.

Lemma servers_owned_step : servers_owned ws run -> servers_owned (<[i:=w']> ws) run'.
Proof.
  intros Hso q Hq'. pose proof (proj1 (Forall_lookup _ _) Hok i w Hi) as Hw.
  destruct (step_run_cases _ _ _ _ _ _ _ Hw Hs)
    as [Hr | [(p & Hr & Hpc & Hp & How & Hid) | (p & Hp & Hr)]].
  - apply owner_persists; [done|rewrite <- Hr|]; done.
  - destruct (decide (q = p)) as [->|Hne]; [|apply owner_persists; [done| |done]; set_solver].
    exists i, w'. split_and!; [by eapply lookup_insert_self| |done|by rewrite Hpc].
    destruct Hw as (Hid0 & _). unfold holds_lock. rewrite How, Hpc, Hid.
    by rewrite bool_decide_eq_true_2.
  - apply owner_persists; [done| |done]; set_solver.
Qed.
End StepOf.

Lemma reachable_servers_owned (fs : F) env cfg s :
  fresh_base fs -> xdist_config cfg -> reachable (initial_session fs env cfg) s ->
  servers_owned (s_workers s) (s_running s).
Proof.
  intros Hf Hc Hr. induction Hr as [|s i Hr IH]; [intros p Hp; set_solver|].
  destruct (reachable_inv _ _ (session_inv_init _ _ _ Hf Hc) Hr) as [Hok _].
  unfold sys_step. destruct (s_workers s !! i) as [w|] eqn:Hi; [|done].
  destruct (step_worker (s_env_url s) (s_fs s) (s_running s) w) as [[fs' run'] w'] eqn:Hs.
  by eapply servers_owned_step.
Qed.

(** C2: one server per session.  In every state an xdist session
    reaches, whatever the interleaving, at most one vnu server runs,
    and a running server is the one the current lock holder started:
    a server outlives neither its owner's [proc.terminate()] nor its
    owner's hold on [lock_dir], so a later owner never starts a second
    one beside it. *)
Theorem single_vnu_server (fs : F) env cfg s :
  fresh_base fs -> xdist_config cfg -> reachable (initial_session fs env cfg) s ->
  size (s_running s) <= 1 /\
  forall p, p ∈ s_running s -> exists i h, s_workers s !! i = Some h /\
    holds_lock h = true /\ w_proc h = Some p.
Proof.
  intros Hf Hc Hr. pose proof (reachable_servers_owned _ _ _ _ Hf Hc Hr) as Hso.
  assert (Hone : forall p q, p ∈ s_running s -> q ∈ s_running s -> p = q).
  { intros p q Hp Hq. destruct (Hso p Hp) as (i & hi & Hi & Hhi & Hpi & _).
    destruct (Hso q Hq) as (j & hj & Hj & Hhj & Hqj & _).
    destruct (lock_holder_unique _ _ _ _ _ _ _ _ Hf Hc Hr Hi Hj Hhi Hhj).
    congruence. }
  split.
  - destruct (set_choose_or_empty (s_running s)) as [[p Hp] | ->]; [|rewrite size_empty; lia].
    rewrite <- (size_singleton (C:=gset Z) p). apply subseteq_size. intros q Hq.
    apply elem_of_singleton. by apply Hone.
  - intros p Hp. destruct (Hso p Hp) as (i & h & ? & ? & ? & _). eauto.
Qed.
End Servers.

Lemma single_vnu_server_witness :
  fresh_base (∅ : gset path) /\ xdist_config race_cfg /\
  size (s_running (run_schedule race_schedule race_session)) <= 1.
Proof.
  split_and!; [apply fresh_base_empty | apply xdist_race_cfg |].
  exact (proj1 (single_vnu_server ∅ None race_cfg _ fresh_base_empty xdist_race_cfg
                  (reachable_run_schedule race_session race_schedule))).
Defined.

Lemma port_entry_of_holder_witness :
  port_name 8888 ∈ fs_glob lock_dir «"port-"» (s_fs (run_schedule (replicate 5 0) race_session)) /\
  exists i h p, s_workers (run_schedule (replicate 5 0) race_session) !! i = Some h /\
    holds_lock h = true /\ w_proc h = Some p /\ w_start h = Ok p /\ port_name 8888 = port_name p.
Proof.
  assert (Hn : port_name 8888 ∈ fs_glob lock_dir «"port-"»
                 (s_fs (run_schedule (replicate 5 0) race_session))).
  { assert (Hg : fs_glob lock_dir «"port-"» (s_fs (run_schedule (replicate 5 0) race_session))
                 = [port_name 8888]) by (vm_compute; reflexivity).
    rewrite Hg. left. }
  split; [exact Hn|].
  exact (port_entry_of_holder ∅ None race_cfg _ _ fresh_base_empty xdist_race_cfg
           (reachable_run_schedule _ _) Hn).
Defined.

Lemma port_from_started_server_witness :
  exists w, s_workers (run_schedule race_schedule race_session) !! 1 = Some w /\
    w_port w = Some 8888%Z /\
    exists j h, s_workers (run_schedule race_schedule race_session) !! j = Some h /\
      w_proc h = Some 8888%Z /\ w_start h = Ok 8888%Z.
Proof.
  destruct (s_workers (run_schedule race_schedule race_session) !! 1) as [w|] eqn:E;
    pose proof E as E'; vm_compute in E'; [|discriminate E'].
  assert (Hp : w_port w = Some 8888%Z) by (injection E' as <-; reflexivity).
  exists w. split_and!; [done | done |].
  exact (port_from_started_server ∅ None race_cfg _ 1 w 8888%Z fresh_base_empty xdist_race_cfg
           (reachable_run_schedule _ _) E Hp).
Defined.


(** ** The teardown barrier and its race *)

Section Teardown.
Context `{FileSystemLaws F}.

(** C5: the owner's teardown loop [while True: needs = [*lock_dir.glob("test-*")]]
    leaves the loop, to [proc.terminate()], exactly when no usage
    token [lock_dir/test-<uuid>] exists. *)
Theorem teardown_barrier env (fs : F) run w fs' run' w' :
  w_pc w = WaitTokens -> step_worker env fs run w = (fs', run', w') ->
  (w_pc w' = Terminate <-> forall u, fs_exists (lock_dir ++ [«"test-"» ++ u]) fs = false).
Proof.
  intros Hpc Hs. unfold step_worker in Hs. rewrite Hpc in Hs.
  destruct (fs_glob lock_dir «"test-"» fs) as [|n l] eqn:Hg; injection Hs as _ _ <-; cbn [set_pc w_pc].
  - split; [intros _ u|done]. apply not_true_iff_false. intros Hu.
    assert (Hin : («"test-"» ++ u) ∈ fs_glob lock_dir «"test-"» fs)
      by (apply fs_glob_spec; split; [done | by eexists]).
    rewrite Hg in Hin. set_solver.
  - split; [done|]. intros Hno.
    assert (Hin : n ∈ fs_glob lock_dir «"test-"» fs) by (rewrite Hg; left).
    apply fs_glob_spec in Hin as [Hn [u ->]]. by rewrite Hno in Hn.
Qed.
End Teardown.

Lemma teardown_barrier_witness :
  w_pc waiting_owner = WaitTokens /\
  step_worker None (∅ : gset path) ∅ waiting_owner = (∅, ∅, set_pc Terminate waiting_owner) /\
  (w_pc (set_pc Terminate waiting_owner) = Terminate <->
     forall u, fs_exists (lock_dir ++ [«"test-"» ++ u]) (∅ : gset path) = false).
Proof.
  split_and!; [reflexivity | reflexivity |].
  exact (teardown_barrier None ∅ ∅ waiting_owner ∅ ∅ _ eq_refl eq_refl).
Defined.


(** C6: the teardown barrier does not keep the server alive for every
    user.  In a reachable state of two xdist workers, [gw1] has
    registered its usage token and reached the yield with the port of
    [gw0]'s server, while [gw0] has already terminated that server:
    [gw1] registered after [gw0]'s last [test-*] poll. *)
Theorem teardown_not_guarded :
  exists s, reachable race_session s /\
    exists i w p, s_workers s !! i = Some w /\ w_pc w = InUse /\
      fs_exists (needs_lock w) (s_fs s) = true /\ w_port w = Some p /\ p ∉ s_running s.
Proof.
  exists (run_schedule race_schedule race_session).
  split; [apply reachable_run_schedule|].
  destruct (s_workers (run_schedule race_schedule race_session) !! 1) as [w|] eqn:E;
    pose proof E as E'; vm_compute in E'; [|discriminate E'].
  injection E' as Hw. subst w. eexists 1, _, 8888%Z.
  split_and!; [exact E | reflexivity | vm_compute; reflexivity | reflexivity |].
  apply (bool_decide_eq_true_1 _). vm_compute. reflexivity.
Qed.

(** ** The environment override *)

Lemma reachable_env `{FileSystem F} (s0 s : session F) :
  reachable s0 s -> s_env_url s = s_env_url s0.
Proof.
  induction 1 as [|s i _ IH]; [done|]. unfold sys_step.
  destruct (s_workers s !! i); [|done].
  by destruct (step_worker _ _ _ _) as [[??]?].
Qed.

(** C9: with [VNU_SERVER_URL] set, the fixture never yields: [return url]
    inside the generator ends it before its [yield], and no worker does
    anything else.  In every reachable state the filesystem and the set of
    running servers are unchanged and every worker is at the start or has
    returned without yielding, so no test runs against the given URL. *)
Theorem env_override_never_yields `{FileSystem F} (fs : F) u cfg s :
  reachable (initial_session fs (Some u) cfg) s ->
  s_fs s = fs /\ s_running s = ∅ /\
  forall i w, s_workers s !! i = Some w -> w_pc w = Start \/ w_pc w = NoYield.
Proof.
  induction 1 as [|s i Hr IH].
  - split_and!; [done..|]. intros i w (c & -> & _)%list_lookup_fmap_Some.
    destruct c as [[??]?]. by left.
  - pose proof (reachable_env _ _ Hr) as Henv. simpl in Henv.
    destruct IH as (Hfs & Hrun & Hpc). unfold sys_step.
    destruct (s_workers s !! i) as [w|] eqn:Hi; [|by split_and!].
    rewrite Henv. destruct (Hpc i w Hi) as [Hw|Hw]; unfold step_worker; rewrite Hw; simpl;
      split_and!; try done; intros k h [(<- & <- & _)|(_ & Hk)]%list_lookup_insert_Some;
      eauto; by right.
Qed.

Lemma env_override_never_yields_witness :
  reachable override_session override_session /\
  s_fs override_session = ∅ /\ s_running override_session = ∅ /\
  forall i w, s_workers override_session !! i = Some w -> w_pc w = Start \/ w_pc w = NoYield.
Proof.
  split; [constructor|].
  exact (env_override_never_yields ∅ _ race_cfg override_session (reach_init _)).
Defined.

(** ** The follower's poll loop *)

Lemma set_pc_same pc w : w_pc w = pc -> set_pc pc w = w.
Proof. destruct w; simpl; by intros ->. Qed.

Lemma set_pc_set_pc pc pc' w : set_pc pc (set_pc pc' w) = set_pc pc w.
Proof. by destruct w. Qed.

Lemma iter_worker_add `{FileSystem F} m n env (fs : F) run w :
  iter_worker (m + n) env fs run w =
  let '(fs', run', w') := iter_worker m env fs run w in iter_worker n env fs' run' w'.
Proof.
  revert fs run w. induction m as [|m IH]; intros fs run w; [done|]. simpl.
  destruct (step_worker env fs run w) as [[fs' run'] w']. apply IH.
Qed.

Lemma iter_worker_S `{FileSystem F} n env (fs : F) run w :
  iter_worker (S n) env fs run w =
  let '(fs', run', w') := step_worker env fs run w in iter_worker n env fs' run' w'.
Proof. done. Qed.

Section PollLoop.
Context `{FileSystem F}.

Lemma iter_poll_empty env (fs : F) run w r k :
  fs_glob lock_dir «"port-"» fs = [] -> w_pc w = Poll r -> k <= r ->
  iter_worker k env fs run w = (fs, run, set_pc (Poll (r - k)) w).
Proof.
  intros Hg. revert r w. induction k as [|k IH]; intros r w Hpc Hk.
  - by rewrite Nat.sub_0_r, set_pc_same.
  - destruct r as [|r]; [lia|]. simpl. unfold step_worker at 1. rewrite Hpc, Hg.
    rewrite (IH r); [by rewrite set_pc_set_pc | done | lia].
Qed.

Lemma iter_poll_found env (fs : F) run w r n l p :
  fs_glob lock_dir «"port-"» fs = n :: l -> parse_port n = Ok p -> w_pc w = Poll (S r) ->
  iter_worker (S r) env fs run w =
    (fs, run, set_pc (Poll 0) (set_port_url (Some p) (Some (vnu_url p)) w)).
Proof.
  intros Hg Hp. revert w. induction r as [|r IH]; intros w Hpc;
    rewrite iter_worker_S; unfold step_worker at 1; rewrite Hpc, Hg, Hp; cbv beta iota; [done|].
  rewrite IH; [by destruct w | done].
Qed.

(** C10: a follower that never sees a [port-*] entry polls [lock_dir]
    exactly [retries] times, and then raises
    [RuntimeError("Never started vnu server")] at its next steps: it
    neither fails before the last poll nor loops forever. *)
Theorem follower_gives_up env (fs : F) run w r :
  fs_glob lock_dir «"port-"» fs = [] -> w_pc w = Poll r -> w_port w = None ->
  (forall k, k <= r -> w_pc (iter_worker k env fs run w).2 = Poll (r - k)) /\
  iter_worker (r + 2) env fs run w =
    (fs, run, set_pc (Failed (RuntimeError «"Never started vnu server"»)) w).
Proof.
  intros Hg Hpc Hp. split.
  - intros k Hk. by rewrite (iter_poll_empty _ _ _ _ r).
  - rewrite iter_worker_add, (iter_poll_empty _ _ _ _ r), Nat.sub_diag by done.
    destruct w; simpl in Hp; by subst.
Qed.

(** C11: a follower whose first poll finds the port entry [n] keeps
    polling (the loop has no [break]) and reaches its [yield] with the
    port and URL of [n] after exactly [retries + 2] steps. *)
Theorem follower_reads_port env (fs : F) run w r n l p :
  fs_glob lock_dir «"port-"» fs = n :: l -> parse_port n = Ok p -> w_pc w = Poll (S r) ->
  iter_worker (S r + 2) env fs run w =
    (fs, run, set_pc InUse (set_port_url (Some p) (Some (vnu_url p)) w)).
Proof.
  intros Hg Hp Hpc. rewrite iter_worker_add, (iter_poll_found _ _ _ _ _ _ _ _ Hg Hp Hpc).
  by destruct w.
Qed.
End PollLoop.

Lemma follower_gives_up_witness :
  fs_glob lock_dir «"port-"» (∅ : gset path) = [] /\ w_pc polling_follower = Poll 10 /\
  w_port polling_follower = None /\
  (forall k, k <= 10 -> w_pc (iter_worker k None (∅ : gset path) ∅ polling_follower).2 = Poll (10 - k)) /\
  iter_worker (10 + 2) None (∅ : gset path) ∅ polling_follower =
    (∅, ∅, set_pc (Failed (RuntimeError «"Never started vnu server"»)) polling_follower).
Proof.
  assert (Hg : fs_glob lock_dir «"port-"» (∅ : gset path) = []) by reflexivity.
  destruct (follower_gives_up None ∅ ∅ polling_follower 10 Hg eq_refl eq_refl) as [H1 H2].
  split_and!; [exact Hg | reflexivity | reflexivity | exact H1 | exact H2].
Defined.

Lemma follower_reads_port_witness :
  fs_glob lock_dir «"port-"» published_fs = [port_name 8888] /\
  parse_port (port_name 8888) = Ok 8888%Z /\ w_pc polling_follower = Poll 10 /\
  iter_worker (10 + 2) None published_fs ∅ polling_follower =
    (published_fs, ∅, set_pc InUse (set_port_url (Some 8888%Z) (Some (vnu_url 8888)) polling_follower)).
Proof.
  assert (Hg : fs_glob lock_dir «"port-"» published_fs = [port_name 8888])
    by (vm_compute; reflexivity).
  assert (Hp : parse_port (port_name 8888) = Ok 8888%Z) by (vm_compute; reflexivity).
  split_and!; [exact Hg | exact Hp | reflexivity |].
  exact (follower_reads_port None published_fs ∅ polling_follower 9 _ [] _ Hg Hp eq_refl).
Defined.

End Rendezvous.
