(* ===== verification/Session.v ===== *)
(** * The fixture with its launcher

    [a_vnu_server_url] calls [port, url, proc = _start_vnu_server(proto, host)]
    (lines 68 and 83 of [pytest_plugin.py]) with [proto = "http"] and
    [host = "127.0.0.1"].  [Rendezvous.v] abstracts that call as the
    worker's [w_start]; this file ties [w_start] to the launcher of
    [Vnu.v] ([launch_result]) and proves what the composed program does:
    with the shipped [utils.py] no server ever runs and no worker gets a
    port; when the owner's launch returns [(port, url, proc)], a session
    of any number of workers with distinct tokens, run one worker after
    the other ([serial_schedule]), reaches the state where the server
    runs and every worker is at its [yield] with that port and url.  The
    runs of the owner ([owner_run]) and of a follower ([follower_run])
    are proved against the laws of [FileSystem], through the shape
    [fs_served] of [lock_dir] while the port is published. *)

From S2P Require Import Prelude PyStr Vnu FileSystem Rendezvous.

Module Session.
Import Vnu Rendezvous.

(** What the fixture keeps of a launch: the port of a launch that
    returned, with the URL it builds from it, or the exception raised. *)
Definition launch_result (st : pyres Z) (r : option (pyres (Z * pystr * Z) * list Z)) : Prop :=
  match r with
  | Some (Ok (p, url, _), _) => st = Ok p /\ url = vnu_url p
  | Some (Raise err, _) => st = Raise err
  | None => False
  end.

(** Every worker's start is a launch with the module globals [g]. *)
Definition launched_config (g : option pystr) (cfg : list (worker_id * pystr * pyres Z)) : Prop :=
  Forall (fun '(_, _, st) =>
    exists fuel e io, launch_result st (_start_vnu_server fuel g e io «"http"» «"127.0.0.1"»)) cfg.

(** A worker before it runs, from its entry of the configuration. *)
Definition fresh_of (c : worker_id * pystr * pyres Z) : worker :=
  let '(id, u, st) := c in fresh_worker id u st.

Definition cfg_uuid (c : worker_id * pystr * pyres Z) : pystr := let '(_, u, _) := c in u.

(** The shape of [lock_dir] while the server of port [p] is published
    and the workers [us] hold their [test-*] tokens. *)
Definition fs_served `{FileSystem F} (p : Z) (us : list pystr) (fs : F) : Prop :=
  fs_exists lock_dir fs = true /\
  forall n, fs_exists (lock_dir ++ [n]) fs =
    bool_decide (n = port_name p \/ n ∈ map (fun u => «"test-"» ++ u) us).

(** The workers run one after the other: the owner (worker 0) up to
    its [yield], then each of the [n] followers up to its [yield]. *)
Definition serial_schedule (n : nat) : list nat :=
  replicate 5 0 ++ concat (map (fun j => replicate 15 j) (seq 1 n)).

(** A worker at its [yield] with the port and URL of the server [p]. *)
Definition served (p : Z) (w : worker) : Prop :=
  w_pc w = InUse /\ w_port w = Some p /\ w_url w = Some (vnu_url p).

(** The invariant of a session whose launches all raised. *)
Definition no_start `{FileSystem F} (s : session F) : Prop :=
  (forall i w, s_workers s !! i = Some w -> exists e, w_start w = Raise e) /\ s_running s = ∅.

(** ** Steps keep the start and run only started servers *)

Section Steps.
Context `{FileSystem F}.

Lemma step_start env (fs : F) run w fs' run' w' :
  step_worker env fs run w = (fs', run', w') -> w_start w' = w_start w.
Proof. intros Hs. by step_cases Hs. Qed.

Lemma step_running_raise env (fs : F) run w fs' run' w' e :
  w_start w = Raise e -> step_worker env fs run w = (fs', run', w') ->
  run' = run \/ exists p, run' = run ∖ {[p]}.
Proof. intros He Hs. step_cases Hs; rewrite ?He in *; simplify_eq; eauto. Qed.

Lemma no_start_step s i : no_start s -> no_start (sys_step i s).
Proof.
  intros [Hst Hrun]. unfold sys_step.
  destruct (s_workers s !! i) as [w|] eqn:Hi; [|done].
  destruct (step_worker (s_env_url s) (s_fs s) (s_running s) w) as [[fs' run'] w'] eqn:Hs.
  destruct (Hst i w Hi) as [e He]. split; simpl.
  - intros k h [(<- & <- & _)|(_ & Hk)]%list_lookup_insert_Some; [|by eapply Hst].
    rewrite (step_start _ _ _ _ _ _ _ Hs). by exists e.
  - destruct (step_running_raise _ _ _ _ _ _ _ _ He Hs) as [->|[p ->]]; [done|].
    rewrite Hrun. set_solver.
Qed.
End Steps.

Lemma launched_shipped_raises (st : pyres Z) :
  (exists fuel e io, launch_result st (_start_vnu_server fuel utils_ENV_JAVA_PATH e io
                                        «"http"» «"127.0.0.1"»)) ->
  exists err, st = Raise err.
Proof.
  intros (fuel & e & io & Hl). destruct (start_shipped_raises fuel e io «"http"» «"127.0.0.1"»)
    as [err Herr]. rewrite Herr in Hl. by exists err.
Qed.

(** ** The composed program *)

(** C21: with the shipped [utils.py] the fixture serves nothing: in every
    state a session of xdist workers reaches, whatever the interleaving,
    no vnu server runs and no worker has a port, because every launch
    raises [NameError] (or the error of the socket call). *)
Theorem shipped_session_serves_nothing `{FileSystemLaws F} (fs : F) env cfg s :
  fresh_base fs -> xdist_config cfg -> launched_config utils_ENV_JAVA_PATH cfg ->
  reachable (initial_session fs env cfg) s ->
  s_running s = ∅ /\ forall i w, s_workers s !! i = Some w -> w_port w = None.
Proof.
  intros Hf Hc Hl Hr.
  assert (Hns : no_start s).
  { induction Hr as [|s i _ IH]; [|by apply no_start_step]. split; [|done]. simpl.
    intros i w (c & -> & Hc')%list_lookup_fmap_Some. destruct c as [[id u] st].
    apply list_elem_of_lookup_2 in Hc'. unfold launched_config in Hl. rewrite Forall_forall in Hl.
    exact (launched_shipped_raises st (Hl _ Hc')). }
  destruct Hns as [Hst Hrun]. split; [done|]. intros i w Hi.
  destruct (w_port w) as [p|] eqn:Hp; [exfalso|done].
  destruct (reachable_pub_inv _ _ _ _ Hf Hc Hr) as ((Hok & _) & _ & _ & Hps).
  destruct (Hps i w p Hi Hp) as (j & h & Hj & Hpr).
  destruct (proj1 (Forall_lookup _ _) Hok j h Hj) as (_ & _ & _ & _ & _ & _ & Hproc & _).
  destruct (Hproc p Hpr) as (Hs & _). destruct (Hst j h Hj) as [e He]. congruence.
Qed.

(** The launcher and the fixture agree on the URL: when
    [_start_vnu_server("http", "127.0.0.1")] returns [(port, url, proc)],
    [url] is the [vnu_url port] the followers build from the published
    port. *)
Theorem start_url_is_vnu_url fuel g e io port url pid spawned :
  _start_vnu_server fuel g e io «"http"» «"127.0.0.1"» = Some (Ok (port, url, pid), spawned) ->
  launch_result (Ok port) (Some (Ok (port, url, pid), spawned)).
Proof. intros Hs. split; [done|]. by rewrite (start_vnu_server_url _ _ _ _ _ _ _ _ _ _ Hs). Qed.

(** ** A schedule that serves every worker *)

Lemma run_schedule_app `{FileSystem F} sched1 sched2 (s : session F) :
  run_schedule (sched1 ++ sched2) s = run_schedule sched2 (run_schedule sched1 s).
Proof. unfold run_schedule. apply fold_left_app. Qed.

(** Running worker [j] alone [n] times is [n] steps of [iter_worker]. *)
Lemma run_schedule_iter `{FileSystem F} n j w (s : session F) :
  s_workers s !! j = Some w ->
  run_schedule (replicate n j) s =
    let '(fs', run', w') := iter_worker n (s_env_url s) (s_fs s) (s_running s) w in
    {| s_fs := fs'; s_running := run'; s_env_url := s_env_url s;
       s_workers := <[j:=w']> (s_workers s) |}.
Proof.
  revert s w. induction n as [|n IH]; intros s w Hj.
  - destruct s. simpl in *. by rewrite list_insert_id.
  - cbn [replicate]. unfold run_schedule. cbn [fold_left].
    change (fold_left _ (replicate n j) ?s') with (run_schedule (replicate n j) s').
    unfold sys_step. rewrite Hj, iter_worker_S.
    destruct (step_worker (s_env_url s) (s_fs s) (s_running s) w) as [[fs1 run1] w1] eqn:Hs.
    rewrite (IH _ w1);
      [|cbn [s_workers]; apply list_lookup_insert_Some; left; split_and!; [done..|by eapply lookup_lt_Some]].
    cbn [s_env_url s_fs s_running s_workers].
    destruct (iter_worker n _ fs1 run1 w1) as [[fs2 run2] w2].
    by rewrite list_insert_insert_eq.
Qed.

Section Liveness.
Context `{FileSystemLaws F}.
Variable p : Z.
Hypothesis Hp : (0 <= p)%Z.

Lemma port_name_not_test u : port_name p <> «"test-"» ++ u.
Proof. intros Heq. apply (port_prefix_not_test u). rewrite <- Heq. by eexists. Qed.

(** A token added to [lock_dir]. *)
Lemma fs_served_token us u (fs fs' : F) :
  fs_served p us fs -> fs_mkdir (lock_dir ++ [«"test-"» ++ u]) fs = Ok fs' ->
  fs_served p (u :: us) fs'.
Proof.
  intros [Hl He] Hm. split; [by rewrite (mkdir_child_lock _ _ _ Hm)|].
  apply fs_mkdir_Ok in Hm as (_ & _ & Hq). intros n. rewrite Hq, He.
  destruct (decide (n = «"test-"» ++ u)) as [->|Hne].
  - rewrite bool_decide_eq_true_2 by done. symmetry. apply bool_decide_eq_true_2.
    right. left.
  - rewrite bool_decide_eq_false_2 by (intros Heq; apply app_inj_tail in Heq as [_ ?]; done).
    apply bool_decide_ext. cbn [map]. rewrite elem_of_cons. naive_solver.
Qed.

(** While the port is published, a follower's glob sees [port_name p]
    first. *)
Lemma fs_served_glob us (fs : F) :
  fs_served p us fs -> exists l, fs_glob lock_dir «"port-"» fs = port_name p :: l.
Proof.
  intros [_ He].
  assert (Hin : port_name p ∈ fs_glob lock_dir «"port-"» fs).
  { apply fs_glob_spec. rewrite He, bool_decide_eq_true_2 by (by left). split; [done|]. by eexists. }
  destruct (fs_glob lock_dir «"port-"» fs) as [|n l] eqn:Hg; [by apply not_elem_of_nil in Hin|].
  exists l. f_equal. assert (Hn : n ∈ fs_glob lock_dir «"port-"» fs) by (rewrite Hg; left).
  apply fs_glob_spec in Hn as [Hn Hpre]. rewrite He in Hn. apply bool_decide_eq_true in Hn.
  destruct Hn as [->|(u & -> & _)%list_elem_of_fmap]; [done|]. by apply port_prefix_not_test in Hpre.
Qed.

Lemma lock_dir_child_inj a b : lock_dir ++ [a] = lock_dir ++ [b] <-> a = b.
Proof. split; [intros Heq; by apply app_inj_tail in Heq as [_ ?] | by intros ->]. Qed.

Lemma needs_lock_pc pc w : needs_lock (set_pc pc w) = needs_lock w.
Proof. by destruct w. Qed.

Lemma needs_lock_owns b w : needs_lock (set_owns b w) = needs_lock w.
Proof. by destruct w. Qed.

Ltac step1 :=
  rewrite iter_worker_S; unfold step_worker at 1;
  cbn [w_pc w_id w_uuid w_start w_port w_owns_lock w_proc set_pc set_owns set_proc set_port_url
       ]; repeat (rewrite needs_lock_pc || rewrite needs_lock_owns).

Lemma owner_run (fs : F) run w :
  w_pc w = Start -> w_id w <> Master -> w_start w = Ok p -> w_owns_lock w = false ->
  fs_exists lock_dir fs = false -> (forall n, fs_exists (lock_dir ++ [n]) fs = false) ->
  exists fs' w', iter_worker 5 None fs run w = (fs', {[p]} ∪ run, w') /\
    fs_served p [w_uuid w] fs' /\ served p w'.
Proof.
  intros Hpc Hid Hst How Hl Hn.
  destruct (fs_mkdir_ok lock_dir fs Hl (fs_exists_root fs)) as (fs1 & Hm1 & Hq1).
  assert (Ht1 : fs_exists (needs_lock w) fs1 = false).
  { rewrite Hq1, bool_decide_eq_false_2; [apply Hn | apply not_eq_sym, lock_dir_not_child]. }
  assert (Hpt1 : fs_exists (parent (needs_lock w)) fs1 = true).
  { unfold needs_lock, parent. rewrite removelast_last, Hq1. by rewrite bool_decide_eq_true_2. }
  destruct (fs_mkdir_ok _ fs1 Ht1 Hpt1) as (fs2 & Hm2 & Hq2).
  assert (Hq_2 : fs_exists (lock_dir ++ [port_name p]) fs2 = false).
  { rewrite Hq2, Hq1, !bool_decide_eq_false_2, Hn; [done| apply not_eq_sym, lock_dir_not_child |].
    unfold needs_lock. intros Heq. apply app_inj_tail in Heq as [_ Heq]. by apply port_name_not_test in Heq. }
  assert (Hpq2 : fs_exists (parent (lock_dir ++ [port_name p])) fs2 = true).
  { unfold parent. rewrite removelast_last, Hq2, Hq1. rewrite (bool_decide_eq_true_2 (lock_dir = lock_dir)) by done.
    apply orb_true_r. }
  destruct (fs_mkdir_ok _ fs2 Hq_2 Hpq2) as (fs3 & Hm3 & Hq3).
  step1. rewrite Hpc. cbn iota. rewrite (bool_decide_eq_false_2 _ Hid).
  step1. rewrite Hm1. cbn iota beta.
  step1. rewrite Hm2. cbn iota beta.
  step1. rewrite Hst. cbn iota beta.
  step1. rewrite Hm3. cbn iota beta.
  eexists _, _. split; [reflexivity|]. split; [|done]. split.
  - rewrite Hq3, Hq2, Hq1, (bool_decide_eq_true_2 (lock_dir = lock_dir)) by done.
    by rewrite !orb_true_r.
  - intros n. rewrite Hq3, Hq2, Hq1, Hn, (bool_decide_eq_false_2 (lock_dir ++ [n] = lock_dir))
      by apply not_eq_sym, lock_dir_not_child.
    cbn [orb]. rewrite orb_false_r, <- bool_decide_or. apply bool_decide_ext.
    unfold needs_lock. rewrite !lock_dir_child_inj. cbn [map]. rewrite list_elem_of_singleton.
    naive_solver.
Qed.
Lemma follower_run (fs : F) run w us :
  w_pc w = Start -> w_id w <> Master -> w_owns_lock w = false ->
  fs_served p us fs -> w_uuid w ∉ us ->
  exists fs' w', iter_worker 15 None fs run w = (fs', run, w') /\
    fs_served p (w_uuid w :: us) fs' /\ served p w'.
Proof.
  intros Hpc Hid How [Hl He] Hu.
  pose proof (fs_mkdir_exists _ _ Hl) as Hm1.
  assert (Ht : fs_exists (needs_lock w) fs = false).
  { unfold needs_lock. rewrite He. apply bool_decide_eq_false_2. intros [Heq | Hin].
    - by apply (port_name_not_test (w_uuid w)).
    - apply list_elem_of_fmap in Hin as (u & Heq & Hin). apply app_inv_head in Heq. by subst. }
  assert (Hpt : fs_exists (parent (needs_lock w)) fs = true)
    by (unfold needs_lock, parent; by rewrite removelast_last).
  destruct (fs_mkdir_ok _ fs Ht Hpt) as (fs1 & Hm2 & _).
  pose proof (fs_served_token us (w_uuid w) fs fs1 (conj Hl He) Hm2) as Hs1.
  destruct (fs_served_glob _ _ Hs1) as [l Hg].
  change 15 with (3 + (10 + 2)). rewrite iter_worker_add.
  step1. rewrite Hpc. cbn iota. rewrite (bool_decide_eq_false_2 _ Hid).
  step1. rewrite Hm1. cbn iota beta.
  step1. rewrite Hm2. cbn iota beta. rewrite How. cbn [iter_worker].
  rewrite iter_worker_add, (iter_poll_found _ _ _ _ 9 _ _ _ Hg (parse_port_name _ Hp)) by reflexivity.
  step1. step1.
  eexists _, _. split; [reflexivity|]. split; [done|]. split_and!; reflexivity.
Qed.
Lemma followers_serve rest : forall (s : session F) pre us,
  s_env_url s = None -> s_workers s = pre ++ map fresh_of rest ->
  Forall (served p) pre -> fs_served p us (s_fs s) ->
  Forall (fun c => c.1.1 <> Master /\ cfg_uuid c ∉ us) rest -> NoDup (map cfg_uuid rest) ->
  let s' := run_schedule (concat (map (fun j => replicate 15 j) (seq (length pre) (length rest)))) s in
  s_running s' = s_running s /\ Forall (served p) (s_workers s').
Proof.
  induction rest as [|[[id u] st] rest IH]; intros s pre us Henv Hws Hpre Hfs Hok Hnd.
  - cbn. rewrite Hws, app_nil_r. done.
  - apply Forall_cons in Hok as [[Hid Hu] Hok]. apply NoDup_cons in Hnd as [Hnin Hnd].
    assert (Hj : s_workers s !! length pre = Some (fresh_worker id u st)).
    { rewrite Hws, lookup_app_r, Nat.sub_diag by lia. done. }
    destruct (follower_run (s_fs s) (s_running s) (fresh_worker id u st) us eq_refl Hid eq_refl Hfs Hu)
      as (fs' & w' & Hit & Hfs' & Hw').
    pose proof (run_schedule_iter 15 _ _ s Hj) as Hs1. rewrite Henv, Hit in Hs1.
    cbn [length seq map concat]. rewrite run_schedule_app, Hs1.
    replace (S (length pre)) with (length (pre ++ [w'])) by (rewrite length_app; simpl; lia).
    match goal with |- context [run_schedule _ ?s1] =>
      destruct (IH s1 (pre ++ [w']) (u :: us)) as [Hr Hall] end; cbn [s_env_url s_workers s_fs];
      [done| | | | | |split; [by rewrite Hr|exact Hall]].
    + rewrite Hws. cbn [map]. rewrite insert_app_r_alt, Nat.sub_diag by lia. cbn. by rewrite <- app_assoc.
    + apply Forall_app_2; [done|]. by apply Forall_singleton.
    + done.
    + apply Forall_forall. intros c Hc. rewrite Forall_forall in Hok. destruct (Hok c Hc) as [Hc1 Hc2].
      split; [done|]. rewrite elem_of_cons. intros [Heq|?]; [|done]. apply Hnin. cbn [cfg_uuid].
      rewrite <- Heq. by apply list_elem_of_In, in_map, list_elem_of_In.
    + done.
Qed.
End Liveness.

(** With the owner's launch returning port [p], the serial schedule
    brings every worker of the session to its [yield] with [p]. *)
Theorem serial_schedule_serves `{FileSystemLaws F} (fs : F) id0 u0 p rest :
  fresh_base fs -> xdist_config ((id0, u0, Ok p) :: rest) -> NoDup (u0 :: map cfg_uuid rest) ->
  let s := run_schedule (serial_schedule (length rest))
             (initial_session fs None ((id0, u0, Ok p) :: rest)) in
  s_running s = {[p]} /\ Forall (served p) (s_workers s).
Proof.
  intros [Hl Hn] Hc Hnd. cbv zeta. apply Forall_cons in Hc as [[Hid0 Hp0] Hc]. specialize (Hp0 p eq_refl).
  apply NoDup_cons in Hnd as [Hnin Hnd].
  set (s0 := initial_session fs None ((id0, u0, Ok p) :: rest)).
  assert (Hj : s_workers s0 !! 0 = Some (fresh_worker id0 u0 (Ok p))) by reflexivity.
  destruct (owner_run p fs ∅ (fresh_worker id0 u0 (Ok p)) eq_refl Hid0 eq_refl eq_refl Hl Hn)
    as (fs' & w' & Hit & Hfs' & Hw').
  pose proof (run_schedule_iter 5 0 _ s0 Hj) as Hs1. cbn [s0 initial_session s_env_url s_fs s_running] in Hs1.
  rewrite Hit in Hs1. unfold serial_schedule. rewrite run_schedule_app, Hs1.
  change (seq 1 (length rest)) with (seq (length [w']) (length rest)).
  match goal with |- context [run_schedule _ ?s1] =>
    destruct (followers_serve p Hp0 rest s1 [w'] [u0]) as [Hr Hall] end;
    cbn [s_env_url s_workers s_fs s_running];
    [done|done|by apply Forall_singleton|done| |done|].
  - apply Forall_forall. intros [[id u] st] Hin. rewrite Forall_forall in Hc.
    destruct (Hc _ Hin) as [Hid _]. split; [done|]. rewrite list_elem_of_singleton. intros Heq.
    cbn [cfg_uuid] in Heq. subst u. apply Hnin. by apply list_elem_of_In, (in_map cfg_uuid rest (id, u0, st)), list_elem_of_In.
  - split; [|done]. rewrite Hr. set_solver.
Qed.

(** C22: liveness of the composed fixture.  When the owner's
    [_start_vnu_server("http", "127.0.0.1")] returns [(port, url, proc)],
    a session of any number of xdist workers with distinct [uuid4]
    tokens, run one worker after the other, reaches the state in which
    the owner's server runs and every worker is at its [yield] with
    that port and with the [url] the launcher returned. *)
Theorem launched_session_serves `{FileSystemLaws F} (fs : F) fuel g e io id0 u0 p url pid spawned rest :
  _start_vnu_server fuel g e io «"http"» «"127.0.0.1"» = Some (Ok (p, url, pid), spawned) ->
  fresh_base fs -> xdist_config ((id0, u0, Ok p) :: rest) -> NoDup (u0 :: map cfg_uuid rest) ->
  let s := run_schedule (serial_schedule (length rest))
             (initial_session fs None ((id0, u0, Ok p) :: rest)) in
  s_running s = {[p]} /\
  forall i w, s_workers s !! i = Some w -> w_pc w = InUse /\ w_port w = Some p /\ w_url w = Some url.
Proof.
  intros Hst Hf Hc Hnd. cbv zeta. destruct (serial_schedule_serves fs id0 u0 p rest Hf Hc Hnd) as [Hr Hall].
  split; [done|]. intros i w Hi.
  destruct (proj1 (Forall_lookup _ _) Hall i w Hi) as (Hpc & Hpo & Hu).
  split_and!; [done|done|]. by rewrite Hu, (start_vnu_server_url _ _ _ _ _ _ _ _ _ _ Hst).
Qed.

(** ** Instances *)

Lemma shipped_session_serves_nothing_witness :
  fresh_base (∅ : gset path) /\
  xdist_config [(Gw 0, «"aaaa"», Raise (NameError «"ENV_JAVA_PATH"»));
                (Gw 1, «"bbbb"», Raise (NameError «"ENV_JAVA_PATH"»))] /\
  launched_config utils_ENV_JAVA_PATH
    [(Gw 0, «"aaaa"», Raise (NameError «"ENV_JAVA_PATH"»));
     (Gw 1, «"bbbb"», Raise (NameError «"ENV_JAVA_PATH"»))] /\
  s_running (initial_session (∅ : gset path) None
    [(Gw 0, «"aaaa"», Raise (NameError «"ENV_JAVA_PATH"»));
     (Gw 1, «"bbbb"», Raise (NameError «"ENV_JAVA_PATH"»))]) = ∅.
Proof.
  assert (Hc : xdist_config [(Gw 0, «"aaaa"», Raise (NameError «"ENV_JAVA_PATH"»));
                             (Gw 1, «"bbbb"», Raise (NameError «"ENV_JAVA_PATH"»))])
    by (repeat constructor; discriminate).
  assert (Hl : launched_config utils_ENV_JAVA_PATH
                 [(Gw 0, «"aaaa"», Raise (NameError «"ENV_JAVA_PATH"»));
                  (Gw 1, «"bbbb"», Raise (NameError «"ENV_JAVA_PATH"»))])
    by (repeat constructor; exists 11%nat, ok_env, up_io; reflexivity).
  split_and!; [apply fresh_base_empty | exact Hc | exact Hl |].
  exact (proj1 (shipped_session_serves_nothing ∅ None _ _ fresh_base_empty Hc Hl (reach_init _))).
Defined.

Lemma start_url_is_vnu_url_witness :
  launch_result (Ok 8888%Z)
    (Some (Ok (8888%Z, «"http"» ++ «"://"» ++ «"127.0.0.1"» ++ «":"» ++ str_of_Z 8888, 4242%Z), [4242%Z])).
Proof.
  apply (start_url_is_vnu_url 11 plugin_ENV_JAVA_PATH ok_env up_io). vm_compute. reflexivity.
Defined.

Lemma launched_session_serves_witness :
  _start_vnu_server 11 plugin_ENV_JAVA_PATH ok_env up_io «"http"» «"127.0.0.1"» =
    Some (Ok (8888%Z, «"http"» ++ «"://"» ++ «"127.0.0.1"» ++ «":"» ++ str_of_Z 8888, 4242%Z), [4242%Z]) /\
  fresh_base (∅ : gset path) /\ xdist_config race_cfg /\ NoDup [«"aaaa"»; «"bbbb"»] /\
  s_running (run_schedule (serial_schedule 1) race_session) = {[8888%Z]}.
Proof.
  assert (Hst : _start_vnu_server 11 plugin_ENV_JAVA_PATH ok_env up_io «"http"» «"127.0.0.1"» =
    Some (Ok (8888%Z, «"http"» ++ «"://"» ++ «"127.0.0.1"» ++ «":"» ++ str_of_Z 8888, 4242%Z), [4242%Z]))
    by (vm_compute; reflexivity).
  assert (Hnd : NoDup [«"aaaa"»; «"bbbb"»]) by (apply (bool_decide_eq_true_1 _); vm_compute; reflexivity).
  split_and!; [exact Hst | apply fresh_base_empty | apply xdist_race_cfg | exact Hnd |].
  exact (proj1 (launched_session_serves ∅ 11 plugin_ENV_JAVA_PATH ok_env up_io (Gw 0) «"aaaa"» 8888
                  _ 4242 [4242%Z] [(Gw 1, «"bbbb"», Ok 9999%Z)] Hst fresh_base_empty xdist_race_cfg Hnd)).
Defined.

End Session.
