(* ===== verification/Validator.v ===== *)
(** * The validator classes

    [validator.py]: [Validator.run] fetches the validator's JSON for a
    URL ([validate_path] through the server, [validate_url] through the
    command line: I/O, parameters here); [ValidatorResults.exception] and
    [Collector.raises] (utils.py) turn a non-empty ["messages"] list into
    one [ExceptionGroup] of [ValidatorViolation] instances built by
    [from_violations]; [ValidatorViolation.cast] classifies one message
    into a class named [<type>-<text>] whose bases are the message's type,
    sub-type, ["css"] and CSS property, memoised in the class attribute
    [map] shared by all calls.  JSON values are [jval]; the memo table an
    association list in insertion order, threaded through the calls. *)

From S2P Require Import Prelude PyStr Organize.

Module Validator.
Import Organize.

(** ** JSON access *)

(** The first binding of [k] in a JSON object. *)
Fixpoint jlookup (kvs : list (pystr * jval)) (k : pystr) : option jval :=
  match kvs with
  | [] => None
  | (k', v) :: kvs' => if bool_decide (k' = k) then Some v else jlookup kvs' k
  end.

(** The name of the Python type of a value, as error messages print it. *)
Definition type_name (v : jval) : pystr :=
  match v with
  | JNull => «"NoneType"» | JBool _ => «"bool"» | JInt _ => «"int"»
  | JStr _ => «"str"» | JList _ => «"list"» | JObj _ => «"dict"»
  end.

(** [d[k]] *)
Definition getitem (d : jval) (k : pystr) : pyres jval :=
  match d with
  | JObj kvs => match jlookup kvs k with Some v => Ok v | None => Raise (KeyError k) end
  | JList _ => Raise (TypeError «"list indices must be integers or slices, not str"»)
  | _ => Raise (TypeError («"'"» ++ type_name d ++ «"' object is not subscriptable"»))
  end.

(** [d.get(k)] *)
Definition get (d : jval) (k : pystr) : pyres jval :=
  match d with
  | JObj kvs => Ok (default JNull (jlookup kvs k))
  | _ => Raise (AttributeError («"'"» ++ type_name d ++ «"' object has no attribute 'get'"»))
  end.

(** [bool(v)] *)
Definition truthy (v : jval) : bool :=
  match v with
  | JNull => false
  | JBool b => b
  | JInt z => negb (z =? 0)%Z
  | JStr s => negb (bool_decide (s = []))
  | JList l => negb (bool_decide (l = []))
  | JObj kvs => negb (bool_decide (kvs = []))
  end.

(** [repr(v)], for strings without quotes or backslashes. *)
Fixpoint jrepr (v : jval) : pystr :=
  match v with
  | JNull => «"None"»
  | JBool b => bool_str b
  | JInt z => str_of_Z z
  | JStr s => «"'"» ++ s ++ «"'"»
  | JList l => «"["» ++ join_with «", "» (map jrepr l) ++ «"]"»
  | JObj kvs =>
      «"{"» ++ join_with «", "» (map (fun '(k, x) => «"'"» ++ k ++ «"': "» ++ jrepr x) kvs) ++ «"}"»
  end.

(** [f"{v}"] *)
Definition jstr (v : jval) : pystr := match v with JStr s => s | _ => jrepr v end.

(** [for x in v]: the items of a list, the keys of a dict, the characters
    of a string. *)
Definition py_iter (v : jval) : pyres (list jval) :=
  match v with
  | JList l => Ok l
  | JObj kvs => Ok (map (fun kv => JStr kv.1) kvs)
  | JStr s => Ok (map (fun c => JStr [c]) s)
  | _ => Raise (TypeError («"'"» ++ type_name v ++ «"' object is not iterable"»))
  end.

(** [len(v)] *)
Definition py_len (v : jval) : pyres Z :=
  match v with
  | JList l => Ok (Z.of_nat (length l))
  | JObj kvs => Ok (Z.of_nat (length kvs))
  | JStr s => Ok (Z.of_nat (length s))
  | _ => Raise (TypeError («"object of type '"» ++ type_name v ++ «"' has no len()"»))
  end.

(** ** [ValidatorViolation] instances (lines 31-51) *)

(** The dataclass fields of [ValidatorViolation], after those of its base
    [Violation] (imported from nbconvert_a11y). *)
Definition violation_fields (base : list pystr) : list pystr :=
  base ++ [«"type"»; «"url"»; «"firstLine"»; «"lastLine"»; «"lastColumn"»; «"firstColumn"»;
           «"message"»; «"extract"»; «"subType"»; «"hiliteStart"»; «"hiliteLength"»].

(** The fields of an instance built from the object [kvs]. *)
Definition violation_record (fields : list pystr) (kvs : list (pystr * jval)) : list (pystr * jval) :=
  map (fun f => (f, default JNull (jlookup kvs f))) fields.

(** [ValidatorViolation] called with the items of [message] as keyword
    arguments: every field, [None] when the message
    lacks it; [TypeError] for a key that is not a field. *)
Definition violation_init (fields : list pystr) (m : jval) : pyres pyexc :=
  match m with
  | JObj kvs =>
      match find (fun kv => negb (bool_decide (kv.1 ∈ fields))) kvs with
      | Some (k, _) =>
          Raise (TypeError («"ValidatorViolation.__init__() got an unexpected keyword argument '"»
                            ++ k ++ «"'"»))
      | None => Ok (ViolationExc (violation_record fields kvs))
      end
  | _ => Raise (TypeError («"argument after ** must be a mapping, not "» ++ type_name m))
  end.

(** [ValidatorViolation.from_violations(data)] *)
Definition from_violations (fields : list pystr) (data : jval) : pyres pyexc :=
  messages <- get data «"messages"» ;;
  items <- py_iter messages ;;
  out <- map_res (violation_init fields) items ;;
  n <- py_len messages ;;
  exception_group (str_of_Z n ++ «" html violations"») out.

(** ** [ValidatorResults.exception], [Collector.raises], [Validator.run] *)

(** [ValidatorResults(data).exception()]: [None] when there is no
    message. *)
Definition results_exception (fields : list pystr) (data : jval) : pyres (option pyexc) :=
  ms <- getitem data «"messages"» ;;
  if truthy ms then e <- from_violations fields data ;; Ok (Some e) else Ok None.

(** [Results.raises()] / [Collector.raises()]: an exception instance is
    true. *)
Definition raises (fields : list pystr) (data : jval) : pyres unit :=
  exc <- results_exception fields data ;;
  match exc with Some e => Raise e | None => Ok tt end.

(** [Validator(url=url, server_url=server_url).run()]: the JSON it gets.
    [url] is whatever the caller passed ([U]): the dataclass does not
    check its annotation. *)
Definition validator_run {U} (validate_path : pystr -> U -> pyres jval)
    (validate_url : U -> pyres jval) (server_url : option pystr) (url : U) : pyres jval :=
  match server_url with
  | Some ((_ :: _) as s) => validate_path s url
  | _ => validate_url url
  end.

(** [Validator(...).run().raises()] *)
Definition validate_and_raise {U} fields (validate_path : pystr -> U -> pyres jval)
    (validate_url : U -> pyres jval) server_url (url : U) : pyres unit :=
  data <- validator_run validate_path validate_url server_url url ;;
  raises fields data.

(** ** [ValidatorViolation.cast] (lines 53-72) *)

(** [s] starts with a colon. *)
Definition starts_colon (s : pystr) : bool :=
  match s with c :: _ => bool_decide (c = 58%Z) | [] => false end.

(** What follows the run of non-space characters of [CSS_START]. *)
Fixpoint close_after (s : pystr) : bool :=
  match s with
  | [] => false
  | c :: s' =>
      (bool_decide (c = RQUOTE) && starts_colon s') ||
      (negb (py_isspace c) && close_after s')
  end.

(** [re.compile(r"^“\S+”:").match(s)]: [\S+] backtracks, so the match
    exists when some non-empty run of non-space characters after the
    opening quote is followed by the closing quote and a colon. *)
Definition css_start_match (s : pystr) : bool :=
  match s with
  | q :: c :: s' => bool_decide (q = LQUOTE) && negb (py_isspace c) && close_after s'
  | _ => false
  end.

(** A class made by [type(id, t, {})]. *)
Record vclass := { cls_name : pystr; cls_bases : list pystr }.

(** [ValidatorViolation[x]]: the subclass named [str(x)]
    ([Violation.__class_getitem__] of nbconvert_a11y). *)
Definition vv_getitem (x : jval) : pystr := jstr x.

(** The first base that occurs again later in the list. *)
Fixpoint first_dup (l : list pystr) : option pystr :=
  match l with
  | [] => None
  | x :: l' => if bool_decide (x ∈ l') then Some x else first_dup l'
  end.

(** [type(id, t, {})]: [TypeError] on a repeated base class. *)
Definition new_type (name : pystr) (bases : list pystr) : pyres vclass :=
  match first_dup bases with
  | Some b => Raise (TypeError («"duplicate base class "» ++ b))
  | None => Ok {| cls_name := name; cls_bases := bases |}
  end.

(** The class attribute [map]. *)
Abbreviation cast_map := (list (pystr * vclass)).

Fixpoint map_lookup (m : cast_map) (k : pystr) : option vclass :=
  match m with
  | [] => None
  | (k', c) :: m' => if bool_decide (k' = k) then Some c else map_lookup m' k
  end.

(** [map.setdefault(k, v)] *)
Definition setdefault (m : cast_map) (k : pystr) (v : vclass) : vclass * cast_map :=
  match map_lookup m k with
  | Some c => (c, m)
  | None => (v, m ++ [(k, v)])
  end.

(** [msg.startswith(...)] on a value that must be a [str]. *)
Definition as_str (v : jval) : pyres pystr :=
  match v with
  | JStr s => Ok s
  | _ => Raise (AttributeError («"'"» ++ type_name v ++ «"' object has no attribute 'startswith'"»))
  end.

(** The bases [t] and the [id] of lines 56-71. *)
Definition cast_key (message : jval) : pyres (list pystr * pystr) :=
  ty <- getitem message «"type"» ;;
  sub <- get message «"subType"» ;;
  let t := [vv_getitem ty] ++ (if truthy sub then [vv_getitem sub] else []) in
  mv <- getitem message «"message"» ;;
  msg <- as_str mv ;;
  if startswith msg «"CSS:"» then
    let msg := slice_from 5 msg in
    let t := t ++ [«"css"»] in
    if css_start_match msg then
      match partition msg «": "» with
      | Ok (prop, _, _) => Ok (t ++ [slice_1_m1 prop], jstr ty ++ «"-"» ++ slice_1_m1 prop)
      | Raise e => Raise e
      end
    else Ok (t, jstr ty ++ «"-"» ++ strip msg)
  else
    let id := jstr ty ++ «"-"» ++ strip msg in
    _ <- getitem message «"extract"» ;;
    Ok (t, id).

(** [ValidatorViolation.cast(message)] with the memo table before and
    after. *)
Definition cast (message : jval) (m : cast_map) : pyres (vclass * cast_map) :=
  key <- cast_key message ;;
  let '(t, id) := key in
  c <- new_type id t ;;
  Ok (setdefault m id c).

(** The bases a message's type and sub-type give. *)
Definition type_bases (mk : list (pystr * jval)) (ty : jval) : list pystr :=
  [vv_getitem ty] ++
  (if truthy (default JNull (jlookup mk «"subType"»))
   then [vv_getitem (default JNull (jlookup mk «"subType"»))] else []).

(** The language of [CSS_START]: the opening quote, a non-empty run of
    non-space characters, the closing quote and a colon. *)
Definition css_start_spec (s : pystr) : Prop :=
  exists w r, w <> [] /\ Forall (fun c => py_isspace c = false) w /\
    s = LQUOTE :: w ++ RQUOTE :: 58%Z :: r.

(** A memo table whose keys are distinct and name their classes. *)
Definition map_ok (m : cast_map) : Prop :=
  NoDup (map fst m) /\ Forall (fun kc => cls_name kc.2 = kc.1) m.

(** ** Example messages *)

Definition css_text (prop rest : string) : pystr :=
  «"CSS: "» ++ [LQUOTE] ++ «prop» ++ [RQUOTE] ++ «": "» ++ «rest».

Definition css_color_error_kvs : list (pystr * jval) :=
  [(«"type"», JStr «"error"»); («"message"», JStr (css_text "color" "Bad value bluish."))].

Definition css_color_error : jval := JObj css_color_error_kvs.

Definition element_error_kvs : list (pystr * jval) :=
  [(«"type"», JStr «"error"»); («"message"», JStr «"Stray end tag div. "»);
   («"extract"», JStr «"</div>"»)].

Definition element_no_extract_kvs : list (pystr * jval) :=
  [(«"type"», JStr «"info"»); («"message"», JStr «"Trailing slash."»)].

Definition two_results_kvs : list (pystr * jval) :=
  [(«"url"», JStr «"file:/x.html"»);
   («"messages"», JList (map JObj [element_error_kvs; element_no_extract_kvs]))].

Definition odd_results_kvs : list (pystr * jval) :=
  [(«"messages"», JList [JObj element_error_kvs;
                         JObj ([(«"type"», JStr «"error"»)] ++ («"language"», JStr «"en"») :: []);
                         JObj element_no_extract_kvs])].

(** ** The [CSS_START] pattern *)

Lemma close_after_spec s :
  close_after s = true <->
  exists w r, Forall (fun c => py_isspace c = false) w /\ s = w ++ RQUOTE :: 58%Z :: r.
Proof.
  induction s as [|c s IH]; simpl.
  - split; [done|]. intros (w & r & _ & Hs). by destruct w.
  - rewrite orb_true_iff, !andb_true_iff, IH, negb_true_iff. split.
    + intros [[Hc Hs]|[Hsp (w & r & Hw & ->)]].
      * apply bool_decide_eq_true in Hc as ->. destruct s as [|c s]; [done|].
        simpl in Hs. apply bool_decide_eq_true in Hs as ->. by exists [], s.
      * exists (c :: w), r. split; [by constructor | done].
    + intros ([|c' w] & r & Hw & Hs); simplify_eq/=.
      * left. split; try done; simpl; by apply bool_decide_eq_true_2.
      * inversion Hw as [|? ? Hc Hw']; subst. right. split; [done|]. by exists w, r.
Qed.

Lemma css_start_sound s : css_start_match s = true -> css_start_spec s.
Proof.
  unfold css_start_match, css_start_spec.
  destruct s as [|q [|c s]]; try done. rewrite !andb_true_iff, negb_true_iff, close_after_spec.
  intros [[Hq Hc] (w & r & Hw & ->)]. apply bool_decide_eq_true in Hq as ->.
  exists (c :: w), r. split_and!; [done | by constructor | done].
Qed.

Lemma css_start_complete s : css_start_spec s -> css_start_match s = true.
Proof.
  intros ([|c w] & r & Hne & Hw & ->); [done|]. inversion Hw as [|? ? Hc Hw']; subst.
  unfold css_start_match. cbn [app]. rewrite Hc, bool_decide_eq_true_2 by done. simpl.
  apply close_after_spec. by exists w, r.
Qed.


(** ** Reporting the messages *)

Lemma find_all_fields (fields : list pystr) (mk : list (pystr * jval)) :
  Forall (fun kv => kv.1 ∈ fields) mk ->
  find (fun kv => negb (bool_decide (kv.1 ∈ fields))) mk = None.
Proof.
  induction 1 as [|kv mk Hkv _ IH]; [done|]. simpl. by rewrite bool_decide_eq_true_2.
Qed.

Lemma violation_init_obj (fields : list pystr) mk :
  Forall (fun kv => kv.1 ∈ fields) mk ->
  violation_init fields (JObj mk) = Ok (ViolationExc (violation_record fields mk)).
Proof. intros Hmk. unfold violation_init. by rewrite find_all_fields. Qed.

Lemma find_app {A} (f : A -> bool) l1 l2 :
  find f (l1 ++ l2) = match find f l1 with Some x => Some x | None => find f l2 end.
Proof. induction l1 as [|x l1 IH]; simpl; [done|]. by destruct (f x). Qed.

Lemma violation_init_unknown (fields : list pystr) pre k v post :
  Forall (fun kv => kv.1 ∈ fields) pre -> k ∉ fields ->
  violation_init fields (JObj (pre ++ (k, v) :: post)) =
  Raise (TypeError («"ValidatorViolation.__init__() got an unexpected keyword argument '"» ++ k ++ «"'"»)).
Proof.
  intros Hpre Hk. unfold violation_init. rewrite find_app, find_all_fields by done. simpl.
  by rewrite bool_decide_eq_false_2.
Qed.

Lemma map_res_violations (fields : list pystr) mks :
  Forall (fun mk => Forall (fun kv => kv.1 ∈ fields) mk) mks ->
  map_res (violation_init fields) (map JObj mks) =
  Ok (map (fun mk => ViolationExc (violation_record fields mk)) mks).
Proof.
  induction 1 as [|mk mks Hmk _ IH]; [done|]. cbn [map map_res].
  rewrite violation_init_obj by done. cbn [pyres_bind]. by rewrite IH.
Qed.

(** C23: [Collector.raises()] on the validator's results returns when
    ["messages"] is empty, and otherwise raises
    [ExceptionGroup(f"{n} html violations", ...)] with one
    [ValidatorViolation] per message, in order, [n] the number of
    messages. *)
Theorem raises_messages (fields : list pystr) kvs mks :
  jlookup kvs «"messages"» = Some (JList (map JObj mks)) ->
  Forall (fun mk => Forall (fun kv => kv.1 ∈ fields) mk) mks ->
  raises fields (JObj kvs) =
  match mks with
  | [] => Ok tt
  | _ => Raise (ExceptionGroup (str_of_Z (Z.of_nat (length mks)) ++ «" html violations"»)
                 (map (fun mk => ViolationExc (violation_record fields mk)) mks))
  end.
Proof.
  intros Hm Hall. unfold raises, results_exception, getitem. rewrite Hm. cbn [pyres_bind].
  destruct mks as [|mk mks']; [done|].
  replace (truthy (JList (map JObj (mk :: mks')))) with true by done.
  unfold from_violations, get. rewrite Hm. cbn [default id pyres_bind py_iter].
  rewrite map_res_violations by done. cbn [id pyres_bind py_len]. by rewrite length_map.
Qed.

(** C24: a message with a key that is not a field of
    [ValidatorViolation] makes [Collector.raises()] raise the [TypeError]
    of the dataclass constructor instead of the violations: for the
    first message that has such a key, wherever it is in the list, the
    first such key of that message; the messages after it are not
    looked at. *)
Theorem raises_unknown_field (fields : list pystr) kvs good pre k v post rest :
  jlookup kvs «"messages"» = Some (JList (map JObj good ++ JObj (pre ++ (k, v) :: post) :: rest)) ->
  Forall (fun mk => Forall (fun kv => kv.1 ∈ fields) mk) good ->
  Forall (fun kv => kv.1 ∈ fields) pre -> k ∉ fields ->
  raises fields (JObj kvs) =
  Raise (TypeError («"ValidatorViolation.__init__() got an unexpected keyword argument '"» ++ k ++ «"'"»)).
Proof.
  intros Hm Hgood Hpre Hk. unfold raises, results_exception, getitem. rewrite Hm. cbn [pyres_bind].
  replace (truthy (JList _)) with true by (by destruct good).
  unfold from_violations, get. rewrite Hm. cbn [default id pyres_bind py_iter].
  rewrite map_res_app, map_res_violations by done. cbn [pyres_bind map_res].
  by rewrite violation_init_unknown.
Qed.

(** Results without a ["messages"] key make
    [ValidatorResults.exception()] raise [KeyError('messages')], and a
    [null] list of messages counts as no message. *)
Theorem raises_no_messages (fields : list pystr) kvs :
  (jlookup kvs «"messages"» = None -> raises fields (JObj kvs) = Raise (KeyError «"messages"»)) /\
  (jlookup kvs «"messages"» = Some JNull -> raises fields (JObj kvs) = Ok tt).
Proof. split; intros Hm; unfold raises, results_exception, getitem; by rewrite Hm. Qed.

(** ** [cast] *)

(** A message that is not a CSS message gets the class
    [f"{type}-{message.strip()}"] with the bases of its type and
    sub-type. *)
Theorem cast_key_non_css mk ty msg ex :
  jlookup mk «"type"» = Some ty -> jlookup mk «"message"» = Some (JStr msg) ->
  startswith msg «"CSS:"» = false -> jlookup mk «"extract"» = Some ex ->
  cast_key (JObj mk) = Ok (type_bases mk ty, jstr ty ++ «"-"» ++ strip msg).
Proof.
  intros Hty Hmsg Hcss Hex. unfold cast_key, getitem, get, type_bases.
  rewrite Hty, Hmsg. cbn [pyres_bind as_str]. by rewrite Hcss, Hex.
Qed.

(** C25: [cast] reads [message["extract"]] for a message that is not a
    CSS message, and raises [KeyError('extract')] when it is missing,
    although the value is never used. *)
Theorem cast_needs_extract mk ty msg m :
  jlookup mk «"type"» = Some ty -> jlookup mk «"message"» = Some (JStr msg) ->
  startswith msg «"CSS:"» = false -> jlookup mk «"extract"» = None ->
  cast (JObj mk) m = Raise (KeyError «"extract"»).
Proof.
  intros Hty Hmsg Hcss Hex. unfold cast, cast_key, getitem, get.
  rewrite Hty, Hmsg. cbn [pyres_bind as_str]. by rewrite Hcss, Hex.
Qed.

(** C26: a CSS message that starts with a quoted property gets the class
    [f"{type}-{prop}"] with the bases of its type, ["css"] and the
    property: the rest of the message text is not part of the id. *)
Theorem cast_key_css mk ty body prop sep rest :
  jlookup mk «"type"» = Some ty -> jlookup mk «"message"» = Some (JStr («"CSS: "» ++ body)) ->
  css_start_spec body -> partition body «": "» = Ok (prop, sep, rest) ->
  cast_key (JObj mk) =
  Ok (type_bases mk ty ++ [«"css"»] ++ [slice_1_m1 prop], jstr ty ++ «"-"» ++ slice_1_m1 prop).
Proof.
  intros Hty Hmsg Hcss Hp. unfold cast_key, getitem, get, type_bases.
  rewrite Hty, Hmsg. cbn [pyres_bind as_str].
  replace (startswith («"CSS: "» ++ body) «"CSS:"») with true
    by (symmetry; apply bool_decide_eq_true; by eexists).
  replace (slice_from 5 («"CSS: "» ++ body)) with body by done.
  rewrite css_start_complete, Hp by done. by rewrite <- app_assoc.
Qed.

(** ** The memo table *)

Lemma new_type_name id t c : new_type id t = Ok c -> cls_name c = id.
Proof. unfold new_type. destruct (first_dup t); [done|]. by intros [= <-]. Qed.

Lemma map_lookup_name m k c : map_ok m -> map_lookup m k = Some c -> cls_name c = k.
Proof.
  intros [_ Hn]. induction Hn as [|[k' c'] m Hc _ IH]; simpl; [done|].
  case_bool_decide; [intros [= <-]; simpl in Hc; congruence | done].
Qed.

Lemma map_lookup_None m k : map_lookup m k = None -> k ∉ map fst m.
Proof.
  induction m as [|[k' c'] m IH]; simpl; [set_solver|].
  case_bool_decide; [done|]. intros Hl. apply IH in Hl. set_solver.
Qed.

Lemma map_lookup_snoc m k c : map_lookup m k = None -> map_lookup (m ++ [(k, c)]) k = Some c.
Proof.
  induction m as [|[k' c'] m IH]; simpl; [by rewrite bool_decide_eq_true_2|].
  by case_bool_decide.
Qed.

Lemma setdefault_ok m id c c' m' :
  map_ok m -> cls_name c = id -> setdefault m id c = (c', m') ->
  map_ok m' /\ m `prefix_of` m' /\ map_lookup m' id = Some c' /\ setdefault m' id c = (c', m').
Proof.
  intros Hm Hc. unfold setdefault. destruct (map_lookup m id) as [c0|] eqn:Hl; intros [= <- <-].
  - split_and!; [done | done | done |]. by rewrite Hl.
  - assert (Hs : map_lookup (m ++ [(id, c)]) id = Some c) by by apply map_lookup_snoc.
    split_and!; [| by eexists | done | by rewrite Hs].
    destruct Hm as [Hnd Hn]. split.
    + rewrite map_app. apply NoDup_app. split_and!; [done | | apply NoDup_singleton].
      intros x Hx ->%list_elem_of_singleton. by apply (map_lookup_None m id).
    + apply Forall_app. split; [done|]. by constructor.
Qed.

(** C27: [ValidatorViolation.map] stays a table of distinct ids naming
    their classes; a call only adds to it; the class [cast] returns is the
    one the table holds for its id; and casting the same message again
    returns the same class and leaves the table unchanged. *)
Theorem cast_memo msg m c m' :
  map_ok m -> cast msg m = Ok (c, m') ->
  map_ok m' /\ m `prefix_of` m' /\ map_lookup m' (cls_name c) = Some c /\ cast msg m' = Ok (c, m').
Proof.
  intros Hm. unfold cast. destruct (cast_key msg) as [[t id]|] eqn:Hk; [|done]. cbn [pyres_bind].
  destruct (new_type id t) as [c0|] eqn:Hn; [|done]. cbn [pyres_bind]. intros [= Hs].
  destruct (setdefault_ok m id c0 c m' Hm (new_type_name _ _ _ Hn) Hs) as (Hm' & Hp & Hl & Hs').
  assert (cls_name c = id) as Hc by exact (map_lookup_name _ _ _ Hm' Hl).
  split_and!; [done | done | by rewrite Hc | by rewrite Hs'].
Qed.

(** ** Instances *)

Lemma raises_messages_witness :
  raises (violation_fields []) (JObj two_results_kvs) =
  Raise (ExceptionGroup (str_of_Z (Z.of_nat 2) ++ «" html violations"»)
    (map (fun mk => ViolationExc (violation_record (violation_fields []) mk))
         [element_error_kvs; element_no_extract_kvs])).
Proof.
  apply (raises_messages (violation_fields []) two_results_kvs
           [element_error_kvs; element_no_extract_kvs]); [reflexivity|].
  repeat constructor; apply (bool_decide_eq_true_1 _); vm_compute; reflexivity.
Defined.

Lemma raises_unknown_field_witness :
  raises (violation_fields []) (JObj odd_results_kvs) =
  Raise (TypeError («"ValidatorViolation.__init__() got an unexpected keyword argument '"» ++
                    «"language"» ++ «"'"»)).
Proof.
  apply (raises_unknown_field _ _ [element_error_kvs] [(«"type"», JStr «"error"»)] _ (JStr «"en"») []
                                [JObj element_no_extract_kvs]);
    [reflexivity | | | ].
  - repeat constructor; apply (bool_decide_eq_true_1 _); vm_compute; reflexivity.
  - repeat constructor.
  - apply (bool_decide_eq_false_1 _). vm_compute. reflexivity.
Defined.

Lemma raises_no_messages_witness :
  raises (violation_fields []) (JObj [(«"url"», JStr «"file:/x.html"»)]) = Raise (KeyError «"messages"»).
Proof. exact (proj1 (raises_no_messages (violation_fields []) [(«"url"», JStr «"file:/x.html"»)]) eq_refl). Defined.

Lemma cast_key_non_css_witness :
  cast_key (JObj element_error_kvs) =
  Ok (type_bases element_error_kvs (JStr «"error"»),
      jstr (JStr «"error"») ++ «"-"» ++ strip «"Stray end tag div. "»).
Proof. apply (cast_key_non_css _ _ _ (JStr «"</div>"»)); reflexivity. Defined.

Lemma cast_needs_extract_witness : cast (JObj element_no_extract_kvs) [] = Raise (KeyError «"extract"»).
Proof. apply (cast_needs_extract _ (JStr «"info"») «"Trailing slash."»); reflexivity. Defined.

Lemma cast_key_css_witness :
  cast_key (JObj css_color_error_kvs) =
  Ok (type_bases css_color_error_kvs (JStr «"error"») ++ [«"css"»] ++
        [slice_1_m1 ([LQUOTE] ++ «"color"» ++ [RQUOTE])],
      jstr (JStr «"error"») ++ «"-"» ++ slice_1_m1 ([LQUOTE] ++ «"color"» ++ [RQUOTE])).
Proof.
  eapply (cast_key_css _ _ ([LQUOTE] ++ «"color"» ++ [RQUOTE] ++ «": Bad value bluish."»));
    [reflexivity | reflexivity | |].
  - exists «"color"», «" Bad value bluish."». split_and!; [discriminate | | reflexivity].
    repeat constructor.
  - vm_compute. reflexivity.
Defined.

Lemma cast_memo_witness :
  exists c m', cast (JObj element_error_kvs) [] = Ok (c, m') /\
    map_ok m' /\ [] `prefix_of` m' /\ map_lookup m' (cls_name c) = Some c /\
    cast (JObj element_error_kvs) m' = Ok (c, m').
Proof.
  destruct (cast (JObj element_error_kvs) []) as [[c m']|] eqn:E; [|discriminate E].
  exists c, m'. split; [done|].
  exact (cast_memo _ [] c m' (conj (NoDup_nil_2) (Forall_nil_2 _)) E).
Defined.

End Validator.
