(* ===== verification/Fetch.v ===== *)
(** * Fetching the validator's JSON, the fixtures and [Base.dump]

    [utils.py] lines 77-94: [get_vnu_path] finds the [vnu] command,
    [validate_url] runs it on a URL and parses its JSON output,
    [validate_path] posts a file to a running server.  [pytest_plugin.py]
    lines 16-46: the fixtures [validate_html_url] and [validate_html_path]
    hand out [Validator] instances, [validate_html_file] a copy of
    [validate_path] bound to the session's server.  [utils.py] lines
    37-57: [Base.dict] drops the [None] fields of [dataclasses.asdict],
    [Base.dump] prints the result with [json.dumps], and
    [Collector.configure] returns the instance unchanged.

    The OS is the record [fetch_io] ([subprocess.check_output],
    [Path.read_bytes], [requests.post] and the JSON parser of the
    response); [shutil.which] is the one of [Vnu.launch_env].  What a
    caller passes as [url] is a [str] or a [Path] ([pyarg]): the
    dataclasses do not check the annotation [url: str]. *)

From S2P Require Import Prelude PyStr Json Vnu Organize Validator.

Module Fetch.
Import Vnu Validator.

(** ** Data *)

(** The [url] argument of the fixtures: a [str] or a [pathlib.Path]. *)
Inductive pyarg :=
| ArgStr (s : pystr)
| ArgPath (p : pystr).

(** [os.fspath(a)] *)
Definition fspath (a : pyarg) : pystr := match a with ArgStr s => s | ArgPath p => p end.

(** What the fetchers ask of the OS. *)
Record fetch_io := {
  check_output : list pystr -> pyres (list Z);                  (** stdout of the command *)
  read_bytes : pystr -> pyres (list Z);                         (** [Path(p).read_bytes()] *)
  post : pystr -> list Z -> list (pystr * pystr) -> pyres (list Z); (** body of [requests.post] *)
  loads : list Z -> pyres jval;                                 (** [json.loads] / [res.json()] *)
}.

(** ** [utils.py], lines 77-94 *)

(** [shutil.which("vnu") or shutil.which("vnu.cmd")] *)
Definition get_vnu_path (e : launch_env) : option pystr :=
  py_or (which e «"vnu"») (which e «"vnu.cmd"»).

(** [subprocess] refuses [None] as the program. *)
Definition none_program : pyexc :=
  TypeError «"expected str, bytes or os.PathLike object, not NoneType"».

(** [loads(check_output([get_vnu_path(), "--stdout", "--format", "json",
    "--exit-zero-always", url]))] *)
Definition validate_url (e : launch_env) (io : fetch_io) (url : pyarg) : pyres jval :=
  match get_vnu_path e with
  | None => Raise none_program
  | Some exe =>
      out <- check_output io [exe; «"--stdout"»; «"--format"»; «"json"»;
                              «"--exit-zero-always"»; fspath url] ;;
      loads io out
  end.

Definition html_headers : list (pystr * pystr) := [(«"Content-Type"», «"text/html"»)].

(** [path.read_bytes()]: a [str] has no such method. *)
Definition path_read_bytes (io : fetch_io) (path : pyarg) : pyres (list Z) :=
  match path with
  | ArgStr _ => Raise (AttributeError «"'str' object has no attribute 'read_bytes'"»)
  | ArgPath p => read_bytes io p
  end.

(** [validate_path(a_vnu_server_url, path)] *)
Definition validate_path (io : fetch_io) (a_vnu_server_url : pystr) (path : pyarg) : pyres jval :=
  let url := a_vnu_server_url ++ «"?out=json"» in
  data <- path_read_bytes io path ;;
  res <- post io url data html_headers ;;
  loads io res.

(** ** [pytest_plugin.py], lines 16-46 *)

(** A [Validator] instance: the fields of [Collector] and its own. *)
Record validator := {
  v_url : pyarg;
  v_results : option jval;      (** the [data] of [ValidatorResults] *)
  v_server_url : option pystr;
}.

(** [go(url)] of [validate_html_url]: [Validator(url=url)] *)
Definition validate_html_url_go (url : pyarg) : validator :=
  {| v_url := url; v_results := None; v_server_url := None |}.

(** [go(url)] of [validate_html_path]:
    [Validator(url=url, server_url=a_vnu_server_url)] *)
Definition validate_html_path_go (a_vnu_server_url : pystr) (url : pyarg) : validator :=
  {| v_url := url; v_results := None; v_server_url := Some a_vnu_server_url |}.

(** [post(path)] of [validate_html_file]. *)
Definition validate_html_file_post (io : fetch_io) (a_vnu_server_url : pystr) (path : pyarg)
    : pyres jval :=
  let url := a_vnu_server_url ++ «"?out=json"» in
  data <- path_read_bytes io path ;;
  res <- post io url data html_headers ;;
  loads io res.

(** [Validator.run()]: [self.results] is set only when the fetch returns. *)
Definition run (e : launch_env) (io : fetch_io) (v : validator) : pyres validator :=
  data <- validator_run (validate_path io) (validate_url e io) (v_server_url v) (v_url v) ;;
  Ok {| v_url := v_url v; v_results := Some data; v_server_url := v_server_url v |}.

(** [Collector.configure()] *)
Definition configure (v : validator) : validator := v.

(** ** [Base.dict] and [Base.dump] (utils.py, lines 43-47) *)

(** A field value of [dataclasses.asdict]: JSON data or a [Path]. *)
Inductive pyval :=
| PJ (v : jval)
| PPath (p : pystr).

Definition arg_val (a : pyarg) : pyval :=
  match a with ArgStr s => PJ (JStr s) | ArgPath p => PPath p end.

(** [dataclasses.asdict(v)]: the fields in declaration order, the
    [ValidatorResults] instance as the dict of its field [data]. *)
Definition validator_asdict (v : validator) : list (pystr * pyval) :=
  [(«"url"», arg_val (v_url v));
   («"results"», PJ (match v_results v with Some d => JObj [(«"data"», d)] | None => JNull end));
   («"server_url"», PJ (match v_server_url v with Some s => JStr s | None => JNull end))].

Definition is_none (x : pyval) : bool := match x with PJ JNull => true | _ => false end.

(** [Base.dict()]: the items whose value [is not None]. *)
Definition base_dict (d : list (pystr * pyval)) : list (pystr * pyval) :=
  filter (fun kv => is_none kv.2 = false) d.

(** The encoder on the values of a dict: a [Path] is not serialisable. *)
Fixpoint encode_items (kvs : list (pystr * pyval)) : pyres (list (pystr * jval)) :=
  match kvs with
  | [] => Ok []
  | (k, PJ x) :: kvs' => t <- encode_items kvs' ;; Ok ((k, x) :: t)
  | (_, PPath _) :: _ => Raise (TypeError «"Object of type PosixPath is not JSON serializable"»)
  end.

(** [Base.dump()] *)
Definition base_dump (d : list (pystr * pyval)) : pyres pystr :=
  kvs <- encode_items (base_dict d) ;; Ok (json_dumps (JObj kvs)).

Definition validator_dump (v : validator) : pyres pystr := base_dump (validator_asdict v).

(** ** Sample environments *)

(** A machine with [vnu] on the [PATH], and one without. *)
Definition vnu_env : launch_env := {|
  environ := []; which p := if bool_decide (p = «"vnu"») then Some «"/usr/bin/vnu"» else None;
  sys_prefix := «"/usr"»; os_nt := false; path_exists _ := false;
|}.

Definition bare_env : launch_env := {|
  environ := []; which _ := None; sys_prefix := «"/usr"»; os_nt := false; path_exists _ := false;
|}.

(** An OS whose command and server answer with the document of [out],
    parsed by the decoder of [Json.v]. *)
Definition answer_io (out : jval) : fetch_io := {|
  check_output _ := Ok (json_dumps out);
  read_bytes _ := Ok «"<!doctype html>"»;
  post _ _ _ := Ok (json_dumps out);
  loads b := match json_decode b with Some v => Ok v | None => Raise (ValueError «"Expecting value"») end;
|}.

(** ** Theorems *)

(** C28: with a server, no [url] lets both
    [Validator.run()] and [dump()] succeed: [validate_html_path]'s
    [go(url).run()] raises [AttributeError] when [url] is a [str] (the
    annotation of [Collector.url]), and when it is a [Path] whose run
    returns, [dump()] raises [TypeError] because [asdict] keeps the
    [Path], which [json.dumps] cannot encode. *)
Theorem server_mode_never_dumps e io c s u :
  is_ok (v <- run e io (validate_html_path_go (c :: s) u) ;; validator_dump v) = false.
Proof.
  destruct u as [str|p]; [reflexivity|]. unfold run. cbn -[validate_path].
  by destruct (validate_path io (c :: s) (ArgPath p)).
Qed.

(** On a machine where [shutil.which] finds neither
    [vnu] nor [vnu.cmd], [validate_html_url]'s [go(url).run()] raises
    the [TypeError] of [subprocess] for a [None] program, for every
    [url], without running anything. *)
Theorem run_without_vnu e io u :
  which e «"vnu"» = None -> which e «"vnu.cmd"» = None ->
  run e io (validate_html_url_go u) = Raise none_program.
Proof. intros H1 H2. unfold run, validator_run, validate_url, get_vnu_path. by rewrite H1, H2. Qed.

(** C29: [Base.dump()] of a validator that
    [validate_html_url] handed out for a [str] URL, after a [run()]
    whose [validate_url] returned [data], is a JSON document that
    decodes to [{"url": url, "results": {"data": data}}]: the [None]
    [server_url] is dropped and the fields keep their declaration
    order. *)
Theorem url_mode_dump_roundtrip e io u data :
  validate_url e io (ArgStr u) = Ok data ->
  forallb scalar_ok u = true -> jscalars_ok data = true ->
  exists out, (v <- run e io (validate_html_url_go (ArgStr u)) ;; validator_dump v) = Ok out /\
    json_decode out = Some (JObj [(«"url"», JStr u); («"results"», JObj [(«"data"», data)])]).
Proof.
  intros Hv Hu Hd. unfold run. cbn -[validate_url json_dumps]. rewrite Hv.
  eexists. split; [reflexivity|]. apply json_decode_dumps.
  simpl. by rewrite Hu, Hd.
Qed.

(** [validate_html_file]'s [post] is
    annotated [path: Path | str] but raises [AttributeError] on every
    [str], before any request, on every OS; on a [Path] it is
    [validate_path] bound to the server. *)
Theorem validate_html_file_str_raises io a p :
  validate_html_file_post io a (ArgStr p) =
    Raise (AttributeError «"'str' object has no attribute 'read_bytes'"») /\
  forall q, validate_html_file_post io a (ArgPath q) = validate_path io a (ArgPath q).
Proof. split; [reflexivity | done]. Qed.


(** ** Instances *)

Lemma run_without_vnu_witness :
  which bare_env «"vnu"» = None /\ which bare_env «"vnu.cmd"» = None /\
  run bare_env (answer_io JNull) (validate_html_url_go (ArgStr «"https://example.org"»))
    = Raise none_program.
Proof. split_and!; [reflexivity | reflexivity | apply run_without_vnu; reflexivity]. Defined.

Lemma url_mode_dump_roundtrip_witness :
  validate_url vnu_env (answer_io (JObj [(«"messages"», JList [])])) (ArgStr «"https://example.org"»)
    = Ok (JObj [(«"messages"», JList [])]) /\
  exists out,
    (v <- run vnu_env (answer_io (JObj [(«"messages"», JList [])]))
            (validate_html_url_go (ArgStr «"https://example.org"»)) ;; validator_dump v) = Ok out /\
    json_decode out = Some (JObj [(«"url"», JStr «"https://example.org"»);
                                  («"results"», JObj [(«"data"», JObj [(«"messages"», JList [])])])]).
Proof.
  split; [vm_compute; reflexivity|].
  apply url_mode_dump_roundtrip; vm_compute; reflexivity.
Defined.

End Fetch.
