(* ===== verification/Ports.v ===== *)
(** * [get_an_unused_port] over a model of the socket layer

    [utils.py] lines 186-193: open a TCP socket, bind it to
    [("127.0.0.1", 0)] so that the kernel picks a free ephemeral port,
    [listen(1)], read the port with [getsockname()[1]], [close()] and
    return the port.  [Vnu.v] takes the result as the oracle
    [bind_any]; here the sockets are a state ([sockets]: the port each
    open descriptor is bound to, the listening ones, the next
    descriptor) and the kernel's choice is the interface
    [EphemeralPorts] with its laws ([EphemeralPortsLaws]): a free port
    of the range [eph_lo..eph_hi] when there is one.  [linux_ports] is an
    instance (the default range 32768-60999, lowest free port first).

    The theorems: the port is in the ephemeral range and was free; the
    call leaves the set of ports in use as it found it, so nothing keeps
    the port for the server that will bind it later (the race the
    docstring admits; two calls may return the same port); and a free
    port in the range makes the call return.  [launch_world] and [world_io] put the vnu
    child's own [bind] and another process's on the same socket state:
    when the other process wins the port, the readiness probe of
    [wait_for_vnu_to_start] is still answered and the launch reports a
    server that is not the child. *)

From S2P Require Import Prelude PyStr Vnu FileSystem Rendezvous Session.

Module Ports.
Import Vnu Rendezvous Session.

(** ** The kernel's choice of a port *)

Class EphemeralPorts := {
  eph_lo : Z;
  eph_hi : Z;
  eph_choose : gset Z -> option Z;     (** the port a bind to port 0 gets *)
}.

Class EphemeralPortsLaws `{EphemeralPorts} := {
  eph_lo_pos : (0 < eph_lo)%Z;
  eph_choose_fresh u p : eph_choose u = Some p -> (p ∉ u) /\ (eph_lo <= p <= eph_hi)%Z;
  eph_choose_total u : (exists p, (eph_lo <= p <= eph_hi)%Z /\ p ∉ u) -> eph_choose u <> None;
}.

(** ** Sockets *)

Record sockets := {
  sk_bound : gmap Z Z;       (** descriptor -> local port *)
  sk_listen : gset Z;        (** listening descriptors *)
  sk_next : Z;               (** the next descriptor [socket()] returns *)
}.

(** The local ports held by open sockets. *)
Definition bound_ports (s : sockets) : gset Z := map_img (sk_bound s).

(** Descriptors not yet handed out are not bound. *)
Definition sockets_ok (s : sockets) : Prop :=
  forall fd, fd ∈ dom (sk_bound s) -> (fd < sk_next s)%Z.

Section Ops.
Context `{EphemeralPorts}.

(** [socket.socket(AF_INET, SOCK_STREAM)] *)
Definition sock_socket (s : sockets) : Z * sockets :=
  (sk_next s, {| sk_bound := sk_bound s; sk_listen := sk_listen s; sk_next := (sk_next s + 1)%Z |}).

(** [s.bind(("127.0.0.1", 0))] *)
Definition sock_bind_any (fd : Z) (s : sockets) : pyres sockets :=
  match eph_choose (bound_ports s) with
  | Some p => Ok {| sk_bound := <[fd := p]> (sk_bound s); sk_listen := sk_listen s;
                   sk_next := sk_next s |}
  | None => Raise (OSError «"[Errno 98] Address already in use"»)
  end.

(** [s.listen(1)] *)
Definition sock_listen (fd : Z) (s : sockets) : sockets :=
  {| sk_bound := sk_bound s; sk_listen := sk_listen s ∪ {[fd]}; sk_next := sk_next s |}.

(** [s.getsockname()[1]]: [0] for a socket that is not bound. *)
Definition sock_port (fd : Z) (s : sockets) : Z := default 0%Z (sk_bound s !! fd).

(** [s.close()] *)
Definition sock_close (fd : Z) (s : sockets) : sockets :=
  {| sk_bound := delete fd (sk_bound s); sk_listen := sk_listen s ∖ {[fd]}; sk_next := sk_next s |}.

(** [get_an_unused_port()] *)
Definition get_an_unused_port (s : sockets) : pyres (Z * sockets) :=
  let '(fd, s1) := sock_socket s in
  s2 <- sock_bind_any fd s1 ;;
  let s3 := sock_listen fd s2 in
  let port := sock_port fd s3 in
  Ok (port, sock_close fd s3).

(** The launcher of [Vnu.v] whose port comes from the socket state [s]. *)
Definition port_io (io : launch_io) (s : sockets) : launch_io := {|
  bind_any := (r <- get_an_unused_port s ;; Ok r.1);
  popen := popen io;
  urlopen := urlopen io;
|}.

(** ** Another process on the same host *)

(** A process binds [("127.0.0.1", p)] and listens; [EADDRINUSE] when a
    socket already holds [p]. *)
Definition bind_listen (p : Z) (s : sockets) : pyres sockets :=
  if bool_decide (p ∈ bound_ports s) then Raise (OSError «"[Errno 98] Address already in use"»)
  else Ok {| sk_bound := <[sk_next s := p]> (sk_bound s); sk_listen := sk_listen s ∪ {[sk_next s]};
             sk_next := (sk_next s + 1)%Z |}.

(** The ports a listening socket is bound to: where [urlopen] is
    answered, whichever process listens. *)
Definition listening_ports (s : sockets) : gset Z :=
  map_img (filter (fun kv : Z * Z => kv.1 ∈ sk_listen s) (sk_bound s)).

(** The events of one launch on a shared host, in their order: the
    allocator's call, then, when [foreign], another process binding the
    returned port, then the vnu child's own bind.  The port, the sockets
    after the child's attempt, and whether the child could bind. *)
Definition launch_world (s0 : sockets) (foreign : bool) : option (Z * sockets * bool) :=
  match get_an_unused_port s0 with
  | Raise _ => None
  | Ok (p, s1) =>
      let s2 := if foreign then match bind_listen p s1 with Ok s => s | Raise _ => s1 end
                else s1 in
      match bind_listen p s2 with
      | Ok s3 => Some (p, s3, true)
      | Raise _ => Some (p, s2, false)
      end
  end.

(** The launcher's view of that host: the port is the allocator's,
    [Popen] returns at once, and a probe is answered when some socket
    listens on the port. *)
Definition world_io (s0 : sockets) (foreign : bool) : launch_io := {|
  bind_any := (r <- get_an_unused_port s0 ;; Ok r.1);
  popen _ := Ok 4242%Z;
  urlopen _ _ := match launch_world s0 foreign with
                 | Some (p, s, _) => if bool_decide (p ∈ listening_ports s) then Ok tt else Raise refused
                 | None => Raise refused
                 end;
|}.
End Ops.

(** ** An instance: the lowest free port of Linux's default range *)

Fixpoint first_free (lo : Z) (n : nat) (u : gset Z) : option Z :=
  match n with
  | O => None
  | S n' => if bool_decide (lo ∉ u) then Some lo else first_free (lo + 1)%Z n' u
  end.

#[export] Instance linux_ports : EphemeralPorts := {|
  eph_lo := 32768; eph_hi := 60999; eph_choose := first_free 32768 (Z.to_nat 28232);
|}.

(** No socket open. *)
Definition no_sockets : sockets := {| sk_bound := ∅; sk_listen := ∅; sk_next := 3 |}.

(** ** The laws of the Linux instance *)

Lemma first_free_spec lo n u p :
  first_free lo n u = Some p -> (p ∉ u) /\ (lo <= p < lo + Z.of_nat n)%Z.
Proof.
  revert lo. induction n as [|n IH]; intros lo; simpl; [done|].
  case_bool_decide; [intros [= <-]; split; [done | lia]|].
  intros [Hp Hr]%IH. split; [done | lia].
Qed.

Lemma first_free_total lo n u p :
  (lo <= p < lo + Z.of_nat n)%Z -> p ∉ u -> first_free lo n u <> None.
Proof.
  revert lo. induction n as [|n IH]; intros lo Hr Hp; simpl; [lia|].
  case_bool_decide; [done|]. apply IH; [|done].
  assert (p <> lo) by (intros ->; done). lia.
Qed.

#[export] Instance linux_ports_laws : EphemeralPortsLaws.
Proof.
  split.
  - change (0 < 32768)%Z. lia.
  - intros u p Hp. apply (first_free_spec 32768 (Z.to_nat 28232)) in Hp as [Hp Hr].
    change eph_lo with 32768%Z. change eph_hi with 60999%Z. split; [done | lia].
  - intros u (p & Hr & Hp). change eph_lo with 32768%Z in Hr. change eph_hi with 60999%Z in Hr.
    apply (first_free_total _ _ _ p); [lia | done].
Qed.

(** ** The call *)

Section Laws.
Context `{EphemeralPortsLaws}.

(** What a returning call did: the kernel's choice, bound to the new
    descriptor, then the descriptor closed. *)
Lemma get_an_unused_port_Ok s p s' :
  get_an_unused_port s = Ok (p, s') ->
  eph_choose (bound_ports s) = Some p /\
  s' = {| sk_bound := delete (sk_next s) (<[sk_next s := p]> (sk_bound s));
          sk_listen := (sk_listen s ∪ {[sk_next s]}) ∖ {[sk_next s]};
          sk_next := (sk_next s + 1)%Z |}.
Proof.
  unfold get_an_unused_port, sock_socket, sock_bind_any. cbn.
  destruct (eph_choose (bound_ports _)) as [q|] eqn:Hq; [|done]. intros Hr.
  injection Hr as <- <-. unfold sock_port. cbn. rewrite lookup_insert_eq. by split.
Qed.

(** The state a returning call leaves: the bound ports as before, the
    port not among them, the state well formed. *)
Lemma get_an_unused_port_state s p s' :
  sockets_ok s -> get_an_unused_port s = Ok (p, s') ->
  bound_ports s' = bound_ports s /\ (p ∉ bound_ports s) /\ sockets_ok s'.
Proof.
  intros Hok Hr. destruct (get_an_unused_port_Ok _ _ _ Hr) as [Hc ->].
  assert (Hn : sk_bound s !! sk_next s = None).
  { apply not_elem_of_dom. intros Hd%Hok. lia. }
  unfold bound_ports, sockets_ok. simpl. rewrite delete_insert_id by done.
  split_and!; [done | by apply eph_choose_fresh | intros fd Hd%Hok; lia].
Qed.

(** A process binds a free port, and holds and listens on it after. *)
Lemma bind_listen_free p s :
  p ∉ bound_ports s ->
  exists s', bind_listen p s = Ok s' /\ p ∈ bound_ports s' /\ p ∈ listening_ports s'.
Proof.
  intros Hp. unfold bind_listen. rewrite bool_decide_eq_false_2 by done. eexists. split; [done|].
  unfold bound_ports, listening_ports. simpl. split; apply elem_of_map_img; exists (sk_next s).
  - by rewrite lookup_insert_eq.
  - apply map_lookup_filter_Some_2; [by rewrite lookup_insert_eq | simpl; set_solver].
Qed.

Lemma bind_listen_taken p s :
  p ∈ bound_ports s -> exists e, bind_listen p s = Raise e.
Proof. intros Hp. unfold bind_listen. rewrite bool_decide_eq_true_2 by done. by eexists. Qed.
End Laws.

(** The port [_start_vnu_server] returns is the one [get_an_unused_port]
    gave it. *)
Lemma start_vnu_server_port fuel g e io proto host port url pid spawned :
  _start_vnu_server fuel g e io proto host = Some (Ok (port, url, pid), spawned) ->
  bind_any io = Ok port.
Proof.
  unfold _start_vnu_server. intros Hs.
  repeat match type of Hs with context [match ?x with _ => _ end] => destruct x eqn:? end;
    simplify_eq; done.
Qed.

(** The ports of a launch from [port_io] are the allocator's. *)
Lemma port_io_port `{EphemeralPortsLaws} fuel g e io s port url pid spawned :
  _start_vnu_server fuel g e (port_io io s) «"http"» «"127.0.0.1"» =
    Some (Ok (port, url, pid), spawned) ->
  (eph_lo <= port <= eph_hi)%Z.
Proof.
  intros Hs%start_vnu_server_port. simpl in Hs.
  destruct (get_an_unused_port s) as [[q s']|] eqn:Hg; simpl in Hs; simplify_eq.
  destruct (get_an_unused_port_Ok _ _ _ Hg) as [Hc _]. apply eph_choose_fresh in Hc as [_ ?]. lia.
Qed.

(** ** Theorems *)

Section Claims.
Context `{EphemeralPortsLaws}.

(** C31: the port [get_an_unused_port()]
    returns is in the kernel's ephemeral range (so it is positive) and
    was not held by any socket when the call started. *)
Theorem get_an_unused_port_range s p s' :
  get_an_unused_port s = Ok (p, s') -> (p ∉ bound_ports s) /\ (eph_lo <= p <= eph_hi)%Z.
Proof. intros [Hc _]%get_an_unused_port_Ok. by apply eph_choose_fresh. Qed.

(** C32: the call closes its socket: on a
    well-formed socket state it leaves the set of bound ports as it
    found it and the state well-formed, so the returned port is free
    again and nothing reserves it for the server that binds it later
    (the race the docstring mentions). *)
Theorem get_an_unused_port_releases s p s' :
  sockets_ok s -> get_an_unused_port s = Ok (p, s') ->
  bound_ports s' = bound_ports s /\ (p ∉ bound_ports s') /\ sockets_ok s'.
Proof.
  intros Hok Hr. destruct (get_an_unused_port_state _ _ _ Hok Hr) as (Hb & Hp & Hok').
  rewrite Hb. by split_and!.
Qed.

(** While some port of the ephemeral
    range is free, the call returns a port (it raises only when the
    range is exhausted). *)
Theorem get_an_unused_port_returns s :
  (exists q, (eph_lo <= q <= eph_hi)%Z /\ q ∉ bound_ports s) ->
  exists p s', get_an_unused_port s = Ok (p, s').
Proof.
  intros Hq%eph_choose_total. unfold get_an_unused_port, sock_socket, sock_bind_any. cbn.
  destruct (eph_choose (bound_ports _)); [by eexists _, _ | done].
Qed.

(** Without another process the child binds the port and listens. *)
Lemma launch_world_alone s0 :
  sockets_ok s0 -> (exists q, (eph_lo <= q <= eph_hi)%Z /\ q ∉ bound_ports s0) ->
  exists p s, launch_world s0 false = Some (p, s, true) /\ p ∈ listening_ports s.
Proof.
  intros Hok Hfree. destruct (get_an_unused_port_returns s0 Hfree) as (p & s1 & Hg).
  destruct (get_an_unused_port_state _ _ _ Hok Hg) as (Hb & Hp & _).
  destruct (bind_listen_free p s1) as (s2 & Hs2 & _ & Hl); [by rewrite Hb|].
  exists p, s2. unfold launch_world. rewrite Hg. cbn iota beta. by rewrite Hs2.
Qed.

(** C30: the readiness probe cannot tell
    the vnu server from another process.  When another process binds
    the port [get_an_unused_port()] returned between the allocator's
    [close()] and the launch, the child's own bind fails
    ([EADDRINUSE]), yet the first [urlopen] is answered by the other
    process and [_start_vnu_server("http", "127.0.0.1")] returns the
    port, its URL and the failed child's pid as a running server. *)
Theorem launch_trusts_foreign_listener s0 :
  sockets_ok s0 -> (exists q, (eph_lo <= q <= eph_hi)%Z /\ q ∉ bound_ports s0) ->
  exists p s, launch_world s0 true = Some (p, s, false) /\
    _start_vnu_server 11 plugin_ENV_JAVA_PATH ok_env (world_io s0 true) «"http"» «"127.0.0.1"» =
    Some (Ok (p, «"http"» ++ «"://"» ++ «"127.0.0.1"» ++ «":"» ++ str_of_Z p, 4242%Z), [4242%Z]).
Proof.
  intros Hok Hfree. destruct (get_an_unused_port_returns s0 Hfree) as (p & s1 & Hg).
  destruct (get_an_unused_port_state _ _ _ Hok Hg) as (Hb & Hp & _).
  destruct (bind_listen_free p s1) as (s2 & Hs2 & Hin & Hl); [by rewrite Hb|].
  destruct (bind_listen_taken p s2 Hin) as [err Herr].
  assert (Hw : launch_world s0 true = Some (p, s2, false)).
  { unfold launch_world. rewrite Hg. cbn iota beta. by rewrite Hs2, Herr. }
  exists p, s2. split; [done|].
  eapply (start_vnu_server_ok _ _ _ _ _ _ _ _ _ 0); [| | reflexivity | lia | | lia | lia].
  - cbn [world_io bind_any]. by rewrite Hg.
  - by apply get_vnu_args_ok.
  - cbn [world_io urlopen]. rewrite Hw. by rewrite bool_decide_eq_true_2.
Qed.
End Claims.

(** Two consecutive calls, with nothing bound in
    between, return the same port: with the Linux allocator both get
    32768, so two workers that each called it would race for it. *)
Example two_calls_same_port :
  (r1 <- get_an_unused_port no_sockets ;; r2 <- get_an_unused_port r1.2 ;; Ok (r1.1, r2.1))
    = Ok (32768%Z, 32768%Z).
Proof. vm_compute. reflexivity. Qed.

(** ** Instances *)

Lemma get_an_unused_port_range_witness :
  exists s', get_an_unused_port no_sockets = Ok (32768%Z, s') /\
    (32768%Z ∉ bound_ports no_sockets) /\ (eph_lo <= 32768 <= eph_hi)%Z.
Proof.
  destruct (get_an_unused_port no_sockets) as [[p s']|] eqn:E; [|vm_compute in E; discriminate].
  assert (p = 32768%Z) as -> by (vm_compute in E; congruence).
  exists s'. split; [done|]. exact (get_an_unused_port_range _ _ _ E).
Defined.

Lemma get_an_unused_port_releases_witness :
  exists s', sockets_ok no_sockets /\ get_an_unused_port no_sockets = Ok (32768%Z, s') /\
    bound_ports s' = bound_ports no_sockets.
Proof.
  assert (Hok : sockets_ok no_sockets) by (intros fd; simpl; rewrite dom_empty_L; set_solver).
  destruct (get_an_unused_port no_sockets) as [[p s']|] eqn:E; [|vm_compute in E; discriminate].
  assert (p = 32768%Z) as -> by (vm_compute in E; congruence).
  exists s'. split_and!; [exact Hok | done |].
  exact (proj1 (get_an_unused_port_releases _ _ _ Hok E)).
Defined.

Lemma get_an_unused_port_returns_witness :
  exists p s', get_an_unused_port no_sockets = Ok (p, s').
Proof.
  apply get_an_unused_port_returns. exists 40000%Z. split; [simpl; lia|].
  unfold bound_ports. simpl. rewrite map_img_empty_L. set_solver.
Defined.

Lemma launch_trusts_foreign_listener_witness :
  sockets_ok no_sockets /\ (exists q, (eph_lo <= q <= eph_hi)%Z /\ q ∉ bound_ports no_sockets) /\
  exists p s, launch_world no_sockets true = Some (p, s, false) /\
    _start_vnu_server 11 plugin_ENV_JAVA_PATH ok_env (world_io no_sockets true)
      «"http"» «"127.0.0.1"» =
    Some (Ok (p, «"http"» ++ «"://"» ++ «"127.0.0.1"» ++ «":"» ++ str_of_Z p, 4242%Z), [4242%Z]).
Proof.
  assert (Hok : sockets_ok no_sockets) by (intros fd; simpl; rewrite dom_empty_L; set_solver).
  assert (Hq : exists q, (eph_lo <= q <= eph_hi)%Z /\ q ∉ bound_ports no_sockets).
  { exists 40000%Z. split; [simpl; lia|]. unfold bound_ports. simpl. rewrite map_img_empty_L. set_solver. }
  split_and!; [exact Hok | exact Hq |]. exact (launch_trusts_foreign_listener no_sockets Hok Hq).
Defined.

End Ports.
